(** * Armazém de laticínios: stock handlers, reports and credential check

    A shallow embedding of [app.py] (the Flask request handlers for adding,
    selling, editing and deleting product batches, deleting areas, and the
    report page) and of [check_user_password] from [models.py].

    Conventions of the embedding.
    - A Python [str] is the list of its Unicode code points; [strip],
      [upper], [int] and the [\d] of [strptime] follow CPython 3.11 with its
      Unicode 14.0 data: the white space of [str.isspace], the full
      upper-case mapping, the decimal digits of every script.
    - Python [int] is [Z].
    - [datetime.date] is a record of year, month and day; comparison,
      [toordinal], [fromordinal], addition of a [timedelta] and difference of
      two dates follow the standard library's proleptic Gregorian algorithms;
      [strftime] writes [%Y] as the C library of Linux does, without leading
      zeros.
    - The persistent store is passed explicitly: a handler takes the store,
      the acting user and the clock where it reads them, and returns the new
      store together with the flashed message and the page it answers with.
    - The handlers are modelled after [login_necessario] has let the request
      through. *)

From stdpp Require Import gmap.
From Stdlib Require Import ZArith List Bool Lia Permutation Sorted Strings.Byte.
Import ListNotations.

Local Open Scope Z_scope.

(** ** Python strings *)

(** A Python [str]: the sequence of its Unicode code points. *)
Definition str : Type := list Z.

(** String literals: ["abc"] is the [str] of the code points of the text
    between the quotes, which is read as UTF-8. *)
Module Literal.

(** The notation is declared through inductive types of its own, which
    mirror [positive], [Z] and [list Z]. *)
Inductive Ipos := IxH | IxO (p : Ipos) | IxI (p : Ipos).
Inductive IZ := IZ0 | IZpos (p : Ipos) | IZneg (p : Ipos).
Inductive IStr := Inil | Icons (c : IZ) (s : IStr).

Fixpoint ipos (p : positive) : Ipos :=
  match p with xH => IxH | xO p => IxO (ipos p) | xI p => IxI (ipos p) end.

Definition iz (z : Z) : IZ :=
  match z with Z0 => IZ0 | Zpos p => IZpos (ipos p) | Zneg p => IZneg (ipos p) end.

Fixpoint pos_i (p : Ipos) : positive :=
  match p with IxH => xH | IxO p => xO (pos_i p) | IxI p => xI (pos_i p) end.

Definition z_i (z : IZ) : Z :=
  match z with IZ0 => Z0 | IZpos p => Zpos (pos_i p) | IZneg p => Zneg (pos_i p) end.

(** A continuation byte of UTF-8. *)
Definition cont (b : Z) : bool := (128 <=? b) && (b <? 192).

(** The code points of a text in UTF-8, given by its bytes. *)
Fixpoint utf8_decode (l : list Z) : option (list Z) :=
  match l with
  | [] => Some []
  | b0 :: r0 =>
      if b0 <? 128 then option_map (cons b0) (utf8_decode r0)
      else
        match r0 with
        | b1 :: r1 =>
            if (192 <=? b0) && (b0 <? 224) && cont b1
            then option_map (cons ((b0 - 192) * 64 + (b1 - 128))) (utf8_decode r1)
            else
              match r1 with
              | b2 :: r2 =>
                  if (224 <=? b0) && (b0 <? 240) && cont b1 && cont b2
                  then option_map
                         (cons ((b0 - 224) * 4096 + (b1 - 128) * 64 + (b2 - 128)))
                         (utf8_decode r2)
                  else
                    match r2 with
                    | b3 :: r3 =>
                        if (240 <=? b0) && (b0 <? 248) && cont b1 && cont b2 && cont b3
                        then option_map
                               (cons ((b0 - 240) * 262144 + (b1 - 128) * 4096
                                      + (b2 - 128) * 64 + (b3 - 128)))
                               (utf8_decode r3)
                        else None
                    | [] => None
                    end
              | [] => None
              end
        | [] => None
        end
  end.

(** The bytes of a code point in UTF-8. *)
Definition utf8_encode (c : Z) : list Z :=
  if c <? 128 then [c]
  else if c <? 2048 then [192 + c / 64; 128 + c mod 64]
  else if c <? 65536 then [224 + c / 4096; 128 + c / 64 mod 64; 128 + c mod 64]
  else [240 + c / 262144; 128 + c / 4096 mod 64; 128 + c / 64 mod 64; 128 + c mod 64].

Fixpoint istr (l : list Z) : IStr :=
  match l with [] => Inil | c :: l => Icons (iz c) (istr l) end.

Fixpoint str_i (s : IStr) : list Z :=
  match s with Inil => [] | Icons c s => z_i c :: str_i s end.

Definition parse (l : list Byte.byte) : option IStr :=
  option_map istr (utf8_decode (map (fun b => Z.of_N (Byte.to_N b)) l)).

Fixpoint bytes (l : list Z) : option (list Byte.byte) :=
  match l with
  | [] => Some []
  | b :: l =>
      match Byte.of_N (Z.to_N b), bytes l with
      | Some x, Some r => Some (x :: r)
      | _, _ => None
      end
  end.

Definition print (s : IStr) : option (list Byte.byte) :=
  bytes (flat_map utf8_encode (str_i s)).

End Literal.

Declare Scope str_scope.
Delimit Scope str_scope with str.
Bind Scope str_scope with str.
#[warnings="-via-type-remapping,-via-type-mismatch"]
String Notation str Literal.parse Literal.print
  (via Literal.IStr mapping
     [[nil] => Literal.Inil, [cons] => Literal.Icons,
      Z0 => Literal.IZ0, Zpos => Literal.IZpos, Zneg => Literal.IZneg,
      xH => Literal.IxH, xO => Literal.IxO, xI => Literal.IxI]) : str_scope.

Local Open Scope str_scope.

(** [a == b] on two [str] values. *)
Fixpoint str_eqb (a b : str) : bool :=
  match a, b with
  | [], [] => true
  | x :: a', y :: b' => (x =? y) && str_eqb a' b'
  | _, _ => false
  end.

Module PyStr.

(** [bool(s)] for an optional form field: [None] and [''] are falsy. *)
Definition truthy (o : option str) : bool :=
  match o with
  | Some (_ :: _) => true
  | _ => false
  end.

(** The code points for which [str.isspace] holds, which are the ones that
    [str.strip] removes. *)
Definition is_space (c : Z) : bool :=
  ((9 <=? c) && (c <=? 13)) || ((28 <=? c) && (c <=? 32)) ||
  (c =? 133) || (c =? 160) || (c =? 5760) ||
  ((8192 <=? c) && (c <=? 8202)) ||
  (c =? 8232) || (c =? 8233) || (c =? 8239) || (c =? 8287) || (c =? 12288).

Fixpoint lstrip (s : str) : str :=
  match s with
  | [] => []
  | c :: s' => if is_space c then lstrip s' else s
  end.

Fixpoint rstrip (s : str) : str :=
  match s with
  | [] => []
  | c :: s' =>
      match rstrip s' with
      | [] => if is_space c then [] else [c]
      | r => c :: r
      end
  end.

(** [s.strip()] *)
Definition strip (s : str) : str := rstrip (lstrip s).

(** The code points from 128 up whose upper-case form is not the code point
    itself, each with its upper-case form (Unicode 14.0, the data of
    CPython 3.11); some forms have two or three code points. *)
Definition maiusculas : list (Z * list Z) :=
  [
   (181, [924]); (223, [83; 83]); (224, [192]); (225, [193]); (226, [194]);
   (227, [195]); (228, [196]); (229, [197]); (230, [198]); (231, [199]);
   (232, [200]); (233, [201]); (234, [202]); (235, [203]); (236, [204]);
   (237, [205]); (238, [206]); (239, [207]); (240, [208]); (241, [209]);
   (242, [210]); (243, [211]); (244, [212]); (245, [213]); (246, [214]);
   (248, [216]); (249, [217]); (250, [218]); (251, [219]); (252, [220]);
   (253, [221]); (254, [222]); (255, [376]); (257, [256]); (259, [258]);
   (261, [260]); (263, [262]); (265, [264]); (267, [266]); (269, [268]);
   (271, [270]); (273, [272]); (275, [274]); (277, [276]); (279, [278]);
   (281, [280]); (283, [282]); (285, [284]); (287, [286]); (289, [288]);
   (291, [290]); (293, [292]); (295, [294]); (297, [296]); (299, [298]);
   (301, [300]); (303, [302]); (305, [73]); (307, [306]); (309, [308]);
   (311, [310]); (314, [313]); (316, [315]); (318, [317]); (320, [319]);
   (322, [321]); (324, [323]); (326, [325]); (328, [327]); (329, [700; 78]);
   (331, [330]); (333, [332]); (335, [334]); (337, [336]); (339, [338]);
   (341, [340]); (343, [342]); (345, [344]); (347, [346]); (349, [348]);
   (351, [350]); (353, [352]); (355, [354]); (357, [356]); (359, [358]);
   (361, [360]); (363, [362]); (365, [364]); (367, [366]); (369, [368]);
   (371, [370]); (373, [372]); (375, [374]); (378, [377]); (380, [379]);
   (382, [381]); (383, [83]); (384, [579]); (387, [386]); (389, [388]);
   (392, [391]); (396, [395]); (402, [401]); (405, [502]); (409, [408]);
   (410, [573]); (414, [544]); (417, [416]); (419, [418]); (421, [420]);
   (424, [423]); (429, [428]); (432, [431]); (436, [435]); (438, [437]);
   (441, [440]); (445, [444]); (447, [503]); (453, [452]); (454, [452]);
   (456, [455]); (457, [455]); (459, [458]); (460, [458]); (462, [461]);
   (464, [463]); (466, [465]); (468, [467]); (470, [469]); (472, [471]);
   (474, [473]); (476, [475]); (477, [398]); (479, [478]); (481, [480]);
   (483, [482]); (485, [484]); (487, [486]); (489, [488]); (491, [490]);
   (493, [492]); (495, [494]); (496, [74; 780]); (498, [497]); (499, [497]);
   (501, [500]); (505, [504]); (507, [506]); (509, [508]); (511, [510]);
   (513, [512]); (515, [514]); (517, [516]); (519, [518]); (521, [520]);
   (523, [522]); (525, [524]); (527, [526]); (529, [528]); (531, [530]);
   (533, [532]); (535, [534]); (537, [536]); (539, [538]); (541, [540]);
   (543, [542]); (547, [546]); (549, [548]); (551, [550]); (553, [552]);
   (555, [554]); (557, [556]); (559, [558]); (561, [560]); (563, [562]);
   (572, [571]); (575, [11390]); (576, [11391]); (578, [577]); (583, [582]);
   (585, [584]); (587, [586]); (589, [588]); (591, [590]); (592, [11375]);
   (593, [11373]); (594, [11376]); (595, [385]); (596, [390]); (598, [393]);
   (599, [394]); (601, [399]); (603, [400]); (604, [42923]); (608, [403]);
   (609, [42924]); (611, [404]); (613, [42893]); (614, [42922]); (616, [407]);
   (617, [406]); (618, [42926]); (619, [11362]); (620, [42925]); (623, [412]);
   (625, [11374]); (626, [413]); (629, [415]); (637, [11364]); (640, [422]);
   (642, [42949]); (643, [425]); (647, [42929]); (648, [430]); (649, [580]);
   (650, [433]); (651, [434]); (652, [581]); (658, [439]); (669, [42930]);
   (670, [42928]); (837, [921]); (881, [880]); (883, [882]); (887, [886]);
   (891, [1021]); (892, [1022]); (893, [1023]); (912, [921; 776; 769]); (940, [902]);
   (941, [904]); (942, [905]); (943, [906]); (944, [933; 776; 769]); (945, [913]);
   (946, [914]); (947, [915]); (948, [916]); (949, [917]); (950, [918]);
   (951, [919]); (952, [920]); (953, [921]); (954, [922]); (955, [923]);
   (956, [924]); (957, [925]); (958, [926]); (959, [927]); (960, [928]);
   (961, [929]); (962, [931]); (963, [931]); (964, [932]); (965, [933]);
   (966, [934]); (967, [935]); (968, [936]); (969, [937]); (970, [938]);
   (971, [939]); (972, [908]); (973, [910]); (974, [911]); (976, [914]);
   (977, [920]); (981, [934]); (982, [928]); (983, [975]); (985, [984]);
   (987, [986]); (989, [988]); (991, [990]); (993, [992]); (995, [994]);
   (997, [996]); (999, [998]); (1001, [1000]); (1003, [1002]); (1005, [1004]);
   (1007, [1006]); (1008, [922]); (1009, [929]); (1010, [1017]); (1011, [895]);
   (1013, [917]); (1016, [1015]); (1019, [1018]); (1072, [1040]); (1073, [1041]);
   (1074, [1042]); (1075, [1043]); (1076, [1044]); (1077, [1045]); (1078, [1046]);
   (1079, [1047]); (1080, [1048]); (1081, [1049]); (1082, [1050]); (1083, [1051]);
   (1084, [1052]); (1085, [1053]); (1086, [1054]); (1087, [1055]); (1088, [1056]);
   (1089, [1057]); (1090, [1058]); (1091, [1059]); (1092, [1060]); (1093, [1061]);
   (1094, [1062]); (1095, [1063]); (1096, [1064]); (1097, [1065]); (1098, [1066]);
   (1099, [1067]); (1100, [1068]); (1101, [1069]); (1102, [1070]); (1103, [1071]);
   (1104, [1024]); (1105, [1025]); (1106, [1026]); (1107, [1027]); (1108, [1028]);
   (1109, [1029]); (1110, [1030]); (1111, [1031]); (1112, [1032]); (1113, [1033]);
   (1114, [1034]); (1115, [1035]); (1116, [1036]); (1117, [1037]); (1118, [1038]);
   (1119, [1039]); (1121, [1120]); (1123, [1122]); (1125, [1124]); (1127, [1126]);
   (1129, [1128]); (1131, [1130]); (1133, [1132]); (1135, [1134]); (1137, [1136]);
   (1139, [1138]); (1141, [1140]); (1143, [1142]); (1145, [1144]); (1147, [1146]);
   (1149, [1148]); (1151, [1150]); (1153, [1152]); (1163, [1162]); (1165, [1164]);
   (1167, [1166]); (1169, [1168]); (1171, [1170]); (1173, [1172]); (1175, [1174]);
   (1177, [1176]); (1179, [1178]); (1181, [1180]); (1183, [1182]); (1185, [1184]);
   (1187, [1186]); (1189, [1188]); (1191, [1190]); (1193, [1192]); (1195, [1194]);
   (1197, [1196]); (1199, [1198]); (1201, [1200]); (1203, [1202]); (1205, [1204]);
   (1207, [1206]); (1209, [1208]); (1211, [1210]); (1213, [1212]); (1215, [1214]);
   (1218, [1217]); (1220, [1219]); (1222, [1221]); (1224, [1223]); (1226, [1225]);
   (1228, [1227]); (1230, [1229]); (1231, [1216]); (1233, [1232]); (1235, [1234]);
   (1237, [1236]); (1239, [1238]); (1241, [1240]); (1243, [1242]); (1245, [1244]);
   (1247, [1246]); (1249, [1248]); (1251, [1250]); (1253, [1252]); (1255, [1254]);
   (1257, [1256]); (1259, [1258]); (1261, [1260]); (1263, [1262]); (1265, [1264]);
   (1267, [1266]); (1269, [1268]); (1271, [1270]); (1273, [1272]); (1275, [1274]);
   (1277, [1276]); (1279, [1278]); (1281, [1280]); (1283, [1282]); (1285, [1284]);
   (1287, [1286]); (1289, [1288]); (1291, [1290]); (1293, [1292]); (1295, [1294]);
   (1297, [1296]); (1299, [1298]); (1301, [1300]); (1303, [1302]); (1305, [1304]);
   (1307, [1306]); (1309, [1308]); (1311, [1310]); (1313, [1312]); (1315, [1314]);
   (1317, [1316]); (1319, [1318]); (1321, [1320]); (1323, [1322]); (1325, [1324]);
   (1327, [1326]); (1377, [1329]); (1378, [1330]); (1379, [1331]); (1380, [1332]);
   (1381, [1333]); (1382, [1334]); (1383, [1335]); (1384, [1336]); (1385, [1337]);
   (1386, [1338]); (1387, [1339]); (1388, [1340]); (1389, [1341]); (1390, [1342]);
   (1391, [1343]); (1392, [1344]); (1393, [1345]); (1394, [1346]); (1395, [1347]);
   (1396, [1348]); (1397, [1349]); (1398, [1350]); (1399, [1351]); (1400, [1352]);
   (1401, [1353]); (1402, [1354]); (1403, [1355]); (1404, [1356]); (1405, [1357]);
   (1406, [1358]); (1407, [1359]); (1408, [1360]); (1409, [1361]); (1410, [1362]);
   (1411, [1363]); (1412, [1364]); (1413, [1365]); (1414, [1366]); (1415, [1333; 1362]);
   (4304, [7312]); (4305, [7313]); (4306, [7314]); (4307, [7315]); (4308, [7316]);
   (4309, [7317]); (4310, [7318]); (4311, [7319]); (4312, [7320]); (4313, [7321]);
   (4314, [7322]); (4315, [7323]); (4316, [7324]); (4317, [7325]); (4318, [7326]);
   (4319, [7327]); (4320, [7328]); (4321, [7329]); (4322, [7330]); (4323, [7331]);
   (4324, [7332]); (4325, [7333]); (4326, [7334]); (4327, [7335]); (4328, [7336]);
   (4329, [7337]); (4330, [7338]); (4331, [7339]); (4332, [7340]); (4333, [7341]);
   (4334, [7342]); (4335, [7343]); (4336, [7344]); (4337, [7345]); (4338, [7346]);
   (4339, [7347]); (4340, [7348]); (4341, [7349]); (4342, [7350]); (4343, [7351]);
   (4344, [7352]); (4345, [7353]); (4346, [7354]); (4349, [7357]); (4350, [7358]);
   (4351, [7359]); (5112, [5104]); (5113, [5105]); (5114, [5106]); (5115, [5107]);
   (5116, [5108]); (5117, [5109]); (7296, [1042]); (7297, [1044]); (7298, [1054]);
   (7299, [1057]); (7300, [1058]); (7301, [1058]); (7302, [1066]); (7303, [1122]);
   (7304, [42570]); (7545, [42877]); (7549, [11363]); (7566, [42950]); (7681, [7680]);
   (7683, [7682]); (7685, [7684]); (7687, [7686]); (7689, [7688]); (7691, [7690]);
   (7693, [7692]); (7695, [7694]); (7697, [7696]); (7699, [7698]); (7701, [7700]);
   (7703, [7702]); (7705, [7704]); (7707, [7706]); (7709, [7708]); (7711, [7710]);
   (7713, [7712]); (7715, [7714]); (7717, [7716]); (7719, [7718]); (7721, [7720]);
   (7723, [7722]); (7725, [7724]); (7727, [7726]); (7729, [7728]); (7731, [7730]);
   (7733, [7732]); (7735, [7734]); (7737, [7736]); (7739, [7738]); (7741, [7740]);
   (7743, [7742]); (7745, [7744]); (7747, [7746]); (7749, [7748]); (7751, [7750]);
   (7753, [7752]); (7755, [7754]); (7757, [7756]); (7759, [7758]); (7761, [7760]);
   (7763, [7762]); (7765, [7764]); (7767, [7766]); (7769, [7768]); (7771, [7770]);
   (7773, [7772]); (7775, [7774]); (7777, [7776]); (7779, [7778]); (7781, [7780]);
   (7783, [7782]); (7785, [7784]); (7787, [7786]); (7789, [7788]); (7791, [7790]);
   (7793, [7792]); (7795, [7794]); (7797, [7796]); (7799, [7798]); (7801, [7800]);
   (7803, [7802]); (7805, [7804]); (7807, [7806]); (7809, [7808]); (7811, [7810]);
   (7813, [7812]); (7815, [7814]); (7817, [7816]); (7819, [7818]); (7821, [7820]);
   (7823, [7822]); (7825, [7824]); (7827, [7826]); (7829, [7828]); (7830, [72; 817]);
   (7831, [84; 776]); (7832, [87; 778]); (7833, [89; 778]); (7834, [65; 702]); (7835, [7776]);
   (7841, [7840]); (7843, [7842]); (7845, [7844]); (7847, [7846]); (7849, [7848]);
   (7851, [7850]); (7853, [7852]); (7855, [7854]); (7857, [7856]); (7859, [7858]);
   (7861, [7860]); (7863, [7862]); (7865, [7864]); (7867, [7866]); (7869, [7868]);
   (7871, [7870]); (7873, [7872]); (7875, [7874]); (7877, [7876]); (7879, [7878]);
   (7881, [7880]); (7883, [7882]); (7885, [7884]); (7887, [7886]); (7889, [7888]);
   (7891, [7890]); (7893, [7892]); (7895, [7894]); (7897, [7896]); (7899, [7898]);
   (7901, [7900]); (7903, [7902]); (7905, [7904]); (7907, [7906]); (7909, [7908]);
   (7911, [7910]); (7913, [7912]); (7915, [7914]); (7917, [7916]); (7919, [7918]);
   (7921, [7920]); (7923, [7922]); (7925, [7924]); (7927, [7926]); (7929, [7928]);
   (7931, [7930]); (7933, [7932]); (7935, [7934]); (7936, [7944]); (7937, [7945]);
   (7938, [7946]); (7939, [7947]); (7940, [7948]); (7941, [7949]); (7942, [7950]);
   (7943, [7951]); (7952, [7960]); (7953, [7961]); (7954, [7962]); (7955, [7963]);
   (7956, [7964]); (7957, [7965]); (7968, [7976]); (7969, [7977]); (7970, [7978]);
   (7971, [7979]); (7972, [7980]); (7973, [7981]); (7974, [7982]); (7975, [7983]);
   (7984, [7992]); (7985, [7993]); (7986, [7994]); (7987, [7995]); (7988, [7996]);
   (7989, [7997]); (7990, [7998]); (7991, [7999]); (8000, [8008]); (8001, [8009]);
   (8002, [8010]); (8003, [8011]); (8004, [8012]); (8005, [8013]); (8016, [933; 787]);
   (8017, [8025]); (8018, [933; 787; 768]); (8019, [8027]); (8020, [933; 787; 769]); (8021, [8029]);
   (8022, [933; 787; 834]); (8023, [8031]); (8032, [8040]); (8033, [8041]); (8034, [8042]);
   (8035, [8043]); (8036, [8044]); (8037, [8045]); (8038, [8046]); (8039, [8047]);
   (8048, [8122]); (8049, [8123]); (8050, [8136]); (8051, [8137]); (8052, [8138]);
   (8053, [8139]); (8054, [8154]); (8055, [8155]); (8056, [8184]); (8057, [8185]);
   (8058, [8170]); (8059, [8171]); (8060, [8186]); (8061, [8187]); (8064, [7944; 921]);
   (8065, [7945; 921]); (8066, [7946; 921]); (8067, [7947; 921]); (8068, [7948; 921]); (8069, [7949; 921]);
   (8070, [7950; 921]); (8071, [7951; 921]); (8072, [7944; 921]); (8073, [7945; 921]); (8074, [7946; 921]);
   (8075, [7947; 921]); (8076, [7948; 921]); (8077, [7949; 921]); (8078, [7950; 921]); (8079, [7951; 921]);
   (8080, [7976; 921]); (8081, [7977; 921]); (8082, [7978; 921]); (8083, [7979; 921]); (8084, [7980; 921]);
   (8085, [7981; 921]); (8086, [7982; 921]); (8087, [7983; 921]); (8088, [7976; 921]); (8089, [7977; 921]);
   (8090, [7978; 921]); (8091, [7979; 921]); (8092, [7980; 921]); (8093, [7981; 921]); (8094, [7982; 921]);
   (8095, [7983; 921]); (8096, [8040; 921]); (8097, [8041; 921]); (8098, [8042; 921]); (8099, [8043; 921]);
   (8100, [8044; 921]); (8101, [8045; 921]); (8102, [8046; 921]); (8103, [8047; 921]); (8104, [8040; 921]);
   (8105, [8041; 921]); (8106, [8042; 921]); (8107, [8043; 921]); (8108, [8044; 921]); (8109, [8045; 921]);
   (8110, [8046; 921]); (8111, [8047; 921]); (8112, [8120]); (8113, [8121]); (8114, [8122; 921]);
   (8115, [913; 921]); (8116, [902; 921]); (8118, [913; 834]); (8119, [913; 834; 921]); (8124, [913; 921]);
   (8126, [921]); (8130, [8138; 921]); (8131, [919; 921]); (8132, [905; 921]); (8134, [919; 834]);
   (8135, [919; 834; 921]); (8140, [919; 921]); (8144, [8152]); (8145, [8153]); (8146, [921; 776; 768]);
   (8147, [921; 776; 769]); (8150, [921; 834]); (8151, [921; 776; 834]); (8160, [8168]); (8161, [8169]);
   (8162, [933; 776; 768]); (8163, [933; 776; 769]); (8164, [929; 787]); (8165, [8172]); (8166, [933; 834]);
   (8167, [933; 776; 834]); (8178, [8186; 921]); (8179, [937; 921]); (8180, [911; 921]); (8182, [937; 834]);
   (8183, [937; 834; 921]); (8188, [937; 921]); (8526, [8498]); (8560, [8544]); (8561, [8545]);
   (8562, [8546]); (8563, [8547]); (8564, [8548]); (8565, [8549]); (8566, [8550]);
   (8567, [8551]); (8568, [8552]); (8569, [8553]); (8570, [8554]); (8571, [8555]);
   (8572, [8556]); (8573, [8557]); (8574, [8558]); (8575, [8559]); (8580, [8579]);
   (9424, [9398]); (9425, [9399]); (9426, [9400]); (9427, [9401]); (9428, [9402]);
   (9429, [9403]); (9430, [9404]); (9431, [9405]); (9432, [9406]); (9433, [9407]);
   (9434, [9408]); (9435, [9409]); (9436, [9410]); (9437, [9411]); (9438, [9412]);
   (9439, [9413]); (9440, [9414]); (9441, [9415]); (9442, [9416]); (9443, [9417]);
   (9444, [9418]); (9445, [9419]); (9446, [9420]); (9447, [9421]); (9448, [9422]);
   (9449, [9423]); (11312, [11264]); (11313, [11265]); (11314, [11266]); (11315, [11267]);
   (11316, [11268]); (11317, [11269]); (11318, [11270]); (11319, [11271]); (11320, [11272]);
   (11321, [11273]); (11322, [11274]); (11323, [11275]); (11324, [11276]); (11325, [11277]);
   (11326, [11278]); (11327, [11279]); (11328, [11280]); (11329, [11281]); (11330, [11282]);
   (11331, [11283]); (11332, [11284]); (11333, [11285]); (11334, [11286]); (11335, [11287]);
   (11336, [11288]); (11337, [11289]); (11338, [11290]); (11339, [11291]); (11340, [11292]);
   (11341, [11293]); (11342, [11294]); (11343, [11295]); (11344, [11296]); (11345, [11297]);
   (11346, [11298]); (11347, [11299]); (11348, [11300]); (11349, [11301]); (11350, [11302]);
   (11351, [11303]); (11352, [11304]); (11353, [11305]); (11354, [11306]); (11355, [11307]);
   (11356, [11308]); (11357, [11309]); (11358, [11310]); (11359, [11311]); (11361, [11360]);
   (11365, [570]); (11366, [574]); (11368, [11367]); (11370, [11369]); (11372, [11371]);
   (11379, [11378]); (11382, [11381]); (11393, [11392]); (11395, [11394]); (11397, [11396]);
   (11399, [11398]); (11401, [11400]); (11403, [11402]); (11405, [11404]); (11407, [11406]);
   (11409, [11408]); (11411, [11410]); (11413, [11412]); (11415, [11414]); (11417, [11416]);
   (11419, [11418]); (11421, [11420]); (11423, [11422]); (11425, [11424]); (11427, [11426]);
   (11429, [11428]); (11431, [11430]); (11433, [11432]); (11435, [11434]); (11437, [11436]);
   (11439, [11438]); (11441, [11440]); (11443, [11442]); (11445, [11444]); (11447, [11446]);
   (11449, [11448]); (11451, [11450]); (11453, [11452]); (11455, [11454]); (11457, [11456]);
   (11459, [11458]); (11461, [11460]); (11463, [11462]); (11465, [11464]); (11467, [11466]);
   (11469, [11468]); (11471, [11470]); (11473, [11472]); (11475, [11474]); (11477, [11476]);
   (11479, [11478]); (11481, [11480]); (11483, [11482]); (11485, [11484]); (11487, [11486]);
   (11489, [11488]); (11491, [11490]); (11500, [11499]); (11502, [11501]); (11507, [11506]);
   (11520, [4256]); (11521, [4257]); (11522, [4258]); (11523, [4259]); (11524, [4260]);
   (11525, [4261]); (11526, [4262]); (11527, [4263]); (11528, [4264]); (11529, [4265]);
   (11530, [4266]); (11531, [4267]); (11532, [4268]); (11533, [4269]); (11534, [4270]);
   (11535, [4271]); (11536, [4272]); (11537, [4273]); (11538, [4274]); (11539, [4275]);
   (11540, [4276]); (11541, [4277]); (11542, [4278]); (11543, [4279]); (11544, [4280]);
   (11545, [4281]); (11546, [4282]); (11547, [4283]); (11548, [4284]); (11549, [4285]);
   (11550, [4286]); (11551, [4287]); (11552, [4288]); (11553, [4289]); (11554, [4290]);
   (11555, [4291]); (11556, [4292]); (11557, [4293]); (11559, [4295]); (11565, [4301]);
   (42561, [42560]); (42563, [42562]); (42565, [42564]); (42567, [42566]); (42569, [42568]);
   (42571, [42570]); (42573, [42572]); (42575, [42574]); (42577, [42576]); (42579, [42578]);
   (42581, [42580]); (42583, [42582]); (42585, [42584]); (42587, [42586]); (42589, [42588]);
   (42591, [42590]); (42593, [42592]); (42595, [42594]); (42597, [42596]); (42599, [42598]);
   (42601, [42600]); (42603, [42602]); (42605, [42604]); (42625, [42624]); (42627, [42626]);
   (42629, [42628]); (42631, [42630]); (42633, [42632]); (42635, [42634]); (42637, [42636]);
   (42639, [42638]); (42641, [42640]); (42643, [42642]); (42645, [42644]); (42647, [42646]);
   (42649, [42648]); (42651, [42650]); (42787, [42786]); (42789, [42788]); (42791, [42790]);
   (42793, [42792]); (42795, [42794]); (42797, [42796]); (42799, [42798]); (42803, [42802]);
   (42805, [42804]); (42807, [42806]); (42809, [42808]); (42811, [42810]); (42813, [42812]);
   (42815, [42814]); (42817, [42816]); (42819, [42818]); (42821, [42820]); (42823, [42822]);
   (42825, [42824]); (42827, [42826]); (42829, [42828]); (42831, [42830]); (42833, [42832]);
   (42835, [42834]); (42837, [42836]); (42839, [42838]); (42841, [42840]); (42843, [42842]);
   (42845, [42844]); (42847, [42846]); (42849, [42848]); (42851, [42850]); (42853, [42852]);
   (42855, [42854]); (42857, [42856]); (42859, [42858]); (42861, [42860]); (42863, [42862]);
   (42874, [42873]); (42876, [42875]); (42879, [42878]); (42881, [42880]); (42883, [42882]);
   (42885, [42884]); (42887, [42886]); (42892, [42891]); (42897, [42896]); (42899, [42898]);
   (42900, [42948]); (42903, [42902]); (42905, [42904]); (42907, [42906]); (42909, [42908]);
   (42911, [42910]); (42913, [42912]); (42915, [42914]); (42917, [42916]); (42919, [42918]);
   (42921, [42920]); (42933, [42932]); (42935, [42934]); (42937, [42936]); (42939, [42938]);
   (42941, [42940]); (42943, [42942]); (42945, [42944]); (42947, [42946]); (42952, [42951]);
   (42954, [42953]); (42961, [42960]); (42967, [42966]); (42969, [42968]); (42998, [42997]);
   (43859, [42931]); (43888, [5024]); (43889, [5025]); (43890, [5026]); (43891, [5027]);
   (43892, [5028]); (43893, [5029]); (43894, [5030]); (43895, [5031]); (43896, [5032]);
   (43897, [5033]); (43898, [5034]); (43899, [5035]); (43900, [5036]); (43901, [5037]);
   (43902, [5038]); (43903, [5039]); (43904, [5040]); (43905, [5041]); (43906, [5042]);
   (43907, [5043]); (43908, [5044]); (43909, [5045]); (43910, [5046]); (43911, [5047]);
   (43912, [5048]); (43913, [5049]); (43914, [5050]); (43915, [5051]); (43916, [5052]);
   (43917, [5053]); (43918, [5054]); (43919, [5055]); (43920, [5056]); (43921, [5057]);
   (43922, [5058]); (43923, [5059]); (43924, [5060]); (43925, [5061]); (43926, [5062]);
   (43927, [5063]); (43928, [5064]); (43929, [5065]); (43930, [5066]); (43931, [5067]);
   (43932, [5068]); (43933, [5069]); (43934, [5070]); (43935, [5071]); (43936, [5072]);
   (43937, [5073]); (43938, [5074]); (43939, [5075]); (43940, [5076]); (43941, [5077]);
   (43942, [5078]); (43943, [5079]); (43944, [5080]); (43945, [5081]); (43946, [5082]);
   (43947, [5083]); (43948, [5084]); (43949, [5085]); (43950, [5086]); (43951, [5087]);
   (43952, [5088]); (43953, [5089]); (43954, [5090]); (43955, [5091]); (43956, [5092]);
   (43957, [5093]); (43958, [5094]); (43959, [5095]); (43960, [5096]); (43961, [5097]);
   (43962, [5098]); (43963, [5099]); (43964, [5100]); (43965, [5101]); (43966, [5102]);
   (43967, [5103]); (64256, [70; 70]); (64257, [70; 73]); (64258, [70; 76]); (64259, [70; 70; 73]);
   (64260, [70; 70; 76]); (64261, [83; 84]); (64262, [83; 84]); (64275, [1348; 1350]); (64276, [1348; 1333]);
   (64277, [1348; 1339]); (64278, [1358; 1350]); (64279, [1348; 1341]); (65345, [65313]); (65346, [65314]);
   (65347, [65315]); (65348, [65316]); (65349, [65317]); (65350, [65318]); (65351, [65319]);
   (65352, [65320]); (65353, [65321]); (65354, [65322]); (65355, [65323]); (65356, [65324]);
   (65357, [65325]); (65358, [65326]); (65359, [65327]); (65360, [65328]); (65361, [65329]);
   (65362, [65330]); (65363, [65331]); (65364, [65332]); (65365, [65333]); (65366, [65334]);
   (65367, [65335]); (65368, [65336]); (65369, [65337]); (65370, [65338]); (66600, [66560]);
   (66601, [66561]); (66602, [66562]); (66603, [66563]); (66604, [66564]); (66605, [66565]);
   (66606, [66566]); (66607, [66567]); (66608, [66568]); (66609, [66569]); (66610, [66570]);
   (66611, [66571]); (66612, [66572]); (66613, [66573]); (66614, [66574]); (66615, [66575]);
   (66616, [66576]); (66617, [66577]); (66618, [66578]); (66619, [66579]); (66620, [66580]);
   (66621, [66581]); (66622, [66582]); (66623, [66583]); (66624, [66584]); (66625, [66585]);
   (66626, [66586]); (66627, [66587]); (66628, [66588]); (66629, [66589]); (66630, [66590]);
   (66631, [66591]); (66632, [66592]); (66633, [66593]); (66634, [66594]); (66635, [66595]);
   (66636, [66596]); (66637, [66597]); (66638, [66598]); (66639, [66599]); (66776, [66736]);
   (66777, [66737]); (66778, [66738]); (66779, [66739]); (66780, [66740]); (66781, [66741]);
   (66782, [66742]); (66783, [66743]); (66784, [66744]); (66785, [66745]); (66786, [66746]);
   (66787, [66747]); (66788, [66748]); (66789, [66749]); (66790, [66750]); (66791, [66751]);
   (66792, [66752]); (66793, [66753]); (66794, [66754]); (66795, [66755]); (66796, [66756]);
   (66797, [66757]); (66798, [66758]); (66799, [66759]); (66800, [66760]); (66801, [66761]);
   (66802, [66762]); (66803, [66763]); (66804, [66764]); (66805, [66765]); (66806, [66766]);
   (66807, [66767]); (66808, [66768]); (66809, [66769]); (66810, [66770]); (66811, [66771]);
   (66967, [66928]); (66968, [66929]); (66969, [66930]); (66970, [66931]); (66971, [66932]);
   (66972, [66933]); (66973, [66934]); (66974, [66935]); (66975, [66936]); (66976, [66937]);
   (66977, [66938]); (66979, [66940]); (66980, [66941]); (66981, [66942]); (66982, [66943]);
   (66983, [66944]); (66984, [66945]); (66985, [66946]); (66986, [66947]); (66987, [66948]);
   (66988, [66949]); (66989, [66950]); (66990, [66951]); (66991, [66952]); (66992, [66953]);
   (66993, [66954]); (66995, [66956]); (66996, [66957]); (66997, [66958]); (66998, [66959]);
   (66999, [66960]); (67000, [66961]); (67001, [66962]); (67003, [66964]); (67004, [66965]);
   (68800, [68736]); (68801, [68737]); (68802, [68738]); (68803, [68739]); (68804, [68740]);
   (68805, [68741]); (68806, [68742]); (68807, [68743]); (68808, [68744]); (68809, [68745]);
   (68810, [68746]); (68811, [68747]); (68812, [68748]); (68813, [68749]); (68814, [68750]);
   (68815, [68751]); (68816, [68752]); (68817, [68753]); (68818, [68754]); (68819, [68755]);
   (68820, [68756]); (68821, [68757]); (68822, [68758]); (68823, [68759]); (68824, [68760]);
   (68825, [68761]); (68826, [68762]); (68827, [68763]); (68828, [68764]); (68829, [68765]);
   (68830, [68766]); (68831, [68767]); (68832, [68768]); (68833, [68769]); (68834, [68770]);
   (68835, [68771]); (68836, [68772]); (68837, [68773]); (68838, [68774]); (68839, [68775]);
   (68840, [68776]); (68841, [68777]); (68842, [68778]); (68843, [68779]); (68844, [68780]);
   (68845, [68781]); (68846, [68782]); (68847, [68783]); (68848, [68784]); (68849, [68785]);
   (68850, [68786]); (71872, [71840]); (71873, [71841]); (71874, [71842]); (71875, [71843]);
   (71876, [71844]); (71877, [71845]); (71878, [71846]); (71879, [71847]); (71880, [71848]);
   (71881, [71849]); (71882, [71850]); (71883, [71851]); (71884, [71852]); (71885, [71853]);
   (71886, [71854]); (71887, [71855]); (71888, [71856]); (71889, [71857]); (71890, [71858]);
   (71891, [71859]); (71892, [71860]); (71893, [71861]); (71894, [71862]); (71895, [71863]);
   (71896, [71864]); (71897, [71865]); (71898, [71866]); (71899, [71867]); (71900, [71868]);
   (71901, [71869]); (71902, [71870]); (71903, [71871]); (93792, [93760]); (93793, [93761]);
   (93794, [93762]); (93795, [93763]); (93796, [93764]); (93797, [93765]); (93798, [93766]);
   (93799, [93767]); (93800, [93768]); (93801, [93769]); (93802, [93770]); (93803, [93771]);
   (93804, [93772]); (93805, [93773]); (93806, [93774]); (93807, [93775]); (93808, [93776]);
   (93809, [93777]); (93810, [93778]); (93811, [93779]); (93812, [93780]); (93813, [93781]);
   (93814, [93782]); (93815, [93783]); (93816, [93784]); (93817, [93785]); (93818, [93786]);
   (93819, [93787]); (93820, [93788]); (93821, [93789]); (93822, [93790]); (93823, [93791]);
   (125218, [125184]); (125219, [125185]); (125220, [125186]); (125221, [125187]); (125222, [125188]);
   (125223, [125189]); (125224, [125190]); (125225, [125191]); (125226, [125192]); (125227, [125193]);
   (125228, [125194]); (125229, [125195]); (125230, [125196]); (125231, [125197]); (125232, [125198]);
   (125233, [125199]); (125234, [125200]); (125235, [125201]); (125236, [125202]); (125237, [125203]);
   (125238, [125204]); (125239, [125205]); (125240, [125206]); (125241, [125207]); (125242, [125208]);
   (125243, [125209]); (125244, [125210]); (125245, [125211]); (125246, [125212]); (125247, [125213]);
   (125248, [125214]); (125249, [125215]); (125250, [125216]); (125251, [125217])
  ]%Z.

(** The upper-case form of a code point. *)
Definition upper_char (c : Z) : str :=
  if c <? 128 then (if (97 <=? c) && (c <=? 122) then [c - 32] else [c])
  else
    match find (fun e => fst e =? c) maiusculas with
    | Some e => snd e
    | None => [c]
    end.

(** [s.upper()] *)
Definition upper (s : str) : str := flat_map upper_char s.

(** The code points of the digit zero of every decimal number system of
    Unicode 14.0; the nine code points after each are its digits 1 to 9. *)
Definition zeros : list Z :=
  [
   48; 1632; 1776; 1984; 2406; 2534; 2662; 2790; 2918; 3046;
   3174; 3302; 3430; 3558; 3664; 3792; 3872; 4160; 4240; 6112;
   6160; 6470; 6608; 6784; 6800; 6992; 7088; 7232; 7248; 42528;
   43216; 43264; 43472; 43504; 43600; 44016; 65296; 66720; 68912; 69734;
   69872; 69942; 70096; 70384; 70736; 70864; 71248; 71360; 71472; 71904;
   72016; 72784; 73040; 73120; 92768; 92864; 93008; 120782; 120792; 120802;
   120812; 120822; 123200; 123632; 125264; 130032
  ]%Z.

(** The value of a decimal digit ([Py_UNICODE_TODECIMAL], and what [\d]
    matches). *)
Definition decimal (c : Z) : option Z :=
  match find (fun z => (z <=? c) && (c <? z + 10)) zeros with
  | Some z => Some (c - z)
  | None => None
  end.

(** What [int] makes of a code point before it parses
    ([_PyUnicode_TransformDecimalAndSpaceToASCII]): ASCII is kept, any other
    white space becomes a blank and any other decimal digit its ASCII
    digit; ['?'] stands for what is neither. *)
Definition int_char (c : Z) : Z :=
  if c <? 127 then c
  else if is_space c then 32
  else match decimal c with
       | Some d => 48 + d
       | None => 63
       end.

(** [Py_ISSPACE]: the white space that [int] skips at both ends. The
    separators 28 to 31, which [str.strip] removes, are not in it. *)
Definition Py_ISSPACE (c : Z) : bool :=
  ((9 <=? c) && (c <=? 13)) || (c =? 32).

Fixpoint int_lstrip (s : str) : str :=
  match s with
  | [] => []
  | c :: s' => if Py_ISSPACE c then int_lstrip s' else s
  end.

Fixpoint int_rstrip (s : str) : str :=
  match s with
  | [] => []
  | c :: s' =>
      match int_rstrip s' with
      | [] => if Py_ISSPACE c then [] else [c]
      | r => c :: r
      end
  end.

Definition is_digit (c : Z) : bool := (48 <=? c) && (c <=? 57).

Definition digit_val (c : Z) : Z := c - 48.

(** Decimal digits, a single underscore allowed between two digits.
    [prev] tells whether the previous character was a digit. *)
Fixpoint parse_digits (acc : Z) (prev : bool) (s : str) : option Z :=
  match s with
  | [] => if prev then Some acc else None
  | c :: s' =>
      if c =? 95 then
        if prev then parse_digits acc false s' else None
      else if is_digit c then parse_digits (10 * acc + digit_val c) true s'
      else None
  end.

Fixpoint count_digits (s : str) : Z :=
  match s with
  | [] => 0
  | c :: s' => (if is_digit c then 1 else 0) + count_digits s'
  end.

(** [sys.int_info.default_max_str_digits] *)
Definition max_str_digits : Z := 4300.

(** [int(s)] on a string: [None] stands for [ValueError]. *)
Definition py_int (s : str) : option Z :=
  let t := int_rstrip (int_lstrip (map int_char s)) in
  if max_str_digits <? count_digits t then None
  else
    match t with
    | 43 :: r => parse_digits 0 false r
    | 45 :: r =>
        match parse_digits 0 false r with
        | Some n => Some (- n)
        | None => None
        end
    | r => parse_digits 0 false r
    end.

(** Two code points that are the same, or of which one is the upper-case
    form of the other: ['a'] and ['A'], or U+00E7 and U+00C7. The small
    sharp s U+00DF and the capital sharp s U+1E9E are not such a pair: the
    upper-case form of the first is ["SS"], that of the second is itself. *)
Definition mesma_letra (a b : Z) : bool :=
  (a =? b) || str_eqb (upper_char a) [b] || str_eqb (upper_char b) [a].

(** Two strings that differ only in letter case. *)
Inductive mesmas_letras : str -> str -> Prop :=
| mesmas_letras_vazio : mesmas_letras [] []
| mesmas_letras_cons (a b : Z) (s t : str) :
    mesma_letra a b = true -> mesmas_letras s t ->
    mesmas_letras (a :: s) (b :: t).

Fixpoint todos_espacos (s : str) : bool :=
  match s with
  | [] => true
  | c :: s' => is_space c && todos_espacos s'
  end.

(** Two strings that differ only in letter case or in surrounding white
    space. *)
Definition difere_so_em_caixa_ou_espacos (s t : str) : Prop :=
  exists e1 e2 e3 e4 ns nt,
    s = e1 ++ ns ++ e2 /\ t = e3 ++ nt ++ e4 /\
    todos_espacos e1 = true /\ todos_espacos e2 = true /\
    todos_espacos e3 = true /\ todos_espacos e4 = true /\
    mesmas_letras ns nt.

End PyStr.

(** ** Calendar dates ([datetime.date]) *)

Module PyDate.

Record date := mkdate { year : Z; month : Z; day : Z }.

Definition is_leap (y : Z) : bool :=
  (y mod 4 =? 0) && (negb (y mod 100 =? 0) || (y mod 400 =? 0)).

Definition days_before_year (y : Z) : Z :=
  let y1 := y - 1 in y1 * 365 + y1 / 4 - y1 / 100 + y1 / 400.

Definition DAYS_IN_MONTH : list Z :=
  [-1; 31; 28; 31; 30; 31; 30; 31; 31; 30; 31; 30; 31].

Definition DAYS_BEFORE_MONTH : list Z :=
  [-1; 0; 31; 59; 90; 120; 151; 181; 212; 243; 273; 304; 334].

Definition tab (t : list Z) (m : Z) : Z := nth (Z.to_nat m) t 0.

Definition b2z (b : bool) : Z := if b then 1 else 0.

Definition days_in_month (y m : Z) : Z :=
  if (m =? 2) && is_leap y then 29 else tab DAYS_IN_MONTH m.

Definition days_before_month (y m : Z) : Z :=
  tab DAYS_BEFORE_MONTH m + b2z ((2 <? m) && is_leap y).

Definition ymd2ord (y m d : Z) : Z :=
  days_before_year y + days_before_month y m + d.

Definition DI400Y : Z := Eval cbv in days_before_year 401.
Definition DI100Y : Z := Eval cbv in days_before_year 101.
Definition DI4Y : Z := Eval cbv in days_before_year 5.

Definition ord2ymd (n0 : Z) : date :=
  let n := n0 - 1 in
  let n400 := n / DI400Y in
  let n := n mod DI400Y in
  let y := n400 * 400 + 1 in
  let n100 := n / DI100Y in
  let n := n mod DI100Y in
  let n4 := n / DI4Y in
  let n := n mod DI4Y in
  let n1 := n / 365 in
  let n := n mod 365 in
  let y := y + n100 * 100 + n4 * 4 + n1 in
  if (n1 =? 4) || (n100 =? 4) then mkdate (y - 1) 12 31
  else
    let leapyear := (n1 =? 3) && (negb (n4 =? 24) || (n100 =? 3)) in
    let m := Z.shiftr (n + 50) 5 in
    let preceding := tab DAYS_BEFORE_MONTH m + b2z ((2 <? m) && leapyear) in
    let m' := if n <? preceding then m - 1 else m in
    let preceding' :=
      if n <? preceding
      then preceding - (tab DAYS_IN_MONTH m' + b2z ((m' =? 2) && leapyear))
      else preceding in
    mkdate y m' (n - preceding' + 1).

Definition MINYEAR : Z := 1.
Definition MAXYEAR : Z := 9999.

(** The check made by the constructor [date(y, m, d)]. *)
Definition valid (d : date) : bool :=
  (MINYEAR <=? year d) && (year d <=? MAXYEAR) &&
  (1 <=? month d) && (month d <=? 12) &&
  (1 <=? day d) && (day d <=? days_in_month (year d) (month d)).

Definition toordinal (d : date) : Z := ymd2ord (year d) (month d) (day d).
Definition fromordinal (n : Z) : date := ord2ymd n.

(** [a < b] and [a <= b]: comparison of the (year, month, day) triples. *)
Definition lt (a b : date) : bool :=
  (year a <? year b) ||
  ((year a =? year b) &&
   ((month a <? month b) || ((month a =? month b) && (day a <? day b)))).

Definition eqb (a b : date) : bool :=
  (year a =? year b) && (month a =? month b) && (day a =? day b).

Definition le (a b : date) : bool := lt a b || eqb a b.

Definition MAXORDINAL : Z := 3652059.

(** [d + timedelta(days=k)]; [None] stands for [OverflowError]. *)
Definition add_days (d : date) (k : Z) : option date :=
  let o := toordinal d + k in
  if (0 <? o) && (o <=? MAXORDINAL) then Some (fromordinal o) else None.

(** [(a - b).days] *)
Definition sub_days (a b : date) : Z := toordinal a - toordinal b.

Definition digito (n : Z) : Z := 48 + n.

(** [%m] and [%d]: two digits. *)
Definition fmt2 (n : Z) : str := [digito (n / 10); digito (n mod 10)].

(** [%Y] as the C library writes it: the year in decimal, without leading
    zeros. *)
Definition fmtY (n : Z) : str :=
  if n <? 10 then [digito n]
  else if n <? 100 then [digito (n / 10); digito (n mod 10)]
  else if n <? 1000 then [digito (n / 100); digito (n / 10 mod 10); digito (n mod 10)]
  else [digito (n / 1000); digito (n / 100 mod 10); digito (n / 10 mod 10);
        digito (n mod 10)].

(** [d.strftime('%Y-%m-%d')] *)
Definition strftime_Ymd (d : date) : str :=
  fmtY (year d) ++ "-" ++ fmt2 (month d) ++ "-" ++ fmt2 (day d).

Import PyStr.

(** [[1-9]] *)
Definition um_a_nove (c : Z) : bool := (49 <=? c) && (c <=? 57).

(** [(?P<Y>\d\d\d\d)-]: four decimal digits, of any script, and the dash;
    with the year the text after them. *)
Definition parse_Y (s : str) : option (Z * str) :=
  match s with
  | a :: b :: c :: d :: 45 :: r =>
      match decimal a, decimal b, decimal c, decimal d with
      | Some x, Some y, Some z, Some w => Some (1000 * x + 100 * y + 10 * z + w, r)
      | _, _, _, _ => None
      end
  | _ => None
  end.

(** The first alternative of a regular expression that matches. *)
Definition ou {A : Type} (a b : option A) : option A :=
  match a with
  | Some _ => a
  | None => b
  end.

(** [(?P<m>1[0-2]|0[1-9]|[1-9])-]: the alternatives in their order, each
    followed by the dash; with the month the text after the dash. *)
Definition parse_m (s : str) : option (Z * str) :=
  ou (match s with
      | 49 :: b :: 45 :: r =>
          if (48 <=? b) && (b <=? 50) then Some (10 + (b - 48), r) else None
      | _ => None
      end)
 (ou (match s with
      | 48 :: b :: 45 :: r => if um_a_nove b then Some (b - 48, r) else None
      | _ => None
      end)
     (match s with
      | a :: 45 :: r => if um_a_nove a then Some (a - 48, r) else None
      | _ => None
      end)).

(** [(?P<d>3[0-1]|[1-2]\d|0[1-9]|[1-9]| [1-9])]: the first alternative that
    matches, with the text it leaves. *)
Definition parse_d (s : str) : option (Z * str) :=
  ou (match s with
      | 51 :: b :: r =>
          if (b =? 48) || (b =? 49) then Some (30 + (b - 48), r) else None
      | _ => None
      end)
 (ou (match s with
      | a :: b :: r =>
          if (a =? 49) || (a =? 50)
          then match decimal b with
               | Some v => Some (10 * (a - 48) + v, r)
               | None => None
               end
          else None
      | _ => None
      end)
 (ou (match s with
      | 48 :: b :: r => if um_a_nove b then Some (b - 48, r) else None
      | _ => None
      end)
 (ou (match s with
      | a :: r => if um_a_nove a then Some (a - 48, r) else None
      | _ => None
      end)
     (match s with
      | 32 :: b :: r => if um_a_nove b then Some (b - 48, r) else None
      | _ => None
      end)))).

(** [datetime.strptime(s, '%Y-%m-%d').date()]; [None] stands for
    [ValueError]: the text does not match, text remains after the match, or
    the date is not one of the calendar. *)
Definition strptime_Ymd (s : str) : option date :=
  match parse_Y s with
  | Some (y, s1) =>
      match parse_m s1 with
      | Some (m, s2) =>
          match parse_d s2 with
          | Some (d, []) =>
              let r := mkdate y m d in
              if valid r then Some r else None
          | _ => None
          end
      | None => None
      end
  | None => None
  end.

End PyDate.

(** ** The persistence layer

    [app.py] imports the classes [ProdutoCatalogo], [AreaArmazem],
    [ProdutoLacteo] and [Venda] from a module that is not among the sources.
    Their records and methods are written here from the specification's data
    model and component design. *)

Module Modelo.
Import PyDate.

(** Modelled from the spec: the class [ProdutoCatalogo] is missing;
    a Catalog Product is {id (unique, externally assigned), name}. *)
Record ProdutoCatalogo := mkProdutoCatalogo {
  id_produto : str;
  nome_catalogo : str
}.

(** Modelled from the spec: the class [AreaArmazem] is missing;
    an Area is {id (unique, externally assigned), name, storage type}. *)
Record AreaArmazem := mkAreaArmazem {
  id_area : str;
  nome_area : str;
  tipo_armazenamento : str
}.

(** Modelled from the spec: the class [ProdutoLacteo] is missing; a Stock
    Instance is {instance id (system-assigned), catalog product reference,
    name (denormalized copy), quantity, expiry date, lot code, owning area
    reference}. *)
Record ProdutoLacteo := mkProdutoLacteo {
  id : Z;
  id_catalogo_produto : str;
  nome : str;
  quantidade : Z;
  data_validade : date;
  lote : str;
  area : str
}.

(** Modelled from the spec: the class [Venda] is missing; a Sale Record is
    {catalog product reference, name, lot, expiry date snapshot, quantity
    sold, destination, origin area id, responsible user, timestamp}. *)
Record Venda := mkVenda {
  venda_id_catalogo_produto : str;
  venda_nome : str;
  venda_lote : str;
  data_validade_produto : str;
  quantidade_vendida : Z;
  destino : str;
  area_origem_id : str;
  usuario_responsavel : str;
  data_hora : str
}.

(** Modelled from the spec: the persistence layer is missing; the store
    holds the four record kinds the handlers use, rows in insertion
    order. *)
Record Store := mkStore {
  catalogo : list ProdutoCatalogo;
  areas : list AreaArmazem;
  produtos : list ProdutoLacteo;
  vendas : list Venda
}.

(** The store with another table of instances. *)
Definition com_produtos (s : Store) (ps : list ProdutoLacteo) : Store :=
  mkStore (catalogo s) (areas s) ps (vendas s).

(** The instance with another quantity. *)
Definition com_quantidade (p : ProdutoLacteo) (q : Z) : ProdutoLacteo :=
  mkProdutoLacteo (id p) (id_catalogo_produto p) (nome p) q
                  (data_validade p) (lote p) (area p).

(** Modelled from the spec: [ProdutoCatalogo.buscar_por_id] is missing;
    [get(id) -> Product | none]. *)
Definition ProdutoCatalogo_buscar_por_id (s : Store) (i : str)
  : option ProdutoCatalogo :=
  find (fun c => str_eqb (id_produto c) i) (catalogo s).

(** Modelled from the spec: [AreaArmazem.buscar_por_id] is missing;
    same shape as the catalog's [get], keyed by area id. *)
Definition AreaArmazem_buscar_por_id (s : Store) (i : str)
  : option AreaArmazem :=
  find (fun a => str_eqb (id_area a) i) (areas s).

(** Modelled from the spec: [AreaArmazem.listar_todas] is missing;
    [list()] in insertion order. *)
Definition AreaArmazem_listar_todas (s : Store) : list AreaArmazem := areas s.

(** Modelled from the spec: [AreaArmazem.listar_produtos] is missing;
    the Stock Instances the area owns. *)
Definition listar_produtos (s : Store) (a : AreaArmazem) : list ProdutoLacteo :=
  List.filter (fun p => str_eqb (area p) (id_area a)) (produtos s).

(** Modelled from the spec: [ProdutoLacteo.buscar_instancia_por_id] is
    missing; the instance with that id, if any. *)
Definition buscar_instancia_por_id (s : Store) (i : Z) : option ProdutoLacteo :=
  find (fun p => id p =? i) (produtos s).

(** Modelled from the spec: the constructor of [ProdutoLacteo] is missing;
    the expiry date must parse as a calendar date ([None] stands for the
    [ValueError] the handler catches). The object has no row yet: its id
    and area are assigned when an area stores it. *)
Definition novo_ProdutoLacteo (id_catalogo_produto nome : str) (quantidade : Z)
    (data_validade_str lote : str) : option ProdutoLacteo :=
  match strptime_Ymd data_validade_str with
  | Some d => Some (mkProdutoLacteo 0 id_catalogo_produto nome quantidade d lote "")
  | None => None
  end.

(** Modelled from the spec: the id assignment of the missing persistence
    layer; a fresh system-assigned id, one more than every id in the
    table. *)
Definition novo_id (s : Store) : Z :=
  1 + fold_right Z.max 0 (map id (produtos s)).

(** Modelled from the spec: the merge key of the missing
    [adicionar_produto]; same catalog product and lot, in the same area. *)
Definition mesma_chave (a : AreaArmazem) (cat lot : str) (p : ProdutoLacteo) : bool :=
  str_eqb (area p) (id_area a) &&
  str_eqb (id_catalogo_produto p) cat &&
  str_eqb (lote p) lot.

(** Modelled from the spec: [AreaArmazem.adicionar_produto] is missing;
    if an instance with the same catalog product and lot already exists in
    the area, increments its quantity in place rather than creating a new
    row; otherwise creates a new instance with a fresh system-assigned
    id. *)
Definition adicionar_produto (s : Store) (a : AreaArmazem) (novo : ProdutoLacteo)
  : Store :=
  match find (mesma_chave a (id_catalogo_produto novo) (lote novo)) (produtos s) with
  | Some e =>
      com_produtos s
        (map (fun p => if id p =? id e
                       then com_quantidade p (quantidade e + quantidade novo)
                       else p)
             (produtos s))
  | None =>
      com_produtos s
        (produtos s ++
         [mkProdutoLacteo (novo_id s) (id_catalogo_produto novo) (nome novo)
            (quantidade novo) (data_validade novo) (lote novo) (id_area a)])
  end.

(** Modelled from the spec: [AreaArmazem.remover_produto] is missing;
    it validates that the quantity to remove is positive and at most the
    instance's quantity and decrements the stock. The instance is kept as
    a zero-stock row when its quantity reaches 0: the specification's
    property is that a sale of [q <= quantity] decrements the quantity by
    exactly [q]. *)
Definition remover_produto (s : Store) (a : AreaArmazem) (i : Z) (q : Z)
  : Store * bool :=
  match buscar_instancia_por_id s i with
  | Some p =>
      if str_eqb (area p) (id_area a) && (0 <? q) && (q <=? quantidade p)
      then (com_produtos s
              (map (fun p' => if id p' =? i
                              then com_quantidade p' (quantidade p - q)
                              else p')
                   (produtos s)),
            true)
      else (s, false)
  | None => (s, false)
  end.

(** Modelled from the spec: [ProdutoLacteo.atualizar_instancia] is
    missing; the new quantity must be at least 0 and the new expiry must
    parse; no merge with other instances occurs on update. *)
Definition atualizar_instancia (s : Store) (p : ProdutoLacteo)
    (nova_quantidade : Z) (nova_data_validade_str novo_lote : str)
  : Store * bool :=
  match strptime_Ymd nova_data_validade_str with
  | Some d =>
      if nova_quantidade <? 0 then (s, false)
      else
        (com_produtos s
           (map (fun p' => if id p' =? id p
                           then mkProdutoLacteo (id p') (id_catalogo_produto p')
                                  (nome p') nova_quantidade d novo_lote (area p')
                           else p')
                (produtos s)),
         true)
  | None => (s, false)
  end.

(** Modelled from the spec: [ProdutoLacteo.deletar_instancia] is missing;
    removes the instance entirely regardless of remaining quantity. *)
Definition deletar_instancia (s : Store) (p : ProdutoLacteo) : Store * bool :=
  (com_produtos s (List.filter (fun p' => negb (id p' =? id p)) (produtos s)), true).

(** Modelled from the spec: [Venda.registrar] is missing; a pure insert
    into the append-only ledger. *)
Definition Venda_registrar (s : Store) (v : Venda) : Store :=
  mkStore (catalogo s) (areas s) (produtos s) (vendas s ++ [v]).

(** Modelled from the spec: the message of the missing
    [AreaArmazem.deletar], one for the delete that was done and one for the
    [InUse] refusal. *)
Inductive ResultadoDeletar := AreaExcluida | AreaEmUso.

(** Modelled from the spec: [AreaArmazem.deletar] is missing; the delete
    fails with [InUse] if the area still owns Stock Instances, and stock is
    not cascade-deleted. It answers a pair (success flag, message). *)
Definition AreaArmazem_deletar (s : Store) (a : AreaArmazem)
  : Store * (bool * ResultadoDeletar) :=
  match listar_produtos s a with
  | [] =>
      (mkStore (catalogo s)
         (List.filter (fun a' => negb (str_eqb (id_area a') (id_area a))) (areas s))
         (produtos s) (vendas s),
       (true, AreaExcluida))
  | _ :: _ => (s, (false, AreaEmUso))
  end.

End Modelo.

(** ** The request handlers of [app.py] *)

Module App.
Import PyStr PyDate Modelo.

(** The categories passed to [flash]. *)
Inductive Categoria := success | danger | warning | info.

(** The messages the modelled handlers flash, with the values they
    interpolate. *)
Inductive Mensagem :=
| area_nao_encontrada (id_area : str)
| campos_obrigatorios_adicionar
| quantidade_deve_ser_positiva
| produto_catalogo_invalido
| produto_adicionado (nome lote nome_area : str)
| erro_ao_adicionar
| informacoes_insuficientes_venda
| quantidade_venda_deve_ser_positiva
| instancia_nao_encontrada (id_instancia : Z)
| nao_pertence_a_area (id_instancia : Z) (nome_area : str)
| quantidade_insuficiente (nome lote : str) (disponivel : Z)
| venda_registrada (quantidade : Z) (nome lote : str)
| falha_ao_vender (quantidade : Z) (nome : str)
| venda_invalida
| mensagem_deletar_area (r : ResultadoDeletar)
| campos_obrigatorios_editar
| quantidade_nao_pode_ser_negativa
| produto_atualizado (nome lote nome_area : str)
| erro_ao_atualizar
| quantidade_invalida
| produto_excluido (nome lote nome_area : str)
| erro_ao_excluir (nome : str).

(** What the handler returns: a redirect or a rendered template. *)
Inductive Pagina :=
| redirect_pagina_inicial_armazem
| redirect_detalhes_da_area (id_area : str)
| redirect_listar_areas_admin
| render_admin_form_produto_area.

Record Resposta := mkResposta {
  flash : option (Mensagem * Categoria);
  pagina : Pagina
}.

Definition responde (m : Mensagem) (c : Categoria) (p : Pagina) : Resposta :=
  mkResposta (Some (m, c)) p.

(** [lote.strip().upper()] *)
Definition normaliza_lote (lote : str) : str := upper (strip lote).

(** [request.form.get(k)] for a field [k]. *)
Definition campo (o : option str) : str :=
  match o with Some v => v | None => [] end.

(** *** POST /armazem/<id_area>/adicionar_produto *)

Record FormAdicionar := mkFormAdicionar {
  form_id_produto_catalogo : option str;
  form_quantidade : option str;
  form_data_validade : option str;
  form_lote : option str
}.

Definition adicionar_produto_na_area (s : Store) (id_area : str)
    (form : FormAdicionar) : Store * Resposta :=
  match AreaArmazem_buscar_por_id s id_area with
  | None =>
      (s, responde (area_nao_encontrada id_area) danger
            redirect_pagina_inicial_armazem)
  | Some area =>
      let id_catalogo_produto := form_id_produto_catalogo form in
      let quantidade_str := form_quantidade form in
      let data_validade_str := form_data_validade form in
      let lote := form_lote form in
      if negb (truthy id_catalogo_produto && truthy quantidade_str &&
               truthy data_validade_str && truthy lote)
      then (s, responde campos_obrigatorios_adicionar warning
                 (redirect_detalhes_da_area id_area))
      else
        match py_int (campo quantidade_str) with
        | None => (s, responde erro_ao_adicionar danger
                        (redirect_detalhes_da_area id_area))
        | Some quantidade =>
            if quantidade <=? 0
            then (s, responde quantidade_deve_ser_positiva warning
                       (redirect_detalhes_da_area id_area))
            else
              match ProdutoCatalogo_buscar_por_id s (campo id_catalogo_produto) with
              | None => (s, responde produto_catalogo_invalido danger
                              (redirect_detalhes_da_area id_area))
              | Some produto_do_catalogo_obj =>
                  match novo_ProdutoLacteo (campo id_catalogo_produto)
                          (nome_catalogo produto_do_catalogo_obj) quantidade
                          (campo data_validade_str)
                          (normaliza_lote (campo lote)) with
                  | None => (s, responde erro_ao_adicionar danger
                                  (redirect_detalhes_da_area id_area))
                  | Some novo_produto =>
                      (adicionar_produto s area novo_produto,
                       responde (produto_adicionado (Modelo.nome novo_produto)
                                   (Modelo.lote novo_produto) (nome_area area))
                         success (redirect_detalhes_da_area id_area))
                  end
              end
        end
  end.

(** *** POST /armazem/<id_area>/vender_produto *)

Record FormVenda := mkFormVenda {
  form_id_instancia_venda : option str;
  form_quantidade_venda : option str;
  form_destino_venda : option str
}.

(** [usuario] is [session['username']] and [agora] the time stamp the sale
    record takes from the clock. *)
Definition vender_produto_da_area (s : Store) (usuario agora : str)
    (id_area : str) (form : FormVenda) : Store * Resposta :=
  match AreaArmazem_buscar_por_id s id_area with
  | None =>
      (s, responde (area_nao_encontrada id_area) danger
            redirect_pagina_inicial_armazem)
  | Some area =>
      let id_instancia_venda_str := form_id_instancia_venda form in
      let quantidade_venda_str := form_quantidade_venda form in
      let destino_venda := form_destino_venda form in
      if negb (truthy id_instancia_venda_str && truthy quantidade_venda_str &&
               truthy destino_venda)
      then (s, responde informacoes_insuficientes_venda warning
                 (redirect_detalhes_da_area id_area))
      else
        match py_int (campo quantidade_venda_str) with
        | None => (s, responde venda_invalida danger
                        (redirect_detalhes_da_area id_area))
        | Some quantidade_venda =>
        match py_int (campo id_instancia_venda_str) with
        | None => (s, responde venda_invalida danger
                        (redirect_detalhes_da_area id_area))
        | Some id_instancia_venda =>
            if quantidade_venda <=? 0
            then (s, responde quantidade_venda_deve_ser_positiva warning
                       (redirect_detalhes_da_area id_area))
            else
              match buscar_instancia_por_id s id_instancia_venda with
              | None =>
                  (s, responde (instancia_nao_encontrada id_instancia_venda) danger
                        (redirect_detalhes_da_area id_area))
              | Some produto_para_venda =>
                  let produto_na_area_correta :=
                    existsb (fun p => id p =? id_instancia_venda)
                            (listar_produtos s area) in
                  if negb produto_na_area_correta
                  then (s, responde (nao_pertence_a_area id_instancia_venda
                                       (nome_area area)) danger
                             (redirect_detalhes_da_area id_area))
                  else if quantidade produto_para_venda <? quantidade_venda
                  then (s, responde (quantidade_insuficiente
                                       (nome produto_para_venda)
                                       (lote produto_para_venda)
                                       (quantidade produto_para_venda)) warning
                             (redirect_detalhes_da_area id_area))
                  else
                    let (s1, sucesso_remocao) :=
                      remover_produto s area (id produto_para_venda)
                                      quantidade_venda in
                    if sucesso_remocao
                    then
                      let nova_venda :=
                        mkVenda (id_catalogo_produto produto_para_venda)
                                (nome produto_para_venda)
                                (lote produto_para_venda)
                                (strftime_Ymd (data_validade produto_para_venda))
                                quantidade_venda
                                (strip (campo destino_venda))
                                id_area
                                usuario
                                agora in
                      (Venda_registrar s1 nova_venda,
                       responde (venda_registrada quantidade_venda
                                   (nome produto_para_venda)
                                   (lote produto_para_venda)) success
                         (redirect_detalhes_da_area id_area))
                    else
                      (s1, responde (falha_ao_vender quantidade_venda
                                       (nome produto_para_venda)) danger
                             (redirect_detalhes_da_area id_area))
              end
        end
        end
  end.

(** *** POST /admin/areas/excluir/<id_area> *)

Definition excluir_area (s : Store) (id_area : str) : Store * Resposta :=
  match AreaArmazem_buscar_por_id s id_area with
  | None =>
      (s, responde (area_nao_encontrada id_area) danger
            redirect_listar_areas_admin)
  | Some area =>
      let '(s1, (sucesso, mensagem)) := AreaArmazem_deletar s area in
      if sucesso
      then (s1, responde (mensagem_deletar_area mensagem) success
                  redirect_listar_areas_admin)
      else (s1, responde (mensagem_deletar_area mensagem) danger
                  redirect_listar_areas_admin)
  end.

(** *** GET, POST /admin/area/<id_area>/produto/<id_instancia_produto>/editar *)

Inductive Metodo := GET | POST.

Record FormEditar := mkFormEditar {
  form_nova_quantidade : option str;
  form_nova_data_validade : option str;
  form_novo_lote : option str
}.

Definition editar_produto_em_area (s : Store) (metodo : Metodo)
    (id_area : str) (id_instancia_produto : Z) (form : FormEditar)
  : Store * Resposta :=
  match AreaArmazem_buscar_por_id s id_area with
  | None =>
      (s, responde (area_nao_encontrada id_area) danger
            redirect_pagina_inicial_armazem)
  | Some area =>
      match buscar_instancia_por_id s id_instancia_produto with
      | None =>
          (s, responde (instancia_nao_encontrada id_instancia_produto) danger
                (redirect_detalhes_da_area id_area))
      | Some produto_instancia =>
          let produto_encontrado_na_area :=
            existsb (fun p => id p =? id_instancia_produto)
                    (listar_produtos s area) in
          if negb produto_encontrado_na_area
          then (s, responde (nao_pertence_a_area id_instancia_produto
                               (nome_area area)) danger
                     (redirect_detalhes_da_area id_area))
          else
            match metodo with
            | GET => (s, mkResposta None render_admin_form_produto_area)
            | POST =>
                let nova_quantidade_str := form_nova_quantidade form in
                let nova_data_validade_str := form_nova_data_validade form in
                let novo_lote := form_novo_lote form in
                if negb (truthy nova_quantidade_str &&
                         truthy nova_data_validade_str && truthy novo_lote)
                then (s, responde campos_obrigatorios_editar warning
                           render_admin_form_produto_area)
                else
                  match py_int (campo nova_quantidade_str) with
                  | None => (s, responde quantidade_invalida danger
                                  render_admin_form_produto_area)
                  | Some nova_quantidade =>
                      if nova_quantidade <? 0
                      then (s, responde quantidade_nao_pode_ser_negativa warning
                                 render_admin_form_produto_area)
                      else
                        let (s1, ok) :=
                          atualizar_instancia s produto_instancia nova_quantidade
                            (campo nova_data_validade_str)
                            (normaliza_lote (campo novo_lote)) in
                        if ok
                        then (s1, responde (produto_atualizado
                                              (nome produto_instancia)
                                              (normaliza_lote (campo novo_lote))
                                              (nome_area area)) success
                                    (redirect_detalhes_da_area id_area))
                        else (s1, responde erro_ao_atualizar danger
                                    render_admin_form_produto_area)
                  end
            end
      end
  end.

(** *** POST /admin/area/<id_area>/produto/<id_instancia_produto>/excluir *)

Definition excluir_produto_de_area (s : Store) (id_area : str)
    (id_instancia_produto : Z) : Store * Resposta :=
  match AreaArmazem_buscar_por_id s id_area with
  | None =>
      (s, responde (area_nao_encontrada id_area) danger
            redirect_pagina_inicial_armazem)
  | Some area =>
      match buscar_instancia_por_id s id_instancia_produto with
      | None =>
          (s, responde (instancia_nao_encontrada id_instancia_produto) danger
                (redirect_detalhes_da_area id_area))
      | Some produto_instancia =>
          let produto_na_area_correta :=
            existsb (fun p => id p =? id_instancia_produto)
                    (listar_produtos s area) in
          if negb produto_na_area_correta
          then (s, responde (nao_pertence_a_area id_instancia_produto
                               (nome_area area)) danger
                     (redirect_detalhes_da_area id_area))
          else
            let (s1, ok) := deletar_instancia s produto_instancia in
            if ok
            then (s1, responde (produto_excluido (nome produto_instancia)
                                  (lote produto_instancia) (nome_area area))
                        success (redirect_detalhes_da_area id_area))
            else (s1, responde (erro_ao_excluir (nome produto_instancia)) danger
                        (redirect_detalhes_da_area id_area))
      end
  end.

(** Whether the handler flashed a message of category [success]. *)
Definition sucesso (r : Resposta) : bool :=
  match flash r with
  | Some (_, success) => true
  | _ => false
  end.

End App.

(** ** The report page of [app.py] *)

Module Relatorios.
Import PyStr PyDate Modelo.

(** A value of the dictionary [estoque_total]. *)
Record Total := mkTotal {
  total_nome : str;
  quantidade_total : Z
}.

(** An element of [produtos_alerta_validade]. The entry ["produto"] holds
    the instance's fields ([to_dict] belongs to the missing class). *)
Record Alerta := mkAlerta {
  alerta_area_id : str;
  alerta_nome_area : str;
  produto : ProdutoLacteo;
  status_validade : str;
  dias_para_vencer : Z
}.

(** The body of the inner loop that fills [estoque_total]. *)
Definition soma_instancia (estoque_total : gmap str Total)
    (prod_instancia : ProdutoLacteo) : gmap str Total :=
  let chave_produto := id_catalogo_produto prod_instancia in
  let estoque_total :=
    match estoque_total !! chave_produto with
    | None => <[chave_produto := mkTotal (nome prod_instancia) 0]> estoque_total
    | Some _ => estoque_total
    end in
  alter (fun t => mkTotal (total_nome t)
                          (quantidade_total t + quantidade prod_instancia))
        chave_produto estoque_total.

Definition estoque_total (s : Store) : gmap str Total :=
  fold_left
    (fun acc area_obj => fold_left soma_instancia (listar_produtos s area_obj) acc)
    (AreaArmazem_listar_todas s) ∅.

Definition dias_alerta_antecedencia : Z := 7.

Definition nao_vazia (s : str) : bool :=
  match s with [] => false | _ :: _ => true end.

(** The body of the inner loop that fills [produtos_alerta_validade]. *)
Definition alerta_instancia (data_hoje_obj limite_alerta : date)
    (area_obj : AreaArmazem) (produtos_alerta_validade : list Alerta)
    (produto_obj : ProdutoLacteo) : list Alerta :=
  let dias_para_vencer_calc := sub_days (data_validade produto_obj) data_hoje_obj in
  let status_validade :=
    if lt (data_validade produto_obj) data_hoje_obj then "VENCIDO"
    else if le (data_validade produto_obj) limite_alerta then "PROXIMO_VENCIMENTO"
    else "" in
  if nao_vazia status_validade
  then produtos_alerta_validade ++
       [mkAlerta (id_area area_obj) (nome_area area_obj) produto_obj
                 status_validade dias_para_vencer_calc]
  else produtos_alerta_validade.

Definition alertas_sem_ordem (s : Store) (data_hoje_obj limite_alerta : date)
  : list Alerta :=
  fold_left
    (fun acc area_obj =>
       fold_left (alerta_instancia data_hoje_obj limite_alerta area_obj)
                 (listar_produtos s area_obj) acc)
    (AreaArmazem_listar_todas s) [].

(** The sort key [(x["status_validade"] != "VENCIDO", x["dias_para_vencer"])]. *)
Definition chave (x : Alerta) : bool * Z :=
  (negb (str_eqb (status_validade x) "VENCIDO"), dias_para_vencer x).

(** [a < b] on the key tuples, [False < True]. *)
Definition chave_lt (a b : bool * Z) : bool :=
  if Bool.eqb (fst a) (fst b) then snd a <? snd b
  else negb (fst a) && fst b.

(** [list.sort(key=...)] is a stable sort; it is modelled by the stable
    insertion sort, which yields the same list. *)
Fixpoint insere (x : Alerta) (l : list Alerta) : list Alerta :=
  match l with
  | [] => [x]
  | y :: l' => if chave_lt (chave x) (chave y) then x :: l else y :: insere x l'
  end.

Definition ordena (l : list Alerta) : list Alerta :=
  fold_left (fun acc x => insere x acc) l [].

(** What [pagina_relatorios] hands to the template (the sales listing,
    built from the missing class [Venda], is left out). *)
Record Relatorio := mkRelatorio {
  rel_estoque_total : gmap str Total;
  produtos_alerta_validade : list Alerta;
  dias_alerta : Z
}.

(** [data_hoje_obj] is [date.today()]; [None] stands for the
    [OverflowError] of [data_hoje_obj + timedelta(...)]. *)
Definition pagina_relatorios (s : Store) (data_hoje_obj : date)
  : option Relatorio :=
  let estoque := estoque_total s in
  match add_days data_hoje_obj dias_alerta_antecedencia with
  | None => None
  | Some limite_alerta =>
      let alertas := alertas_sem_ordem s data_hoje_obj limite_alerta in
      Some (mkRelatorio estoque (ordena alertas) dias_alerta_antecedencia)
  end.

(** The sum of a list of integers, to state what the totals are. *)
Definition soma (l : list Z) : Z := fold_right Z.add 0 l.

(** Every instance of every area, in the order in which the loops of
    [pagina_relatorios] visit them. *)
Definition todas_as_instancias (s : Store) : list (AreaArmazem * ProdutoLacteo) :=
  flat_map (fun a => map (fun p => (a, p)) (listar_produtos s a))
           (AreaArmazem_listar_todas s).

(** Whether the sort key of [x] is [k]. *)
Definition tem_chave (k : bool * Z) (x : Alerta) : bool :=
  Bool.eqb (fst (chave x)) (fst k) && (snd (chave x) =? snd k).

(** [x] may stand before [y] in a sorted list: the key of [y] is not below
    the key of [x]. *)
Definition antes (x y : Alerta) : Prop := chave_lt (chave y) (chave x) = false.

(** The order the specification asks of the alert list: whenever [e1]
    stands before [e2], an EXPIRED [e2] has an EXPIRED [e1] before it, an
    UPCOMING [e1] has an UPCOMING [e2] after it, and two entries of the
    same status are in ascending order of [dias_para_vencer]. *)
Definition ordenada_por_urgencia (l : list Alerta) : Prop :=
  forall l1 e1 l2 e2 l3,
    l = (l1 ++ e1 :: l2 ++ e2 :: l3)%list ->
    (status_validade e2 = "VENCIDO" -> status_validade e1 = "VENCIDO") /\
    (status_validade e1 = "PROXIMO_VENCIMENTO" ->
     status_validade e2 = "PROXIMO_VENCIMENTO") /\
    (status_validade e1 = status_validade e2 ->
     dias_para_vencer e1 <= dias_para_vencer e2).

End Relatorios.

(** ** The credential functions of [models.py] *)

Module Models.

(** A row of the table [users]. The table is the state: the connection
    handling of [get_db_connection] (which also creates the data directory)
    is left out. *)
Record User := mkUser {
  username : str;
  password_hash : str;
  role : str
}.

(** The table [users], rows in insertion order. *)
Definition DB := list User.

Section Credenciais.

(** [werkzeug.security.check_password_hash(pwhash, password)] *)
Variable check_password_hash : str -> str -> bool.

(** [SELECT * FROM users WHERE username = ?], [fetchone()]; the query
    leaves the table as it is. *)
Definition get_user_by_username (db : DB) (name : str) : DB * option User :=
  (db, find (fun u => str_eqb (username u) name) db).

Definition check_user_password (db : DB) (name password : str)
  : DB * option User :=
  let (db1, user) := get_user_by_username db name in
  match user with
  | Some u =>
      if check_password_hash (password_hash u) password
      then (db1, Some u)
      else (db1, None)
  | None => (db1, None)
  end.

End Credenciais.

End Models.

(** ** A small warehouse used in the examples *)

Module Exemplo.
Import PyDate Modelo.

Definition leite : ProdutoCatalogo := mkProdutoCatalogo "LEITE" "Leite Integral".
Definition queijo : ProdutoCatalogo := mkProdutoCatalogo "QUEIJO" "Queijo Minas".

Definition camara : AreaArmazem := mkAreaArmazem "A1" "Camara Fria" "refrigerado".
Definition deposito : AreaArmazem := mkAreaArmazem "B2" "Deposito" "seco".
Definition vazia : AreaArmazem := mkAreaArmazem "C3" "Expedicao" "seco".

Definition leite_camara : ProdutoLacteo :=
  mkProdutoLacteo 1 "LEITE" "Leite Integral" 5 (mkdate 2024 1 5) "L1" "A1".
Definition leite_deposito : ProdutoLacteo :=
  mkProdutoLacteo 2 "LEITE" "Leite Integral" 5 (mkdate 2024 1 15) "L2" "B2".
Definition queijo_camara : ProdutoLacteo :=
  mkProdutoLacteo 3 "QUEIJO" "Queijo Minas" 8 (mkdate 2024 2 1) "Q1" "A1".

Definition loja : Store :=
  mkStore [leite; queijo] [camara; deposito; vazia]
          [leite_camara; leite_deposito; queijo_camara] [].

Definition hoje : date := mkdate 2024 1 10.

Definition usuarios : Models.DB :=
  [Models.mkUser "ana" "hash:segredo" "gerente";
   Models.mkUser "beto" "hash:1234" "user"].

(** A stand-in for the hashing library in the examples: the stored hash is
    the password behind a fixed prefix. *)
Definition confere_hash (pwhash password : str) : bool :=
  str_eqb pwhash ("hash:" ++ password).

End Exemplo.

(** ** Writing to the table [users] ([models.py]) *)

Module ModelsEscrita.
Import Models.

Section Escrita.

(** [werkzeug.security.generate_password_hash(password)] *)
Variable generate_password_hash : str -> str.

(** Modelled from the spec: [schema.sql] is missing; user names are unique
    in the table [users], and an INSERT that would repeat one raises
    [sqlite3.IntegrityError] (the failure [create_user] comments as "usuário
    já existe"). *)
Definition viola_unicidade (db : DB) (name : str) : bool :=
  existsb (fun u => str_eqb (username u) name) db.

(** [create_user(username, password, role='user')]; [None] for [role]
    stands for the default argument. *)
Definition create_user (db : DB) (name password : str) (role : option str)
  : DB * bool :=
  let role := match role with Some r => r | None => "user" end in
  if viola_unicidade db name
  then (db, false)
  else ((db ++ [mkUser name (generate_password_hash password) role])%list, true).

End Escrita.

End ModelsEscrita.

(** ** Login, logout and the access check of [app.py] *)

Module Sessao.
Import PyStr App.

(** The Flask session, by the keys the application sets; [Some None] is a
    key that holds Python's [None]. The queue of flashed messages is the
    answer's flash and not part of this map. *)
Abbreviation Session := (gmap str (option str)).

(** [session.get(k)], and [session[k]] for a key that is present. *)
Definition session_get (session : Session) (k : str) : option str :=
  match session !! k with
  | Some v => v
  | None => None
  end.

(** [k in session] *)
Definition session_tem (session : Session) (k : str) : bool :=
  match session !! k with
  | Some _ => true
  | None => false
  end.

(** What the three functions read of the request. *)
Record Pedido := mkPedido {
  metodo : Metodo;
  form_username : option str;
  form_password : option str;
  args_next : option str;
  url : str;
  referrer : option str
}.

Inductive MensagemSessao :=
| faca_login
| sessao_invalida
| sem_permissao
| login_bem_sucedido (nome : str)
| usuario_ou_senha_invalidos
| desconectado.

Inductive DestinoSessao :=
| redirect_login (next : option str)
| redirect_para (url : str)
| redirect_pagina_inicial
| render_login_html.

Record RespostaSessao := mkRespostaSessao {
  flash_sessao : option (MensagemSessao * Categoria);
  destino_sessao : DestinoSessao
}.

(** [redirect(u or url_for('pagina_inicial_armazem'))] *)
Definition redirect_ou_inicio (u : option str) : DestinoSessao :=
  if truthy u then redirect_para (campo u) else redirect_pagina_inicial.

Section Autenticacao.

(** The class [Usuario] is not among the sources: its objects, the three
    attributes the functions read, and its two methods are parameters. *)
Variable Usuario : Type.
Variable usuario_username : Usuario -> str.
Variable usuario_funcao : Usuario -> str.
Variable usuario_nome : Usuario -> str.
Variable verificar_senha : option str -> option str -> option Usuario.
Variable tem_permissao : Usuario -> str -> bool.

(** The decorator [login_necessario(permissao_requerida)] around a view:
    [inl] is the answer that keeps the view from running, [inr] the result
    of the view. The view may read the session. *)
Definition login_necessario {R : Type} (permissao_requerida : option str)
    (view_func : Session -> R) (session : Session) (request : Pedido)
  : Session * (RespostaSessao + R) :=
  if negb (session_tem session "username") || negb (session_tem session "password")
  then (session,
        inl (mkRespostaSessao (Some (faca_login, warning))
                              (redirect_login (Some (url request)))))
  else
    match verificar_senha (session_get session "username")
                          (session_get session "password") with
    | None =>
        (∅, inl (mkRespostaSessao (Some (sessao_invalida, danger))
                                  (redirect_login None)))
    | Some usuario_logado =>
        if truthy permissao_requerida &&
           negb (tem_permissao usuario_logado (campo permissao_requerida))
        then (session,
              inl (mkRespostaSessao (Some (sem_permissao, danger))
                                    (redirect_ou_inicio (referrer request))))
        else (session, inr (view_func session))
    end.

(** GET, POST /login *)
Definition login (session : Session) (request : Pedido) : Session * RespostaSessao :=
  let apos_post :=
    match metodo request with
    | POST =>
        let username := form_username request in
        let senha := form_password request in
        match verificar_senha username senha with
        | Some usuario =>
            inl (<["password" := senha]>
                   (<["user_nome" := Some (usuario_nome usuario)]>
                      (<["user_funcao" := Some (usuario_funcao usuario)]>
                         (<["username" := Some (usuario_username usuario)]> session))),
                 mkRespostaSessao
                   (Some (login_bem_sucedido (usuario_nome usuario), success))
                   (redirect_ou_inicio (args_next request)))
        | None => inr (Some (usuario_ou_senha_invalidos, danger))
        end
    | GET => inr None
    end in
  match apos_post with
  | inl resposta => resposta
  | inr flashed =>
      if session_tem session "username"
      then (session, mkRespostaSessao flashed redirect_pagina_inicial)
      else (session, mkRespostaSessao flashed render_login_html)
  end.

(** /logout *)
Definition logout (session : Session) : Session * RespostaSessao :=
  (∅, mkRespostaSessao (Some (desconectado, info)) (redirect_login None)).

(** The stock routes as [app.py] decorates them, each with the permission
    its decorator names. The store changes only through the view. *)
Definition rota_adicionar_produto_na_area (s : Modelo.Store) (id_area : str)
    (form : FormAdicionar) (session : Session) (request : Pedido)
  : Session * (RespostaSessao + Modelo.Store * Resposta) :=
  login_necessario (Some "gerenciar_produtos_em_areas")
    (fun _ => adicionar_produto_na_area s id_area form) session request.

(** The sell view reads [session['username']] for the sale record. *)
Definition rota_vender_produto_da_area (s : Modelo.Store) (agora id_area : str)
    (form : FormVenda) (session : Session) (request : Pedido)
  : Session * (RespostaSessao + Modelo.Store * Resposta) :=
  login_necessario (Some "registrar_venda")
    (fun sess =>
       vender_produto_da_area s (campo (session_get sess "username")) agora
                              id_area form)
    session request.

Definition rota_editar_produto_em_area (s : Modelo.Store) (id_area : str)
    (id_instancia_produto : Z) (form : FormEditar) (session : Session)
    (request : Pedido)
  : Session * (RespostaSessao + Modelo.Store * Resposta) :=
  login_necessario (Some "gerenciar_produtos_em_areas")
    (fun _ => editar_produto_em_area s (metodo request) id_area
                                     id_instancia_produto form)
    session request.

Definition rota_excluir_produto_de_area (s : Modelo.Store) (id_area : str)
    (id_instancia_produto : Z) (session : Session) (request : Pedido)
  : Session * (RespostaSessao + Modelo.Store * Resposta) :=
  login_necessario (Some "gerenciar_produtos_em_areas")
    (fun _ => excluir_produto_de_area s id_area id_instancia_produto)
    session request.

Definition rota_excluir_area (s : Modelo.Store) (id_area : str)
    (session : Session) (request : Pedido)
  : Session * (RespostaSessao + Modelo.Store * Resposta) :=
  login_necessario (Some "gerenciar_areas")
    (fun _ => excluir_area s id_area) session request.

End Autenticacao.

(** The store after a route has answered: the one the view returned, or the
    one before when the view did not run. *)
Definition loja_apos {X : Type} (s : Modelo.Store)
    (r : Session * (RespostaSessao + Modelo.Store * X)) : Modelo.Store :=
  match snd r with
  | inl _ => s
  | inr (s', _) => s'
  end.

End Sessao.

(** ** The area page, the date filter and the admin forms of [app.py] *)

Module Vistas.
Import PyStr PyDate Modelo App.

(** What the Jinja filter may be given: a date, a string, or anything else
    (such as [None]). *)
Inductive Valor :=
| valor_date (d : date)
| valor_str (s : str)
| valor_outro.

(** [to_date_filter(value)]: a date is returned as it is; a string is
    parsed, and returned as it is when it does not parse ([ValueError]);
    anything else is returned as it is ([TypeError]). *)
Definition to_date_filter (value : Valor) : Valor :=
  match value with
  | valor_date _ => value
  | valor_str s =>
      match strptime_Ymd s with
      | Some d => valor_date d
      | None => value
      end
  | valor_outro => value
  end.

(** [sorted(l, key=key)] with keys compared by [lt]: a stable sort, modelled
    by the stable insertion sort. *)
Fixpoint insere_por {A K : Type} (lt : K -> K -> bool) (key : A -> K)
    (x : A) (l : list A) : list A :=
  match l with
  | [] => [x]
  | y :: l' => if lt (key x) (key y) then x :: l else y :: insere_por lt key x l'
  end.

Definition sorted_por {A K : Type} (lt : K -> K -> bool) (key : A -> K)
    (l : list A) : list A :=
  fold_left (fun acc x => insere_por lt key x acc) l [].

(** Modelled from the spec: [ProdutoCatalogo.listar_todos] is missing;
    [list()] in insertion order. *)
Definition ProdutoCatalogo_listar_todos (s : Store) : list ProdutoCatalogo :=
  catalogo s.

(** What [detalhes_da_area] hands to the template. The dropdown maps a
    catalog id to the name under its only key ['nome']. *)
Record DetalhesArea := mkDetalhesArea {
  det_area : AreaArmazem;
  det_produtos : list ProdutoLacteo;
  det_produtos_catalogo : gmap str str;
  det_data_hoje : date
}.

(** GET /armazem/<id_area>; [data_hoje] is [date.today()]. *)
Definition detalhes_da_area (s : Store) (id_area : str) (data_hoje : date)
  : Resposta + DetalhesArea :=
  match AreaArmazem_buscar_por_id s id_area with
  | None =>
      inl (responde (area_nao_encontrada id_area) danger
             redirect_pagina_inicial_armazem)
  | Some area =>
      let produtos_na_area :=
        sorted_por PyDate.lt data_validade (listar_produtos s area) in
      let produtos_catalogo_list := ProdutoCatalogo_listar_todos s in
      let produtos_catalogo_dropdown :=
        fold_left (fun d pc => <[id_produto pc := nome_catalogo pc]> d)
                  produtos_catalogo_list (∅ : gmap str str) in
      inr (mkDetalhesArea area produtos_na_area produtos_catalogo_dropdown data_hoje)
  end.

Inductive MensagemAdmin :=
| todos_os_campos_obrigatorios
| area_adicionada (nome : str)
| erro_ao_adicionar_area (id_area : str)
| id_e_nome_obrigatorios
| produto_adicionado_ao_catalogo (nome : str)
| erro_ao_adicionar_ao_catalogo (id_produto : str).

Inductive PaginaAdmin :=
| redirect_listar_areas
| render_admin_form_area
| redirect_listar_produtos_catalogo
| render_admin_form_produto_catalogo.

Record RespostaAdmin := mkRespostaAdmin {
  flash_admin : option (MensagemAdmin * Categoria);
  pagina_admin : PaginaAdmin
}.

Record FormArea := mkFormArea {
  form_id_area : option str;
  form_nome_area : option str;
  form_tipo_armazenamento : option str
}.

Record FormCatalogo := mkFormCatalogo {
  form_id_produto : option str;
  form_nome_produto : option str
}.

Section Admin.

(** [AreaArmazem.criar] and [ProdutoCatalogo.criar] are not among the
    sources: they are parameters, which answer the new object or nothing. *)
Variable AreaArmazem_criar :
  Store -> str -> str -> str -> Store * option AreaArmazem.
Variable ProdutoCatalogo_criar :
  Store -> str -> str -> Store * option ProdutoCatalogo.

(** GET, POST /admin/areas/adicionar *)
Definition adicionar_area (s : Store) (metodo : Metodo) (form : FormArea)
  : Store * RespostaAdmin :=
  match metodo with
  | POST =>
      let id_area := form_id_area form in
      let nome := form_nome_area form in
      let tipo_armazenamento := form_tipo_armazenamento form in
      if negb (truthy id_area && truthy nome && truthy tipo_armazenamento)
      then (s, mkRespostaAdmin (Some (todos_os_campos_obrigatorios, warning))
                               render_admin_form_area)
      else
        let (s1, nova_area) :=
          AreaArmazem_criar s (upper (strip (campo id_area))) (strip (campo nome))
                            (campo tipo_armazenamento) in
        match nova_area with
        | Some a =>
            (s1, mkRespostaAdmin (Some (area_adicionada (nome_area a), success))
                                 redirect_listar_areas)
        | None =>
            (s1, mkRespostaAdmin (Some (erro_ao_adicionar_area (campo id_area), danger))
                                 render_admin_form_area)
        end
  | GET => (s, mkRespostaAdmin None render_admin_form_area)
  end.

(** GET, POST /admin/catalogo/adicionar *)
Definition adicionar_produto_catalogo (s : Store) (metodo : Metodo)
    (form : FormCatalogo) : Store * RespostaAdmin :=
  match metodo with
  | POST =>
      let id_produto := form_id_produto form in
      let nome := form_nome_produto form in
      if negb (truthy id_produto && truthy nome)
      then (s, mkRespostaAdmin (Some (id_e_nome_obrigatorios, warning))
                               render_admin_form_produto_catalogo)
      else
        let (s1, novo_produto) :=
          ProdutoCatalogo_criar s (upper (strip (campo id_produto)))
                                (strip (campo nome)) in
        match novo_produto with
        | Some pc =>
            (s1, mkRespostaAdmin
                   (Some (produto_adicionado_ao_catalogo (nome_catalogo pc), success))
                   redirect_listar_produtos_catalogo)
        | None =>
            (s1, mkRespostaAdmin
                   (Some (erro_ao_adicionar_ao_catalogo (campo id_produto), danger))
                   render_admin_form_produto_catalogo)
        end
  | GET => (s, mkRespostaAdmin None render_admin_form_produto_catalogo)
  end.

End Admin.

End Vistas.

(** ** Fixtures for the examples of the handlers around the stock *)

Module Exemplo2.
Import Modelo.

(** A stand-in for the hashing library that goes with
    [Exemplo.confere_hash]. *)
Definition gera_hash (password : str) : str := ("hash:" ++ password).

(** A stand-in for [Usuario.verificar_senha]: the credential check of
    [models.py] on the example table. *)
Definition verifica (name password : option str) : option Models.User :=
  match name, password with
  | Some n, Some p =>
      snd (Models.check_user_password Exemplo.confere_hash Exemplo.usuarios n p)
  | _, _ => None
  end.

(** A stand-in for [Usuario.tem_permissao]: the role "gerente" has every
    permission, the others may only see the warehouse. *)
Definition permite (u : Models.User) (permissao : str) : bool :=
  str_eqb (Models.role u) "gerente" || str_eqb permissao "visualizar_armazem".

(** A stand-in for [AreaArmazem.criar]: refuses an id that is taken. *)
Definition cria_area (s : Store) (i nome tipo : str) : Store * option AreaArmazem :=
  match AreaArmazem_buscar_por_id s i with
  | Some _ => (s, None)
  | None =>
      (mkStore (catalogo s) (areas s ++ [mkAreaArmazem i nome tipo])%list
               (produtos s) (vendas s),
       Some (mkAreaArmazem i nome tipo))
  end.

(** A stand-in for [ProdutoCatalogo.criar]: refuses an id that is taken. *)
Definition cria_produto (s : Store) (i nome : str) : Store * option ProdutoCatalogo :=
  match ProdutoCatalogo_buscar_por_id s i with
  | Some _ => (s, None)
  | None =>
      (mkStore (catalogo s ++ [mkProdutoCatalogo i nome])%list (areas s)
               (produtos s) (vendas s),
       Some (mkProdutoCatalogo i nome))
  end.

End Exemplo2.

(** ** Measures used to state properties of the report and of the calendar *)

Module Medidas.
Import PyDate Relatorios.

(** The sum of the totals held by the dictionary [estoque_total]. *)
Definition total_geral (m : gmap str Total) : Z :=
  map_fold (fun _ t acc => quantidade_total t + acc) 0 m.

(** What is checked of every entry of the table of upper-case forms: the
    code point is not ASCII and not white space, its upper-case form is not
    empty, neither begins nor ends with white space, and is its own
    upper-case form. *)
Definition confere_maiuscula (e : Z * list Z) : bool :=
  (128 <=? fst e) && negb (PyStr.is_space (fst e)) &&
  match snd e with
  | [] => false
  | x :: _ => negb (PyStr.is_space x)
  end &&
  negb (PyStr.is_space (last (snd e) 32)) &&
  str_eqb (PyStr.upper (snd e)) (snd e).

(** The check of month and day made by the constructor [date(y, m, d)],
    without the check of the year's range. *)
Definition valid_mes_dia (d : date) : bool :=
  (1 <=? month d) && (month d <=? 12) &&
  (1 <=? day d) && (day d <=? days_in_month (year d) (month d)).

(** Whether [fromordinal] gives, for [n], a month and a day of the calendar
    whose [toordinal] is [n] again. *)
Definition confere_ordinal (n : Z) : bool :=
  let d := ord2ymd n in
  valid_mes_dia d && (ymd2ord (year d) (month d) (day d) =? n).

(** [confere_ordinal] on [fuel] ordinals from [n] on. *)
Fixpoint confere_desde (fuel : nat) (n : Z) : bool :=
  match fuel with
  | O => true
  | S f => confere_ordinal n && confere_desde f (n + 1)
  end.

End Medidas.

(** ** Runs of requests to the stock views *)

Module Pedidos.
Import Modelo App.

(** A request to one of the five views of [app.py] that write to the store,
    with the values Flask passes to the view: the parts of the path, the
    form, and for a sale the user of the session and the time stamp. *)
Inductive PedidoEstoque :=
| pedido_adicionar (id_area : str) (form : FormAdicionar)
| pedido_vender (usuario agora id_area : str) (form : FormVenda)
| pedido_editar (metodo : Metodo) (id_area : str) (id_instancia_produto : Z)
                (form : FormEditar)
| pedido_excluir_produto (id_area : str) (id_instancia_produto : Z)
| pedido_excluir_area (id_area : str).

(** The view that the request is routed to. *)
Definition atende (s : Store) (p : PedidoEstoque) : Store * Resposta :=
  match p with
  | pedido_adicionar id_area form => adicionar_produto_na_area s id_area form
  | pedido_vender usuario agora id_area form =>
      vender_produto_da_area s usuario agora id_area form
  | pedido_editar metodo id_area i form =>
      editar_produto_em_area s metodo id_area i form
  | pedido_excluir_produto id_area i => excluir_produto_de_area s id_area i
  | pedido_excluir_area id_area => excluir_area s id_area
  end.

(** The store after the requests have been answered one after the other. *)
Definition atende_todos (s : Store) (ps : list PedidoEstoque) : Store :=
  fold_left (fun s p => fst (atende s p)) ps s.

Definition e_venda (p : PedidoEstoque) : bool :=
  match p with pedido_vender _ _ _ _ => true | _ => false end.

(** No instance of the store has a negative quantity. *)
Definition estoque_nao_negativo (s : Store) : Prop :=
  Forall (fun p => 0 <= quantidade p) (produtos s).

(** The units in stock, over all instances. *)
Definition unidades_em_estoque (s : Store) : Z :=
  fold_right Z.add 0 (map quantidade (produtos s)).

(** The units sold according to a list of sale records. *)
Definition unidades_vendidas (vs : list Venda) : Z :=
  fold_right Z.add 0 (map quantidade_vendida vs).

End Pedidos.

(** * Properties *)

Import PyStr Modelo App Relatorios.

(** ** Equality of strings *)

Lemma str_eqb_eq (a b : str) : str_eqb a b = true <-> a = b.
Proof.
  revert b. induction a as [|x a IH]; intros [|y b]; simpl;
    try (split; [discriminate | discriminate]); [tauto|].
  rewrite andb_true_iff, Z.eqb_eq, IH. split.
  - intros [-> ->]. reflexivity.
  - intros [= -> ->]. auto.
Qed.

Lemma str_eqb_refl (a : str) : str_eqb a a = true.
Proof. now apply str_eqb_eq. Qed.

Lemma str_eqb_neq (a b : str) : str_eqb a b = false <-> a <> b.
Proof.
  rewrite <- str_eqb_eq. destruct (str_eqb a b); split; congruence.
Qed.

Lemma str_eqb_spec (a b : str) : reflect (a = b) (str_eqb a b).
Proof.
  destruct (str_eqb a b) eqn:E; constructor.
  - now apply str_eqb_eq.
  - now apply str_eqb_neq.
Qed.

(** ** Lists and lookups *)

Section Listas.
Context {A : Type}.

Lemma find_map_mesmo_teste (t : A -> bool) (f : A -> A) (l : list A) :
  (forall x, t (f x) = t x) ->
  find t (map f l) = option_map f (find t l).
Proof.
  intros Ht. induction l as [|x l IH]; simpl; [reflexivity|].
  rewrite Ht. destruct (t x); [reflexivity | exact IH].
Qed.

Lemma find_app_none (t : A -> bool) (l1 l2 : list A) :
  find t l1 = None -> find t (l1 ++ l2) = find t l2.
Proof.
  induction l1 as [|x l1 IH]; simpl; [reflexivity|].
  destruct (t x); [discriminate | exact IH].
Qed.

Lemma map_id_fora (t : A -> bool) (f : A -> A) (l : list A) :
  (forall x, In x l -> t x = false) ->
  map (fun x => if t x then f x else x) l = l.
Proof.
  induction l as [|x l IH]; simpl; intros H; [reflexivity|].
  rewrite (H x) by auto. f_equal. apply IH. auto.
Qed.

End Listas.

(** ** The store accessors *)

Lemma buscar_instancia_id s i p :
  buscar_instancia_por_id s i = Some p -> id p = i /\ In p (produtos s).
Proof.
  unfold buscar_instancia_por_id. intros H.
  apply find_some in H. destruct H as [Hin Hid].
  apply Z.eqb_eq in Hid. auto.
Qed.

Lemma listar_produtos_In s a p :
  In p (listar_produtos s a) <-> In p (produtos s) /\ area p = id_area a.
Proof.
  unfold listar_produtos. rewrite filter_In, str_eqb_eq. tauto.
Qed.

Lemma truthy_campo (o : option str) :
  truthy o = false -> campo o = [].
Proof. destruct o as [[|c v]|]; simpl; intros H; [reflexivity|discriminate|reflexivity]. Qed.

Lemma py_int_truthy (o : option str) (n : Z) :
  py_int (campo o) = Some n -> truthy o = true.
Proof.
  intros H. destruct (truthy o) eqn:Ht; [reflexivity|].
  rewrite (truthy_campo o Ht) in H. discriminate H.
Qed.

Lemma buscar_apos_mapa (s : Store) (f : ProdutoLacteo -> ProdutoLacteo) (j : Z) :
  (forall x, id (f x) = id x) ->
  buscar_instancia_por_id (com_produtos s (map f (produtos s))) j
  = option_map f (buscar_instancia_por_id s j).
Proof.
  intros Hf. unfold buscar_instancia_por_id. simpl.
  apply find_map_mesmo_teste. intros x. now rewrite Hf.
Qed.

Lemma existsb_id_na_area (s : Store) (a : AreaArmazem) (p : ProdutoLacteo) :
  In p (produtos s) -> area p = id_area a ->
  existsb (fun p' => id p' =? id p) (listar_produtos s a) = true.
Proof.
  intros Hin Ha. apply existsb_exists. exists p. split.
  - apply listar_produtos_In. auto.
  - apply Z.eqb_refl.
Qed.

(** What [remover_produto] does once the handler's checks have passed. *)
Lemma remover_produto_ok (s : Store) (a : AreaArmazem) (p : ProdutoLacteo) (q : Z) :
  buscar_instancia_por_id s (id p) = Some p ->
  area p = id_area a ->
  0 < q <= quantidade p ->
  remover_produto s a (id p) q
  = (com_produtos s
       (map (fun p' => if id p' =? id p
                       then com_quantidade p' (quantidade p - q) else p')
            (produtos s)),
     true).
Proof.
  intros Hp Ha Hq. unfold remover_produto. rewrite Hp.
  rewrite Ha, str_eqb_refl.
  replace (0 <? q) with true by (symmetry; apply Z.ltb_lt; lia).
  replace (q <=? quantidade p) with true by (symmetry; apply Z.leb_le; lia).
  reflexivity.
Qed.

(** The handler on a request that passes every check. *)
Lemma vender_sucesso (s : Store) (usuario agora ida : str) (form : FormVenda)
    (a : AreaArmazem) (p : ProdutoLacteo) (q i : Z) :
  AreaArmazem_buscar_por_id s ida = Some a ->
  truthy (form_destino_venda form) = true ->
  py_int (campo (form_quantidade_venda form)) = Some q ->
  py_int (campo (form_id_instancia_venda form)) = Some i ->
  buscar_instancia_por_id s i = Some p ->
  area p = id_area a ->
  0 < q <= quantidade p ->
  vender_produto_da_area s usuario agora ida form
  = (Venda_registrar
       (com_produtos s
          (map (fun p' => if id p' =? i
                          then com_quantidade p' (quantidade p - q) else p')
               (produtos s)))
       (mkVenda (id_catalogo_produto p) (nome p) (lote p)
                (PyDate.strftime_Ymd (data_validade p)) q
                (strip (campo (form_destino_venda form))) ida usuario agora),
     responde (venda_registrada q (nome p) (lote p)) success
              (redirect_detalhes_da_area ida)).
Proof.
  intros Ha Hd Hq Hi Hp Hpa Hrange.
  destruct (buscar_instancia_id _ _ _ Hp) as [Hid Hin].
  unfold vender_produto_da_area. rewrite Ha.
  rewrite (py_int_truthy _ _ Hq), (py_int_truthy _ _ Hi), Hd. simpl negb. cbv iota.
  rewrite Hq, Hi.
  replace (q <=? 0) with false by (symmetry; apply Z.leb_gt; lia).
  rewrite Hp.
  pose proof (existsb_id_na_area s a p Hin Hpa) as He. rewrite Hid in He.
  rewrite He. simpl negb. cbv iota.
  replace (quantidade p <? q) with false by (symmetry; apply Z.ltb_ge; lia).
  rewrite remover_produto_ok; [| rewrite Hid; exact Hp | exact Hpa | exact Hrange].
  rewrite Hid. reflexivity.
Qed.

(** C1 (as amended). A sell request that carries a non-empty destination
    and a quantity [q] with [0 < q <= quantidade p], naming an existing
    instance [p] that belongs to the area of the request, decrements the
    quantity of that instance by exactly [q], leaves every other instance as
    it was, and appends exactly one sale record, whose [quantidade_vendida]
    is [q] and whose catalog id, name, lot and expiry date are those of the
    instance when it was sold. *)
Theorem C1_venda_decrementa_e_registra
    (s : Store) (usuario agora ida : str) (form : FormVenda)
    (a : AreaArmazem) (p : ProdutoLacteo) (q i : Z) :
  AreaArmazem_buscar_por_id s ida = Some a ->
  truthy (form_destino_venda form) = true ->
  py_int (campo (form_quantidade_venda form)) = Some q ->
  py_int (campo (form_id_instancia_venda form)) = Some i ->
  buscar_instancia_por_id s i = Some p ->
  area p = id_area a ->
  0 < q <= quantidade p ->
  let res := vender_produto_da_area s usuario agora ida form in
  sucesso (snd res) = true /\
  buscar_instancia_por_id (fst res) i = Some (com_quantidade p (quantidade p - q)) /\
  (forall j, j <> i ->
     buscar_instancia_por_id (fst res) j = buscar_instancia_por_id s j) /\
  exists v,
    vendas (fst res) = (vendas s ++ [v])%list /\
    quantidade_vendida v = q /\
    venda_id_catalogo_produto v = id_catalogo_produto p /\
    venda_nome v = nome p /\
    venda_lote v = lote p /\
    data_validade_produto v = PyDate.strftime_Ymd (data_validade p).
Proof.
  intros Ha Hd Hq Hi Hp Hpa Hrange res. subst res.
  rewrite (vender_sucesso s usuario agora ida form a p q i) by assumption.
  destruct (buscar_instancia_id _ _ _ Hp) as [Hid _].
  simpl fst. simpl snd. split; [reflexivity|]. split; [|split].
  - change (buscar_instancia_por_id
              (com_produtos s
                 (map (fun p' => if id p' =? i
                                 then com_quantidade p' (quantidade p - q) else p')
                      (produtos s))) i
            = Some (com_quantidade p (quantidade p - q))).
    rewrite buscar_apos_mapa by (intros x; destruct (id x =? i); reflexivity).
    rewrite Hp. simpl. rewrite Hid, Z.eqb_refl. reflexivity.
  - intros j Hj.
    change (buscar_instancia_por_id
              (com_produtos s
                 (map (fun p' => if id p' =? i
                                 then com_quantidade p' (quantidade p - q) else p')
                      (produtos s))) j
            = buscar_instancia_por_id s j).
    rewrite buscar_apos_mapa by (intros x; destruct (id x =? i); reflexivity).
    destruct (buscar_instancia_por_id s j) as [x|] eqn:Hx; [|reflexivity].
    simpl. destruct (buscar_instancia_id _ _ _ Hx) as [Hxj _].
    replace (id x =? i) with false by (symmetry; apply Z.eqb_neq; lia).
    reflexivity.
  - eexists. split; [reflexivity|]. simpl. auto.
Qed.

(** C1 at a concrete request: two of the five units of batch 1 are sold. *)
Lemma C1_venda_decrementa_e_registra_witness :
  let res := vender_produto_da_area Exemplo.loja "ana" "10/01/2024 09:30:00" "A1"
               (mkFormVenda (Some "1") (Some "2") (Some "Mercado Central")) in
  sucesso (snd res) = true /\
  buscar_instancia_por_id (fst res) 1
  = Some (com_quantidade Exemplo.leite_camara (5 - 2)) /\
  (forall j, j <> 1 ->
     buscar_instancia_por_id (fst res) j = buscar_instancia_por_id Exemplo.loja j) /\
  exists v,
    vendas (fst res) = (vendas Exemplo.loja ++ [v])%list /\
    quantidade_vendida v = 2 /\
    venda_id_catalogo_produto v = "LEITE" /\
    venda_nome v = "Leite Integral" /\
    venda_lote v = "L1" /\
    data_validade_produto v = "2024-01-05".
Proof.
  apply (C1_venda_decrementa_e_registra Exemplo.loja "ana" "10/01/2024 09:30:00" "A1"
           (mkFormVenda (Some "1") (Some "2") (Some "Mercado Central"))
           Exemplo.camara Exemplo.leite_camara 2 1);
    try reflexivity.
  simpl. lia.
Defined.

(** C1 as first stated fails: the same sale with an empty destination is
    turned down before any stock is looked at, although the quantity, the
    instance and the area satisfy the claim's conditions. *)
Lemma C1_destino_vazio_counterexample :
  AreaArmazem_buscar_por_id Exemplo.loja "A1" = Some Exemplo.camara /\
  py_int "2" = Some 2 /\
  py_int "1" = Some 1 /\
  buscar_instancia_por_id Exemplo.loja 1 = Some Exemplo.leite_camara /\
  area Exemplo.leite_camara = id_area Exemplo.camara /\
  0 < 2 <= quantidade Exemplo.leite_camara /\
  vender_produto_da_area Exemplo.loja "ana" "10/01/2024 09:30:00" "A1"
    (mkFormVenda (Some "1") (Some "2") (Some ""))
  = (Exemplo.loja,
     responde informacoes_insuficientes_venda warning (redirect_detalhes_da_area "A1")).
Proof.
  simpl. repeat split; try reflexivity; lia.
Qed.

(** ** Refused sales *)

(** [remover_produto] changes the store only when it answers [True]. *)
Lemma remover_produto_falso (s : Store) (a : AreaArmazem) (i q : Z) :
  snd (remover_produto s a i q) = false -> fst (remover_produto s a i q) = s.
Proof.
  unfold remover_produto.
  destruct (buscar_instancia_por_id s i) as [p|]; [|reflexivity].
  destruct (str_eqb (area p) (id_area a) && (0 <? q) && (q <=? quantidade p));
    simpl; [discriminate | reflexivity].
Qed.

(** Every run of the sell handler either leaves the store as it was and
    flashes no success, or has passed each of the handler's checks. *)
Lemma vender_casos (s : Store) (usuario agora ida : str) (form : FormVenda) :
  let res := vender_produto_da_area s usuario agora ida form in
  (fst res = s /\ sucesso (snd res) = false) \/
  (exists a q i p,
     AreaArmazem_buscar_por_id s ida = Some a /\
     truthy (form_destino_venda form) = true /\
     py_int (campo (form_quantidade_venda form)) = Some q /\
     py_int (campo (form_id_instancia_venda form)) = Some i /\
     0 < q /\
     buscar_instancia_por_id s i = Some p /\
     existsb (fun p' => id p' =? i) (listar_produtos s a) = true /\
     q <= quantidade p /\
     sucesso (snd res) = true).
Proof.
  unfold vender_produto_da_area.
  destruct (AreaArmazem_buscar_por_id s ida) as [a|] eqn:Ha; [|left; auto].
  destruct (truthy (form_id_instancia_venda form)); [|left; auto].
  destruct (truthy (form_quantidade_venda form)); [|left; auto].
  destruct (truthy (form_destino_venda form)) eqn:Hd; [|left; auto].
  simpl negb. cbv iota.
  destruct (py_int (campo (form_quantidade_venda form))) as [q|] eqn:Hq; [|left; auto].
  destruct (py_int (campo (form_id_instancia_venda form))) as [i|] eqn:Hi; [|left; auto].
  destruct (q <=? 0) eqn:Hq0; [left; auto|].
  destruct (buscar_instancia_por_id s i) as [p|] eqn:Hp; [|left; auto].
  destruct (existsb (fun p' => id p' =? i) (listar_produtos s a)) eqn:He;
    [|left; auto].
  simpl negb. cbv iota.
  destruct (quantidade p <? q) eqn:Hpq; [left; auto|].
  destruct (remover_produto s a (id p) q) as [s1 ok] eqn:Hr.
  destruct ok.
  - right. exists a, q, i, p.
    apply Z.leb_gt in Hq0. apply Z.ltb_ge in Hpq.
    repeat split; auto.
  - left. split; [|reflexivity].
    pose proof (remover_produto_falso s a (id p) q) as Hf.
    rewrite Hr in Hf. simpl in *. auto.
Qed.

(** C2. A sell request whose quantity exceeds the quantity of the named
    instance is refused: the store (stock and sales ledger) is what it was
    and no success is flashed. The same holds whenever a precondition of
    the sale is unmet: a quantity that is not positive, an instance id that
    names no instance, an instance that is not among those of the area, an
    area that does not exist. *)
Theorem C2_venda_recusada_sem_efeito
    (s : Store) (usuario agora ida : str) (form : FormVenda) :
  (exists q i p,
     py_int (campo (form_quantidade_venda form)) = Some q /\
     py_int (campo (form_id_instancia_venda form)) = Some i /\
     buscar_instancia_por_id s i = Some p /\ quantidade p < q) \/
  (exists q, py_int (campo (form_quantidade_venda form)) = Some q /\ q <= 0) \/
  (exists i,
     py_int (campo (form_id_instancia_venda form)) = Some i /\
     buscar_instancia_por_id s i = None) \/
  (exists i a,
     py_int (campo (form_id_instancia_venda form)) = Some i /\
     AreaArmazem_buscar_por_id s ida = Some a /\
     ~ (exists p, In p (listar_produtos s a) /\ id p = i)) \/
  AreaArmazem_buscar_por_id s ida = None ->
  let res := vender_produto_da_area s usuario agora ida form in
  fst res = s /\
  produtos (fst res) = produtos s /\
  vendas (fst res) = vendas s /\
  sucesso (snd res) = false.
Proof.
  intros Hunmet res.
  assert (fst res = s /\ sucesso (snd res) = false) as [Hs Hr].
  { destruct (vender_casos s usuario agora ida form)
      as [Hl | (a & q & i & p & Ha & Hd & Hq & Hi & Hq0 & Hp & He & Hpq & _)];
      [exact Hl | exfalso].
    destruct Hunmet as [(q' & i' & p' & Hq' & Hi' & Hp' & Hlt)
                       | [(q' & Hq' & Hle)
                       | [(i' & Hi' & Hnone)
                       | [(i' & a' & Hi' & Ha' & Hnot) | Hnoarea]]]].
    - rewrite Hq in Hq'. rewrite Hi in Hi'.
      injection Hq' as <-. injection Hi' as <-.
      rewrite Hp in Hp'. injection Hp' as <-. lia.
    - rewrite Hq in Hq'. injection Hq' as <-. lia.
    - rewrite Hi in Hi'. injection Hi' as <-. congruence.
    - rewrite Hi in Hi'. injection Hi' as <-.
      rewrite Ha in Ha'. injection Ha' as <-.
      apply existsb_exists in He. destruct He as (x & Hx & Hxi).
      apply Hnot. exists x. split; [exact Hx | now apply Z.eqb_eq].
    - congruence. }
  rewrite Hs. auto.
Qed.

(** C2 at a concrete request: nine units of a batch that holds five. *)
Lemma C2_venda_recusada_sem_efeito_witness :
  let res := vender_produto_da_area Exemplo.loja "ana" "10/01/2024 09:30:00" "A1"
               (mkFormVenda (Some "1") (Some "9") (Some "Mercado Central")) in
  fst res = Exemplo.loja /\
  produtos (fst res) = produtos Exemplo.loja /\
  vendas (fst res) = vendas Exemplo.loja /\
  sucesso (snd res) = false.
Proof.
  apply (C2_venda_recusada_sem_efeito Exemplo.loja "ana" "10/01/2024 09:30:00" "A1"
           (mkFormVenda (Some "1") (Some "9") (Some "Mercado Central"))).
  left. exists 9, 1, Exemplo.leite_camara.
  repeat split; try reflexivity.
Defined.

(** ** Deleting an area that holds stock *)

(** C6. Deleting an area that still owns at least one stock instance fails
    with the in-use answer; after the refused delete the store is what it
    was, so the area is still found under its id and it owns the same
    instances. *)
Theorem C6_area_em_uso_nao_excluida (s : Store) (ida : str) (a : AreaArmazem) :
  AreaArmazem_buscar_por_id s ida = Some a ->
  listar_produtos s a <> [] ->
  let res := excluir_area s ida in
  flash (snd res) = Some (mensagem_deletar_area AreaEmUso, danger) /\
  fst res = s /\
  AreaArmazem_buscar_por_id (fst res) ida = Some a /\
  listar_produtos (fst res) a = listar_produtos s a /\
  produtos (fst res) = produtos s.
Proof.
  intros Ha Hne res. subst res. unfold excluir_area. rewrite Ha.
  unfold AreaArmazem_deletar.
  destruct (listar_produtos s a) as [|p l] eqn:Hl; [congruence|].
  simpl. rewrite Ha, Hl. auto.
Qed.

(** C6 at a concrete area: the cold room holds two batches. *)
Lemma C6_area_em_uso_nao_excluida_witness :
  let res := excluir_area Exemplo.loja "A1" in
  flash (snd res) = Some (mensagem_deletar_area AreaEmUso, danger) /\
  fst res = Exemplo.loja /\
  AreaArmazem_buscar_por_id (fst res) "A1" = Some Exemplo.camara /\
  listar_produtos (fst res) Exemplo.camara
  = listar_produtos Exemplo.loja Exemplo.camara /\
  produtos (fst res) = produtos Exemplo.loja.
Proof.
  apply (C6_area_em_uso_nao_excluida Exemplo.loja "A1" Exemplo.camara).
  - reflexivity.
  - discriminate.
Defined.

(** An area that owns nothing is deleted: the in-use answer is tied to the
    stock and not given to every delete. *)
Example excluir_area_vazia :
  excluir_area Exemplo.loja "C3"
  = (mkStore (catalogo Exemplo.loja) [Exemplo.camara; Exemplo.deposito]
             (produtos Exemplo.loja) (vendas Exemplo.loja),
     responde (mensagem_deletar_area AreaExcluida) success redirect_listar_areas_admin).
Proof. reflexivity. Qed.

(** ** Instances of another area *)

Lemma fora_da_area (s : Store) (a : AreaArmazem) (i : Z) :
  ~ (exists p, In p (listar_produtos s a) /\ id p = i) ->
  existsb (fun p => id p =? i) (listar_produtos s a) = false.
Proof.
  intros Hnot. destruct (existsb _ _) eqn:He; [|reflexivity].
  exfalso. apply existsb_exists in He. destruct He as (x & Hx & Hxi).
  apply Hnot. exists x. split; [exact Hx | now apply Z.eqb_eq].
Qed.

(** C7 (as amended). When the named instance exists and is not among the
    instances of the (existing) area named in the path, editing it (with
    either method and any form) and deleting it answer with the
    not-of-this-area message and leave the store as it was; selling it
    does so too once the request has passed the checks that come first in
    the sell handler (the three fields present, an integer quantity, and
    the quantity positive); and a sell request that those checks turn down
    leaves the store as it was as well and flashes no success. *)
Theorem C7_instancia_de_outra_area
    (s : Store) (ida : str) (a : AreaArmazem) (i : Z) (p : ProdutoLacteo) :
  AreaArmazem_buscar_por_id s ida = Some a ->
  buscar_instancia_por_id s i = Some p ->
  ~ (exists p', In p' (listar_produtos s a) /\ id p' = i) ->
  let recusa :=
    (s, responde (nao_pertence_a_area i (nome_area a)) danger
          (redirect_detalhes_da_area ida)) in
  (forall metodo form, editar_produto_em_area s metodo ida i form = recusa) /\
  excluir_produto_de_area s ida i = recusa /\
  (forall usuario agora form q,
     truthy (form_destino_venda form) = true ->
     py_int (campo (form_quantidade_venda form)) = Some q ->
     py_int (campo (form_id_instancia_venda form)) = Some i ->
     0 < q ->
     vender_produto_da_area s usuario agora ida form = recusa) /\
  (forall usuario agora form,
     py_int (campo (form_id_instancia_venda form)) = Some i ->
     fst (vender_produto_da_area s usuario agora ida form) = s /\
     sucesso (snd (vender_produto_da_area s usuario agora ida form)) = false).
Proof.
  intros Ha Hp Hnot recusa. subst recusa.
  pose proof (fora_da_area s a i Hnot) as He.
  split; [|split; [|split]].
  - intros metodo form. unfold editar_produto_em_area.
    rewrite Ha, Hp, He. reflexivity.
  - unfold excluir_produto_de_area. rewrite Ha, Hp, He. reflexivity.
  - intros usuario agora form q Hd Hq Hi Hq0.
    unfold vender_produto_da_area. rewrite Ha.
    rewrite (py_int_truthy _ _ Hq), (py_int_truthy _ _ Hi), Hd.
    simpl negb. cbv iota. rewrite Hq, Hi.
    replace (q <=? 0) with false by (symmetry; apply Z.leb_gt; lia).
    rewrite Hp, He. reflexivity.
  - intros usuario agora form Hi.
    destruct (vender_casos s usuario agora ida form)
      as [Hl | (a' & q & i' & p' & Ha' & _ & _ & Hi' & _ & _ & He' & _)];
      [exact Hl | exfalso].
    rewrite Ha in Ha'. injection Ha' as <-.
    rewrite Hi in Hi'. injection Hi' as <-.
    congruence.
Qed.

(** C7 at concrete requests: batch 1 is kept in the cold room "A1" and the
    requests name the dry store "B2". *)
Lemma C7_instancia_de_outra_area_witness :
  let recusa :=
    (Exemplo.loja,
     responde (nao_pertence_a_area 1 "Deposito") danger
              (redirect_detalhes_da_area "B2")) in
  (forall metodo form,
     editar_produto_em_area Exemplo.loja metodo "B2" 1 form = recusa) /\
  excluir_produto_de_area Exemplo.loja "B2" 1 = recusa /\
  (forall usuario agora form q,
     truthy (form_destino_venda form) = true ->
     py_int (campo (form_quantidade_venda form)) = Some q ->
     py_int (campo (form_id_instancia_venda form)) = Some 1 ->
     0 < q ->
     vender_produto_da_area Exemplo.loja usuario agora "B2" form = recusa) /\
  (forall usuario agora form,
     py_int (campo (form_id_instancia_venda form)) = Some 1 ->
     fst (vender_produto_da_area Exemplo.loja usuario agora "B2" form) = Exemplo.loja /\
     sucesso (snd (vender_produto_da_area Exemplo.loja usuario agora "B2" form)) = false).
Proof.
  apply (C7_instancia_de_outra_area Exemplo.loja "B2" Exemplo.deposito 1
           Exemplo.leite_camara).
  - reflexivity.
  - reflexivity.
  - intros (x & Hx & Hid). simpl in Hx.
    destruct Hx as [<- | []]. discriminate Hid.
Defined.

(** C7 as first stated fails for the sell operation: a request for zero
    units of batch 1, which exists and is not in the area "B2" of the
    request, is answered with the message about the quantity and not with
    the one about the area. *)
Lemma C7_venda_quantidade_zero_counterexample :
  AreaArmazem_buscar_por_id Exemplo.loja "B2" = Some Exemplo.deposito /\
  buscar_instancia_por_id Exemplo.loja 1 = Some Exemplo.leite_camara /\
  existsb (fun p => id p =? 1) (listar_produtos Exemplo.loja Exemplo.deposito) = false /\
  vender_produto_da_area Exemplo.loja "ana" "10/01/2024 09:30:00" "B2"
    (mkFormVenda (Some "1") (Some "0") (Some "Mercado Central"))
  = (Exemplo.loja,
     responde quantidade_venda_deve_ser_positiva warning (redirect_detalhes_da_area "B2")) /\
  flash (snd (vender_produto_da_area Exemplo.loja "ana" "10/01/2024 09:30:00" "B2"
                (mkFormVenda (Some "1") (Some "0") (Some "Mercado Central"))))
  <> Some (nao_pertence_a_area 1 "Deposito", danger).
Proof.
  simpl. repeat split; try reflexivity. discriminate.
Qed.

(** ** The credential check *)

Section Credenciais.

Variable check_password_hash : str -> str -> bool.

Lemma find_username_unico (db : Models.DB) (name : str) (u : Models.User) :
  NoDup (map Models.username db) ->
  In u db -> Models.username u = name ->
  find (fun x => str_eqb (Models.username x) name) db = Some u.
Proof.
  induction db as [|x db IH]; simpl; intros Hnd Hin Hname; [contradiction|].
  inversion Hnd as [|? ? Hnotin Hnd']; subst.
  destruct Hin as [-> | Hin].
  - now rewrite str_eqb_refl.
  - destruct (str_eqb (Models.username x) (Models.username u)) eqn:Hx.
    + exfalso. apply str_eqb_eq in Hx. apply Hnotin. rewrite Hx.
      now apply in_map.
    + now apply IH.
Qed.

(** C9. [check_user_password] leaves the table as it was. A row it returns
    is stored under the given user name and the password matches its hash.
    It returns [None] when no row has that user name. With user names
    unique in the table (the constraint behind [create_user]'s
    [IntegrityError]), the row stored under the user name is returned when
    the password matches its hash, and [None] is returned when it does
    not. *)
Theorem C9_check_user_password (db : Models.DB) (name password : str) :
  let res := Models.check_user_password check_password_hash db name password in
  fst res = db /\
  (forall u,
     snd res = Some u ->
     In u db /\ Models.username u = name /\
     check_password_hash (Models.password_hash u) password = true) /\
  ((forall u, In u db -> Models.username u <> name) -> snd res = None) /\
  (NoDup (map Models.username db) ->
   forall u, In u db -> Models.username u = name ->
     snd res = if check_password_hash (Models.password_hash u) password
               then Some u else None).
Proof.
  intros res. subst res.
  unfold Models.check_user_password, Models.get_user_by_username.
  destruct (find (fun x => str_eqb (Models.username x) name) db) as [v|] eqn:Hf.
  - pose proof (find_some _ _ Hf) as [Hvin Hvname].
    apply str_eqb_eq in Hvname.
    assert (Huniq : NoDup (map Models.username db) ->
                    forall u, In u db -> Models.username u = name -> u = v).
    { intros Hnd u Hin Hname.
      pose proof (find_username_unico db name u Hnd Hin Hname) as Hu. congruence. }
    destruct (check_password_hash (Models.password_hash v) password) eqn:Hc; simpl.
    + split; [reflexivity|]. split; [|split].
      * intros u [= <-]. auto.
      * intros Hnone. exfalso. exact (Hnone v Hvin Hvname).
      * intros Hnd u Hin Hname. rewrite (Huniq Hnd u Hin Hname), Hc. reflexivity.
    + split; [reflexivity|]. split; [|split].
      * intros u. discriminate.
      * reflexivity.
      * intros Hnd u Hin Hname. rewrite (Huniq Hnd u Hin Hname), Hc. reflexivity.
  - simpl. split; [reflexivity|]. split; [|split].
    + intros u. discriminate.
    + reflexivity.
    + intros Hnd u Hin Hname.
      pose proof (find_username_unico db name u Hnd Hin Hname) as Hu. congruence.
Qed.

End Credenciais.

(** C9 at a concrete table, with a hash check that can be run. *)
Lemma C9_check_user_password_witness :
  let ana := Models.mkUser "ana" "hash:segredo" "gerente" in
  NoDup (map Models.username Exemplo.usuarios) /\
  snd (Models.check_user_password Exemplo.confere_hash Exemplo.usuarios "ana" "segredo")
  = Some ana /\
  snd (Models.check_user_password Exemplo.confere_hash Exemplo.usuarios "ana" "1234")
  = None.
Proof.
  intros ana.
  assert (Hnd : NoDup (map Models.username Exemplo.usuarios)).
  { repeat constructor; simpl; intuition discriminate. }
  split; [exact Hnd|]. split.
  - exact (proj2 (proj2 (proj2
             (C9_check_user_password Exemplo.confere_hash Exemplo.usuarios
                "ana" "segredo")))
             Hnd ana (or_introl eq_refl) eq_refl).
  - exact (proj2 (proj2 (proj2
             (C9_check_user_password Exemplo.confere_hash Exemplo.usuarios
                "ana" "1234")))
             Hnd ana (or_introl eq_refl) eq_refl).
Defined.

Example check_user_password_certa :
  snd (Models.check_user_password Exemplo.confere_hash Exemplo.usuarios "ana" "segredo")
  = Some (Models.mkUser "ana" "hash:segredo" "gerente").
Proof. reflexivity. Qed.

Example check_user_password_errada :
  snd (Models.check_user_password Exemplo.confere_hash Exemplo.usuarios "ana" "1234")
  = None.
Proof. reflexivity. Qed.

Example check_user_password_desconhecido :
  snd (Models.check_user_password Exemplo.confere_hash Exemplo.usuarios "carla" "1234")
  = None.
Proof. reflexivity. Qed.

(** ** Adding stock *)

(** The add handler on a request that passes every check. *)
Lemma adicionar_sucesso (s : Store) (ida : str) (form : FormAdicionar)
    (a : AreaArmazem) (pc : ProdutoCatalogo) (q : Z) (d : PyDate.date) :
  AreaArmazem_buscar_por_id s ida = Some a ->
  truthy (form_id_produto_catalogo form) = true ->
  truthy (form_data_validade form) = true ->
  truthy (form_lote form) = true ->
  py_int (campo (form_quantidade form)) = Some q ->
  0 < q ->
  ProdutoCatalogo_buscar_por_id s (campo (form_id_produto_catalogo form)) = Some pc ->
  PyDate.strptime_Ymd (campo (form_data_validade form)) = Some d ->
  adicionar_produto_na_area s ida form
  = (adicionar_produto s a
       (mkProdutoLacteo 0 (campo (form_id_produto_catalogo form)) (nome_catalogo pc)
          q d (normaliza_lote (campo (form_lote form))) ""),
     responde (produto_adicionado (nome_catalogo pc)
                 (normaliza_lote (campo (form_lote form))) (nome_area a))
              success (redirect_detalhes_da_area ida)).
Proof.
  intros Ha Hc Hd Hl Hq Hq0 Hpc Hdt.
  unfold adicionar_produto_na_area. rewrite Ha.
  rewrite Hc, (py_int_truthy _ _ Hq), Hd, Hl. simpl negb. cbv iota.
  rewrite Hq.
  replace (q <=? 0) with false by (symmetry; apply Z.leb_gt; lia).
  rewrite Hpc. unfold novo_ProdutoLacteo. rewrite Hdt. reflexivity.
Qed.

Lemma novo_id_fresco (s : Store) (p : ProdutoLacteo) :
  In p (produtos s) -> id p < novo_id s.
Proof.
  unfold novo_id. induction (produtos s) as [|x l IH]; simpl; [contradiction|].
  intros [-> | Hin]; [lia|]. specialize (IH Hin). lia.
Qed.

(** A key with no instance: [adicionar_produto] appends a row with the
    fresh id. *)
Lemma adicionar_produto_novo (s : Store) (a : AreaArmazem) (novo : ProdutoLacteo) :
  find (mesma_chave a (id_catalogo_produto novo) (lote novo)) (produtos s) = None ->
  adicionar_produto s a novo
  = com_produtos s
      (produtos s ++
       [mkProdutoLacteo (novo_id s) (id_catalogo_produto novo) (nome novo)
          (quantidade novo) (data_validade novo) (lote novo) (id_area a)]).
Proof. intros H. unfold adicionar_produto. now rewrite H. Qed.

(** A key whose only instance is the last row, with an id no other row
    has: [adicionar_produto] adds to the quantity of that row. *)
Lemma adicionar_produto_no_ultimo (s : Store) (a : AreaArmazem)
    (novo e : ProdutoLacteo) (l : list ProdutoLacteo) :
  produtos s = (l ++ [e])%list ->
  find (mesma_chave a (id_catalogo_produto novo) (lote novo)) l = None ->
  mesma_chave a (id_catalogo_produto novo) (lote novo) e = true ->
  (forall x, In x l -> id x <> id e) ->
  adicionar_produto s a novo
  = com_produtos s (l ++ [com_quantidade e (quantidade e + quantidade novo)]).
Proof.
  intros Hps Hnone He Hids. unfold adicionar_produto. rewrite Hps.
  rewrite find_app_none by exact Hnone. simpl. rewrite He.
  rewrite map_app. simpl. rewrite Z.eqb_refl.
  rewrite (map_id_fora (fun p => id p =? id e)); [reflexivity|].
  intros x Hx. apply Z.eqb_neq. auto.
Qed.

(** No row under the key: none of the area's rows passes the key test. *)
Lemma sem_chave_na_area (a : AreaArmazem) (c L : str) (l : list ProdutoLacteo) :
  find (mesma_chave a c L) l = None ->
  List.filter (fun x => str_eqb (id_catalogo_produto x) c && str_eqb (lote x) L)
              (List.filter (fun p => str_eqb (area p) (id_area a)) l)
  = [].
Proof.
  induction l as [|x l IH]; simpl; [reflexivity|].
  unfold mesma_chave at 1.
  destruct (str_eqb (area x) (id_area a)); simpl.
  - destruct (str_eqb (id_catalogo_produto x) c && str_eqb (lote x) L) eqn:Hk.
    + discriminate.
    + exact IH.
  - exact IH.
Qed.

(** C3 (as amended). On valid inputs (an existing area, an existing catalog
    product, a positive quantity, a date that parses, a lot code), with no
    instance yet under the key (area, catalog product, lot): the first add
    creates one instance with a fresh system-assigned id, and a second add
    with the same key does not create another one. After the two adds the
    area holds exactly one instance under the key, its quantity is the sum
    of the two quantities, and the rows that were there are untouched. *)
Theorem C3_adicionar_duas_vezes
    (s : Store) (ida : str) (f1 f2 : FormAdicionar) (a : AreaArmazem)
    (pc : ProdutoCatalogo) (q1 q2 : Z) (d1 d2 : PyDate.date) (c L : str) :
  AreaArmazem_buscar_por_id s ida = Some a ->
  form_id_produto_catalogo f1 = Some c ->
  form_id_produto_catalogo f2 = Some c ->
  c <> [] ->
  ProdutoCatalogo_buscar_por_id s c = Some pc ->
  py_int (campo (form_quantidade f1)) = Some q1 -> 0 < q1 ->
  py_int (campo (form_quantidade f2)) = Some q2 -> 0 < q2 ->
  PyDate.strptime_Ymd (campo (form_data_validade f1)) = Some d1 ->
  PyDate.strptime_Ymd (campo (form_data_validade f2)) = Some d2 ->
  truthy (form_lote f1) = true ->
  truthy (form_lote f2) = true ->
  normaliza_lote (campo (form_lote f1)) = L ->
  normaliza_lote (campo (form_lote f2)) = L ->
  find (mesma_chave a c L) (produtos s) = None ->
  let r1 := adicionar_produto_na_area s ida f1 in
  let r2 := adicionar_produto_na_area (fst r1) ida f2 in
  let novo q := mkProdutoLacteo (novo_id s) c (nome_catalogo pc) q d1 L (id_area a) in
  sucesso (snd r1) = true /\
  sucesso (snd r2) = true /\
  produtos (fst r1) = (produtos s ++ [novo q1])%list /\
  (forall x, In x (produtos s) -> id x <> novo_id s) /\
  produtos (fst r2) = (produtos s ++ [novo (q1 + q2)])%list /\
  List.filter (fun x => str_eqb (id_catalogo_produto x) c && str_eqb (lote x) L)
              (listar_produtos (fst r2) a)
  = [novo (q1 + q2)].
Proof.
  intros Ha Hc1 Hc2 Hc Hpc Hq1 Hq1p Hq2 Hq2p Hd1 Hd2 Hl1 Hl2 HL1 HL2 Hnone r1 r2 novo.
  assert (Htc : truthy (Some c) = true) by (destruct c; [congruence | reflexivity]).
  assert (Hfresh : forall x, In x (produtos s) -> id x <> novo_id s).
  { intros x Hx. pose proof (novo_id_fresco s x Hx). lia. }
  assert (Hdate : forall f dd, PyDate.strptime_Ymd (campo (form_data_validade f)) = Some dd ->
                          truthy (form_data_validade f) = true).
  { intros f dd H. destruct (truthy (form_data_validade f)) eqn:Ht; [reflexivity|].
    rewrite (truthy_campo _ Ht) in H. discriminate H. }
  assert (E1 : r1 = (com_produtos s (produtos s ++ [novo q1]),
                     responde (produto_adicionado (nome_catalogo pc) L (nome_area a))
                       success (redirect_detalhes_da_area ida))).
  { subst r1.
    rewrite (adicionar_sucesso s ida f1 a pc q1 d1); try assumption.
    - rewrite Hc1, HL1. simpl campo. rewrite adicionar_produto_novo by exact Hnone.
      reflexivity.
    - rewrite Hc1. exact Htc.
    - exact (Hdate f1 d1 Hd1).
    - rewrite Hc1. exact Hpc. }
  assert (Hkey : mesma_chave a c L (novo q1) = true).
  { unfold mesma_chave, novo. simpl. now rewrite !str_eqb_refl. }
  assert (E2 : r2 = (com_produtos s (produtos s ++ [novo (q1 + q2)]),
                     responde (produto_adicionado (nome_catalogo pc) L (nome_area a))
                       success (redirect_detalhes_da_area ida))).
  { subst r2. rewrite E1. simpl fst.
    rewrite (adicionar_sucesso _ ida f2 a pc q2 d2); try assumption.
    - rewrite Hc2, HL2. simpl campo.
      rewrite (adicionar_produto_no_ultimo _ a _ (novo q1) (produtos s));
        [reflexivity | reflexivity | exact Hnone | exact Hkey | exact Hfresh].
    - rewrite Hc2. exact Htc.
    - exact (Hdate f2 d2 Hd2).
    - rewrite Hc2. exact Hpc. }
  rewrite E2, E1. simpl fst. simpl snd.
  split; [reflexivity|]. split; [reflexivity|]. split; [reflexivity|].
  split; [exact Hfresh|]. split; [reflexivity|].
  unfold listar_produtos. simpl produtos.
  rewrite !filter_app. simpl. rewrite !str_eqb_refl. simpl.
  rewrite !str_eqb_refl. simpl.
  rewrite (sem_chave_na_area a c L (produtos s) Hnone). reflexivity.
Qed.

(** C3 at concrete requests: four and then six units of cheese, lot "Q7",
    into the cold room, which holds no such lot. *)
Lemma C3_adicionar_duas_vezes_witness :
  let f1 := mkFormAdicionar (Some "QUEIJO") (Some "4") (Some "2024-03-01") (Some "Q7") in
  let f2 := mkFormAdicionar (Some "QUEIJO") (Some "6") (Some "2024-03-05") (Some "Q7") in
  let r1 := adicionar_produto_na_area Exemplo.loja "A1" f1 in
  let r2 := adicionar_produto_na_area (fst r1) "A1" f2 in
  let novo q :=
    mkProdutoLacteo 4 "QUEIJO" "Queijo Minas" q (PyDate.mkdate 2024 3 1) "Q7" "A1" in
  sucesso (snd r1) = true /\
  sucesso (snd r2) = true /\
  produtos (fst r1) = (produtos Exemplo.loja ++ [novo 4])%list /\
  (forall x, In x (produtos Exemplo.loja) -> id x <> 4) /\
  produtos (fst r2) = (produtos Exemplo.loja ++ [novo (4 + 6)])%list /\
  List.filter (fun x => str_eqb (id_catalogo_produto x) "QUEIJO" && str_eqb (lote x) "Q7")
              (listar_produtos (fst r2) Exemplo.camara)
  = [novo (4 + 6)].
Proof.
  apply (C3_adicionar_duas_vezes Exemplo.loja "A1"
           (mkFormAdicionar (Some "QUEIJO") (Some "4") (Some "2024-03-01") (Some "Q7"))
           (mkFormAdicionar (Some "QUEIJO") (Some "6") (Some "2024-03-05") (Some "Q7"))
           Exemplo.camara Exemplo.queijo 4 6
           (PyDate.mkdate 2024 3 1) (PyDate.mkdate 2024 3 5) "QUEIJO" "Q7");
    try reflexivity.
  discriminate.
Defined.

(** C3 as first stated fails for a key that already has an instance: the
    cold room holds eight units of cheese of lot "Q1"; two adds of four and
    of six units under that key are both accepted, and the one instance
    under the key then has 18 units, which is not the sum of the two
    calls' quantities. *)
Lemma C3_chave_ja_presente_counterexample :
  let f1 := mkFormAdicionar (Some "QUEIJO") (Some "4") (Some "2024-02-01") (Some "Q1") in
  let f2 := mkFormAdicionar (Some "QUEIJO") (Some "6") (Some "2024-02-01") (Some "Q1") in
  let r1 := adicionar_produto_na_area Exemplo.loja "A1" f1 in
  let r2 := adicionar_produto_na_area (fst r1) "A1" f2 in
  AreaArmazem_buscar_por_id Exemplo.loja "A1" = Some Exemplo.camara /\
  ProdutoCatalogo_buscar_por_id Exemplo.loja "QUEIJO" = Some Exemplo.queijo /\
  py_int "4" = Some 4 /\ py_int "6" = Some 6 /\
  sucesso (snd r1) = true /\
  sucesso (snd r2) = true /\
  List.filter (fun x => str_eqb (id_catalogo_produto x) "QUEIJO" && str_eqb (lote x) "Q1")
              (listar_produtos (fst r2) Exemplo.camara)
  = [com_quantidade Exemplo.queijo_camara 18] /\
  (18 =? 4 + 6) = false.
Proof.
  cbv zeta. repeat split; reflexivity.
Qed.

(** ** Lot codes *)

Lemma lstrip_espacos (e : str) : todos_espacos e = true -> lstrip e = [].
Proof.
  induction e as [|c e IH]; simpl; [reflexivity|].
  intros H. apply andb_prop in H. destruct H as [Hc He]. rewrite Hc. auto.
Qed.

Lemma rstrip_espacos (e : str) : todos_espacos e = true -> rstrip e = [].
Proof.
  induction e as [|c e IH]; simpl; [reflexivity|].
  intros H. apply andb_prop in H. destruct H as [Hc He]. rewrite (IH He), Hc.
  reflexivity.
Qed.

Lemma lstrip_app_espacos (e x : str) :
  todos_espacos e = true -> lstrip (e ++ x) = lstrip x.
Proof.
  induction e as [|c e IH]; simpl; [reflexivity|].
  intros H. apply andb_prop in H. destruct H as [Hc He]. rewrite Hc. auto.
Qed.

Lemma rstrip_app_espacos (x e : str) :
  todos_espacos e = true -> rstrip (x ++ e) = rstrip x.
Proof.
  intros He. induction x as [|c x IH]; simpl.
  - now apply rstrip_espacos.
  - now rewrite IH.
Qed.

Lemma lstrip_app (x e : str) :
  todos_espacos e = true ->
  exists e', todos_espacos e' = true /\ lstrip (x ++ e) = (lstrip x ++ e').
Proof.
  intros He. induction x as [|c x IH]; simpl.
  - exists []. split; [reflexivity | now apply lstrip_espacos].
  - destruct (is_space c); [exact IH|].
    exists e. split; [exact He | reflexivity].
Qed.

Lemma strip_entre_espacos (e1 x e2 : str) :
  todos_espacos e1 = true -> todos_espacos e2 = true ->
  strip (e1 ++ x ++ e2) = strip x.
Proof.
  intros H1 H2. unfold strip. rewrite lstrip_app_espacos by exact H1.
  destruct (lstrip_app x e2 H2) as (e' & He' & ->).
  now apply rstrip_app_espacos.
Qed.

Lemma is_space_spec (c : Z) :
  is_space c = true <->
  9 <= c <= 13 \/ 28 <= c <= 32 \/ c = 133 \/ c = 160 \/ c = 5760 \/
  8192 <= c <= 8202 \/ c = 8232 \/ c = 8233 \/ c = 8239 \/ c = 8287 \/
  c = 12288.
Proof.
  unfold is_space.
  rewrite !orb_true_iff, !andb_true_iff, !Z.leb_le, !Z.eqb_eq. tauto.
Qed.

Lemma maiusculas_conferem :
  forallb Medidas.confere_maiuscula maiusculas = true.
Proof. vm_compute. reflexivity. Qed.

(** The three ways in which [upper_char] gets its result. *)
Lemma upper_char_casos (c : Z) :
  (c < 128 /\ upper_char c = [if (97 <=? c) && (c <=? 122) then c - 32 else c]) \/
  (128 <= c /\ Medidas.confere_maiuscula (c, upper_char c) = true) \/
  (128 <= c /\ upper_char c = [c]).
Proof.
  unfold upper_char. destruct (Z.ltb_spec c 128) as [Hc | Hc].
  - left. split; [exact Hc|]. now destruct ((97 <=? c) && (c <=? 122)).
  - right. destruct (find _ maiusculas) as [e|] eqn:Hf; [left | right; auto].
    split; [exact Hc|]. apply find_some in Hf. destruct Hf as [Hin He].
    apply Z.eqb_eq in He. subst c.
    pose proof maiusculas_conferem as Hall. rewrite forallb_forall in Hall.
    destruct e as [k v]. exact (Hall _ Hin).
Qed.

Lemma upper_char_ascii (c : Z) :
  c < 128 -> ~ 97 <= c <= 122 -> upper_char c = [c].
Proof.
  intros Hc Hl. unfold upper_char.
  replace (c <? 128) with true by (symmetry; apply Z.ltb_lt; lia).
  destruct (Z.leb_spec 97 c), (Z.leb_spec c 122); simpl; try reflexivity; lia.
Qed.

(** The upper-case form of a code point is not empty, is the code point
    itself for white space, neither begins nor ends with white space
    otherwise, and is its own upper-case form. *)
Lemma upper_char_fatos (c : Z) :
  upper_char c <> [] /\
  (is_space c = true -> upper_char c = [c]) /\
  (is_space c = false ->
   is_space (hd 32 (upper_char c)) = false /\
   is_space (last (upper_char c) 32) = false) /\
  upper (upper_char c) = upper_char c.
Proof.
  assert (Hum : forall x, upper_char x = [x] -> upper [x] = [x]).
  { intros x Hx. simpl. now rewrite Hx. }
  destruct (upper_char_casos c) as [[Hc E] | [[Hc Hk] | [Hc E]]].
  - destruct ((97 <=? c) && (c <=? 122)) eqn:Hl.
    + apply andb_prop in Hl. destruct Hl as [H1 H2].
      apply Z.leb_le in H1. apply Z.leb_le in H2.
      assert (Hn : is_space (c - 32) = false).
      { destruct (is_space (c - 32)) eqn:E'; [|reflexivity].
        apply is_space_spec in E'. lia. }
      rewrite E. split; [discriminate|]. split; [|split].
      * intros Hs. apply is_space_spec in Hs. lia.
      * intros _. simpl. auto.
      * apply Hum. apply upper_char_ascii; lia.
    + rewrite E. split; [discriminate|]. split; [reflexivity|]. split.
      * intros Hs. simpl. auto.
      * now apply Hum.
  - unfold Medidas.confere_maiuscula in Hk. cbn [fst snd] in Hk.
    rewrite !andb_true_iff, !negb_true_iff in Hk.
    destruct Hk as [[[[_ Hsc] Hhd] Hlast] Hup].
    apply str_eqb_eq in Hup.
    destruct (upper_char c) as [|x v] eqn:Hv; [discriminate Hhd|].
    apply negb_true_iff in Hhd.
    split; [discriminate|]. split; [congruence|]. split; [|exact Hup].
    intros _. split; [exact Hhd | exact Hlast].
  - rewrite E. split; [discriminate|]. split; [reflexivity|]. split.
    + intros Hs. simpl. auto.
    + now apply Hum.
Qed.

Lemma mesma_letra_spec (a b : Z) :
  mesma_letra a b = true ->
  is_space a = is_space b /\ upper_char a = upper_char b.
Proof.
  assert (Hum : forall x y, upper_char x = [y] ->
            is_space x = is_space y /\ upper_char x = upper_char y).
  { intros x y Hxy.
    destruct (upper_char_fatos x) as (_ & Hsp & Hns & Hup).
    rewrite Hxy in Hup. simpl in Hup. rewrite app_nil_r in Hup.
    split; [|congruence].
    destruct (is_space x) eqn:Hx.
    - rewrite (Hsp eq_refl) in Hxy. injection Hxy as <-. now rewrite Hx.
    - destruct (Hns eq_refl) as [Hh _]. rewrite Hxy in Hh. simpl in Hh.
      now rewrite Hh. }
  unfold mesma_letra. rewrite !orb_true_iff, Z.eqb_eq, !str_eqb_eq.
  intros [[-> | H] | H]; [auto | now apply Hum|].
  destruct (Hum _ _ H) as [H1 H2]. auto.
Qed.

Lemma mesmas_letras_lstrip (s t : str) :
  mesmas_letras s t -> mesmas_letras (lstrip s) (lstrip t).
Proof.
  induction 1 as [|a b s t Hab Hst IH]; simpl; [constructor|].
  destruct (mesma_letra_spec a b Hab) as [Hsp _]. rewrite <- Hsp.
  destruct (is_space a); [exact IH | now constructor].
Qed.

Lemma mesmas_letras_rstrip (s t : str) :
  mesmas_letras s t -> mesmas_letras (rstrip s) (rstrip t).
Proof.
  induction 1 as [|a b s t Hab Hst IH]; simpl; [constructor|].
  destruct (mesma_letra_spec a b Hab) as [Hsp _]. rewrite <- Hsp.
  inversion IH as [Hs Ht | a' b' s' t' Hab' Hst' Hs Ht].
  - destruct (is_space a); constructor; [exact Hab | constructor].
  - constructor; [exact Hab|]. now constructor.
Qed.

Lemma mesmas_letras_upper (s t : str) :
  mesmas_letras s t -> upper s = upper t.
Proof.
  induction 1 as [|a b s t Hab Hst IH]; simpl; [reflexivity|].
  destruct (mesma_letra_spec a b Hab) as [_ Hup]. now rewrite Hup, IH.
Qed.

(** Lot codes that differ only in letter case or in surrounding white space
    are normalised to the same code. *)
Lemma normaliza_lote_igual (l1 l2 : str) :
  difere_so_em_caixa_ou_espacos l1 l2 -> normaliza_lote l1 = normaliza_lote l2.
Proof.
  intros (e1 & e2 & e3 & e4 & ns & nt & -> & -> & H1 & H2 & H3 & H4 & Hml).
  unfold normaliza_lote. rewrite !strip_entre_espacos by assumption.
  apply mesmas_letras_upper. unfold strip.
  now apply mesmas_letras_rstrip, mesmas_letras_lstrip.
Qed.

(** The row [adicionar_produto] writes carries the lot of the object it is
    given, and no row gets any other new lot. *)
Lemma adicionar_produto_lote (s : Store) (a : AreaArmazem) (novo : ProdutoLacteo) :
  (exists x, In x (listar_produtos (adicionar_produto s a novo) a) /\
             id_catalogo_produto x = id_catalogo_produto novo /\
             lote x = lote novo) /\
  (forall x, In x (produtos (adicionar_produto s a novo)) ->
             lote x = lote novo \/ exists y, In y (produtos s) /\ lote y = lote x).
Proof.
  unfold adicionar_produto.
  destruct (find (mesma_chave a (id_catalogo_produto novo) (lote novo)) (produtos s))
    as [e|] eqn:Hf.
  - apply find_some in Hf. destruct Hf as [Hin Hk]. unfold mesma_chave in Hk.
    apply andb_prop in Hk. destruct Hk as [Hk Hl]. apply andb_prop in Hk.
    destruct Hk as [Ha Hc].
    apply str_eqb_eq in Ha. apply str_eqb_eq in Hc. apply str_eqb_eq in Hl.
    split.
    + exists (com_quantidade e (quantidade e + quantidade novo)). split; [|auto].
      apply listar_produtos_In. simpl. split; [|exact Ha].
      apply in_map_iff. exists e. rewrite Z.eqb_refl. auto.
    + intros x Hx. simpl in Hx. apply in_map_iff in Hx.
      destruct Hx as (y & <- & Hy). right. exists y. split; [exact Hy|].
      destruct (id y =? id e); reflexivity.
  - split.
    + exists (mkProdutoLacteo (novo_id s) (id_catalogo_produto novo) (nome novo)
                (quantidade novo) (data_validade novo) (lote novo) (id_area a)).
      split.
      * apply listar_produtos_In. simpl. split; [|reflexivity].
        apply in_or_app. right. left. reflexivity.
      * simpl. auto.
    + intros x Hx. simpl in Hx. apply in_app_or in Hx.
      destruct Hx as [Hx | [<- | []]]; [right; eauto | left; reflexivity].
Qed.

(** The edit handler on a POST that passes every check. *)
Lemma editar_sucesso (s : Store) (ida : str) (i : Z) (form : FormEditar)
    (a : AreaArmazem) (p : ProdutoLacteo) (q : Z) (d : PyDate.date) :
  AreaArmazem_buscar_por_id s ida = Some a ->
  buscar_instancia_por_id s i = Some p ->
  existsb (fun p' => id p' =? i) (listar_produtos s a) = true ->
  truthy (form_nova_data_validade form) = true ->
  truthy (form_novo_lote form) = true ->
  py_int (campo (form_nova_quantidade form)) = Some q ->
  0 <= q ->
  PyDate.strptime_Ymd (campo (form_nova_data_validade form)) = Some d ->
  editar_produto_em_area s POST ida i form
  = (com_produtos s
       (map (fun p' => if id p' =? i
                       then mkProdutoLacteo (id p') (id_catalogo_produto p') (nome p')
                              q d (normaliza_lote (campo (form_novo_lote form)))
                              (area p')
                       else p')
            (produtos s)),
     responde (produto_atualizado (nome p)
                 (normaliza_lote (campo (form_novo_lote form))) (nome_area a))
              success (redirect_detalhes_da_area ida)).
Proof.
  intros Ha Hp He Hd Hl Hq Hq0 Hdt.
  destruct (buscar_instancia_id _ _ _ Hp) as [Hid _].
  unfold editar_produto_em_area. rewrite Ha, Hp, He. simpl negb. cbv iota.
  rewrite (py_int_truthy _ _ Hq), Hd, Hl. simpl negb. cbv iota.
  rewrite Hq.
  replace (q <? 0) with false by (symmetry; apply Z.ltb_ge; lia).
  unfold atualizar_instancia. rewrite Hdt.
  replace (q <? 0) with false by (symmetry; apply Z.ltb_ge; lia).
  rewrite Hid. reflexivity.
Qed.

(** The add handler reads the lot field only through its truth value and
    its normal form. *)
Lemma adicionar_mesma_norma (s : Store) (ida : str) (c q d : option str)
    (l1 l2 : str) :
  truthy (Some l1) = truthy (Some l2) ->
  normaliza_lote l1 = normaliza_lote l2 ->
  adicionar_produto_na_area s ida (mkFormAdicionar c q d (Some l1))
  = adicionar_produto_na_area s ida (mkFormAdicionar c q d (Some l2)).
Proof.
  intros Ht Hn. unfold adicionar_produto_na_area.
  cbn [form_id_produto_catalogo form_quantidade form_data_validade form_lote campo].
  rewrite Ht, Hn. reflexivity.
Qed.

(** So does the edit handler. *)
Lemma editar_mesma_norma (s : Store) (m : Metodo) (ida : str) (i : Z)
    (q d : option str) (l1 l2 : str) :
  truthy (Some l1) = truthy (Some l2) ->
  normaliza_lote l1 = normaliza_lote l2 ->
  editar_produto_em_area s m ida i (mkFormEditar q d (Some l1))
  = editar_produto_em_area s m ida i (mkFormEditar q d (Some l2)).
Proof.
  intros Ht Hn. unfold editar_produto_em_area.
  cbn [form_nova_quantidade form_nova_data_validade form_novo_lote campo].
  rewrite Ht, Hn. reflexivity.
Qed.

Lemma truthy_nao_vazio (l : str) : l <> [] -> truthy (Some l) = true.
Proof. destruct l; [congruence | reflexivity]. Qed.

(** C10 (as amended). (1) An add request that is accepted leaves in the
    area an instance of the catalog product whose lot is the submitted lot
    code stripped of surrounding white space and put in upper case, and
    gives no row any other new lot. (2) An edit request that is accepted
    leaves the instance with the submitted lot code stripped and in upper
    case. (3) Two submitted (non-empty) lot codes that differ only in
    surrounding white space or in letter case, each letter of the one being
    the letter of the other or its upper-case form, or the other way round,
    have the same stored form, and the add and the edit handler do the same
    with either: same store, same answer; so they denote the same merge key
    and address the same instance. *)
Theorem C10_lote_normalizado :
  (forall s ida form a pc q d,
     AreaArmazem_buscar_por_id s ida = Some a ->
     truthy (form_id_produto_catalogo form) = true ->
     truthy (form_data_validade form) = true ->
     truthy (form_lote form) = true ->
     py_int (campo (form_quantidade form)) = Some q ->
     0 < q ->
     ProdutoCatalogo_buscar_por_id s (campo (form_id_produto_catalogo form)) = Some pc ->
     PyDate.strptime_Ymd (campo (form_data_validade form)) = Some d ->
     let res := adicionar_produto_na_area s ida form in
     let L := upper (strip (campo (form_lote form))) in
     sucesso (snd res) = true /\
     (exists x, In x (listar_produtos (fst res) a) /\
                id_catalogo_produto x = campo (form_id_produto_catalogo form) /\
                lote x = L) /\
     (forall x, In x (produtos (fst res)) ->
                lote x = L \/ exists y, In y (produtos s) /\ lote y = lote x)) /\
  (forall s ida i form a p q d,
     AreaArmazem_buscar_por_id s ida = Some a ->
     buscar_instancia_por_id s i = Some p ->
     area p = id_area a ->
     truthy (form_nova_data_validade form) = true ->
     truthy (form_novo_lote form) = true ->
     py_int (campo (form_nova_quantidade form)) = Some q ->
     0 <= q ->
     PyDate.strptime_Ymd (campo (form_nova_data_validade form)) = Some d ->
     let res := editar_produto_em_area s POST ida i form in
     sucesso (snd res) = true /\
     exists p', buscar_instancia_por_id (fst res) i = Some p' /\
                lote p' = upper (strip (campo (form_novo_lote form)))) /\
  (forall l1 l2,
     difere_so_em_caixa_ou_espacos l1 l2 ->
     l1 <> [] -> l2 <> [] ->
     upper (strip l1) = upper (strip l2) /\
     (forall s ida c q d,
        adicionar_produto_na_area s ida (mkFormAdicionar c q d (Some l1))
        = adicionar_produto_na_area s ida (mkFormAdicionar c q d (Some l2))) /\
     (forall s m ida i q d,
        editar_produto_em_area s m ida i (mkFormEditar q d (Some l1))
        = editar_produto_em_area s m ida i (mkFormEditar q d (Some l2)))).
Proof.
  split; [|split].
  - intros s ida form a pc q d Ha Hc Hd Hl Hq Hq0 Hpc Hdt res L. subst res L.
    rewrite (adicionar_sucesso s ida form a pc q d) by assumption.
    simpl fst. simpl snd. split; [reflexivity|].
    exact (adicionar_produto_lote s a
             (mkProdutoLacteo 0 (campo (form_id_produto_catalogo form))
                (nome_catalogo pc) q d (normaliza_lote (campo (form_lote form))) "")).
  - intros s ida i form a p q d Ha Hp Hpa Hd Hl Hq Hq0 Hdt res. subst res.
    destruct (buscar_instancia_id _ _ _ Hp) as [Hid Hin].
    assert (He : existsb (fun p' => id p' =? i) (listar_produtos s a) = true).
    { rewrite <- Hid. now apply existsb_id_na_area. }
    rewrite (editar_sucesso s ida i form a p q d) by assumption.
    simpl fst. simpl snd. split; [reflexivity|].
    rewrite buscar_apos_mapa by (intros x; destruct (id x =? i); reflexivity).
    rewrite Hp. simpl. rewrite Hid, Z.eqb_refl. eexists. split; reflexivity.
  - intros l1 l2 Hdif H1 H2.
    pose proof (normaliza_lote_igual l1 l2 Hdif) as Hn.
    assert (Ht : truthy (Some l1) = truthy (Some l2))
      by (now rewrite !truthy_nao_vazio).
    split; [exact Hn|]. split.
    + intros. now apply adicionar_mesma_norma.
    + intros. now apply editar_mesma_norma.
Qed.

(** C10 at concrete requests: the lot is typed " q7 " in an add, "l9 " in
    an edit, and " q7 " against "Q7" in two adds. *)
Lemma C10_lote_normalizado_witness :
  (exists x,
     In x (listar_produtos
             (fst (adicionar_produto_na_area Exemplo.loja "A1"
                     (mkFormAdicionar (Some "QUEIJO") (Some "4") (Some "2024-03-01")
                        (Some " q7 "))))
             Exemplo.camara) /\
     id_catalogo_produto x = "QUEIJO" /\ lote x = "Q7") /\
  (exists p',
     buscar_instancia_por_id
       (fst (editar_produto_em_area Exemplo.loja POST "A1" 1
               (mkFormEditar (Some "3") (Some "2024-01-20") (Some "l9 ")))) 1
     = Some p' /\
     lote p' = "L9") /\
  (forall s ida c q d,
     adicionar_produto_na_area s ida (mkFormAdicionar c q d (Some " q7 "))
     = adicionar_produto_na_area s ida (mkFormAdicionar c q d (Some "Q7"))).
Proof.
  destruct C10_lote_normalizado as (H1 & H2 & H3).
  split; [|split].
  - exact (proj1 (proj2
             (H1 Exemplo.loja "A1"
                (mkFormAdicionar (Some "QUEIJO") (Some "4") (Some "2024-03-01")
                   (Some " q7 "))
                Exemplo.camara Exemplo.queijo 4 (PyDate.mkdate 2024 3 1)
                eq_refl eq_refl eq_refl eq_refl eq_refl eq_refl eq_refl eq_refl))).
  - assert (H0 : 0 <= 3) by discriminate.
    exact (proj2
             (H2 Exemplo.loja "A1" 1
                (mkFormEditar (Some "3") (Some "2024-01-20") (Some "l9 "))
                Exemplo.camara Exemplo.leite_camara 3 (PyDate.mkdate 2024 1 20)
                eq_refl eq_refl eq_refl eq_refl eq_refl eq_refl H0 eq_refl)).
  - assert (Hd : difere_so_em_caixa_ou_espacos " q7 " "Q7").
    { exists " ", " ", "", "", "q7", "Q7".
      repeat split; repeat (constructor; try reflexivity). }
    assert (Hn1 : " q7 " <> "") by discriminate.
    assert (Hn2 : "Q7" <> "") by discriminate.
    exact (proj1 (proj2 (H3 " q7 " "Q7" Hd Hn1 Hn2))).
Defined.

(** C10 as first stated fails for letters whose capital is not their
    upper-case form. The small sharp s (U+00DF) and the capital sharp s
    (U+1E9E) differ only in letter case, the first being the lower-case
    form of the second; but [str.upper] turns the first into ["SS"] and
    leaves the second as it is. Two adds of cheese into the cold room that
    differ only in that letter of the lot code are both accepted and leave
    two instances, with the lots ["SS"] and the capital sharp s. *)
Lemma C10_s_agudo_counterexample :
  let f l := mkFormAdicionar (Some "QUEIJO") (Some "4") (Some "2024-03-01") (Some l) in
  let r1 := adicionar_produto_na_area Exemplo.loja "A1" (f [223]) in
  let r2 := adicionar_produto_na_area (fst r1) "A1" (f [7838]) in
  upper (strip [223]) = "SS" /\
  upper (strip [7838]) = [7838] /\
  sucesso (snd r1) = true /\
  sucesso (snd r2) = true /\
  map (fun x => (id x, lote x, quantidade x))
      (List.filter (fun x => 3 <? id x) (listar_produtos (fst r2) Exemplo.camara))
  = [(4, "SS", 4); (5, [7838], 4)].
Proof.
  cbv zeta. repeat split; vm_compute; reflexivity.
Qed.

(** ** Total stock by product *)

Lemma fold_left_aninhado {A B C : Type} (f : A -> C -> A) (g : B -> list C)
    (l : list B) (acc : A) :
  fold_left (fun acc b => fold_left f (g b) acc) l acc
  = fold_left f (flat_map g l) acc.
Proof.
  revert acc. induction l as [|b l IH]; intros acc; simpl; [reflexivity|].
  rewrite fold_left_app. apply IH.
Qed.

Lemma soma_instancia_mesma (m : gmap str Total) (p : ProdutoLacteo) :
  soma_instancia m p !! id_catalogo_produto p
  = Some (match m !! id_catalogo_produto p with
          | Some t => mkTotal (total_nome t) (quantidade_total t + quantidade p)
          | None => mkTotal (nome p) (0 + quantidade p)
          end).
Proof.
  unfold soma_instancia. rewrite lookup_alter_eq.
  destruct (m !! id_catalogo_produto p) as [t|] eqn:Hm.
  - rewrite Hm. reflexivity.
  - rewrite lookup_insert_eq. reflexivity.
Qed.

Lemma soma_instancia_outra (m : gmap str Total) (p : ProdutoLacteo) (k : str) :
  id_catalogo_produto p <> k -> soma_instancia m p !! k = m !! k.
Proof.
  intros Hk. unfold soma_instancia. rewrite lookup_alter_ne by exact Hk.
  destruct (m !! id_catalogo_produto p); [reflexivity|].
  now rewrite lookup_insert_ne.
Qed.

(** The entry of a key after the loop over a list of instances. *)
Lemma fold_soma_instancia (l : list ProdutoLacteo) (m : gmap str Total) (k : str) :
  fold_left soma_instancia l m !! k
  = match List.filter (fun p => str_eqb (id_catalogo_produto p) k) l with
    | [] => m !! k
    | p0 :: _ =>
        Some (mkTotal
                (match m !! k with Some t => total_nome t | None => nome p0 end)
                ((match m !! k with Some t => quantidade_total t | None => 0 end)
                 + soma (map quantidade
                           (List.filter (fun p => str_eqb (id_catalogo_produto p) k) l))))
    end.
Proof.
  revert m. induction l as [|p l IH]; intros m; simpl; [reflexivity|].
  rewrite IH. destruct (str_eqb (id_catalogo_produto p) k) eqn:Hk.
  - apply str_eqb_eq in Hk. subst k. rewrite soma_instancia_mesma.
    simpl.
    destruct (List.filter _ l) as [|p1 r]; destruct (m !! id_catalogo_produto p);
      simpl; f_equal; f_equal; lia.
  - apply str_eqb_neq in Hk. rewrite soma_instancia_outra by exact Hk.
    reflexivity.
Qed.

(** C8. [estoque_total] maps every catalog product id that at least one
    stock instance refers to to the sum of the quantities of all the
    instances that refer to it, over every area; an id no instance refers
    to has no entry. *)
Theorem C8_estoque_total (s : Store) (k : str) :
  let instancias := flat_map (listar_produtos s) (AreaArmazem_listar_todas s) in
  let de_k := List.filter (fun p => str_eqb (id_catalogo_produto p) k) instancias in
  ((exists a p, In a (AreaArmazem_listar_todas s) /\ In p (listar_produtos s a) /\
                id_catalogo_produto p = k) ->
   exists t, estoque_total s !! k = Some t /\
             quantidade_total t = soma (map quantidade de_k)) /\
  ((forall a p, In a (AreaArmazem_listar_todas s) -> In p (listar_produtos s a) ->
                id_catalogo_produto p <> k) ->
   estoque_total s !! k = None).
Proof.
  intros instancias de_k.
  assert (E : estoque_total s !! k
              = match de_k with
                | [] => None
                | p0 :: _ => Some (mkTotal (nome p0) (0 + soma (map quantidade de_k)))
                end).
  { unfold estoque_total. rewrite fold_left_aninhado, fold_soma_instancia.
    fold instancias. fold de_k. rewrite lookup_empty. reflexivity. }
  split.
  - intros (a & p & Ha & Hp & Hk).
    assert (Hin : In p de_k).
    { apply filter_In. split.
      - apply in_flat_map. exists a. auto.
      - now apply str_eqb_eq. }
    rewrite E. destruct de_k as [|p0 r]; [contradiction|].
    eexists. split; [reflexivity|]. simpl. lia.
  - intros Hnone. rewrite E.
    destruct de_k as [|p0 r] eqn:Hd; [reflexivity|]. exfalso.
    assert (Hin : In p0 de_k) by (rewrite Hd; now left).
    apply filter_In in Hin. destruct Hin as [Hin Hk].
    apply in_flat_map in Hin. destruct Hin as (a & Ha & Hp).
    apply str_eqb_eq in Hk. exact (Hnone a p0 Ha Hp Hk).
Qed.

(** C8 at the example warehouse: the cold room and the dry store hold five
    units of milk each, and the total for milk is ten. *)
Lemma C8_estoque_total_witness :
  exists t, estoque_total Exemplo.loja !! "LEITE" = Some t /\ quantidade_total t = 10.
Proof.
  apply (proj1 (C8_estoque_total Exemplo.loja "LEITE")).
  exists Exemplo.camara, Exemplo.leite_camara.
  split; [left; reflexivity|]. split; [left; reflexivity | reflexivity].
Defined.

Example estoque_total_leite :
  estoque_total Exemplo.loja !! "LEITE" = Some (mkTotal "Leite Integral" 10).
Proof. vm_compute. reflexivity. Qed.

Example estoque_total_sem_instancia :
  estoque_total Exemplo.loja !! "IOGURTE" = None.
Proof. vm_compute. reflexivity. Qed.

(** ** Expiry alerts *)

Lemma alerta_instancia_app (hoje limite : PyDate.date) (a : AreaArmazem)
    (acc : list Alerta) (p : ProdutoLacteo) :
  alerta_instancia hoje limite a acc p
  = (acc ++ alerta_instancia hoje limite a [] p)%list.
Proof.
  unfold alerta_instancia.
  destruct (nao_vazia _); [reflexivity | now rewrite app_nil_r].
Qed.

Lemma fold_alerta_instancia (hoje limite : PyDate.date) (a : AreaArmazem)
    (ps : list ProdutoLacteo) (acc : list Alerta) :
  fold_left (alerta_instancia hoje limite a) ps acc
  = (acc ++ flat_map (alerta_instancia hoje limite a []) ps)%list.
Proof.
  revert acc. induction ps as [|p ps IH]; intros acc; simpl.
  - now rewrite app_nil_r.
  - rewrite IH, (alerta_instancia_app hoje limite a acc p). now rewrite <- app_assoc.
Qed.

(** The alerts before sorting: one pass over every instance of every area,
    each instance giving one entry or none. *)
Lemma alertas_sem_ordem_flat_map (s : Store) (hoje limite : PyDate.date) :
  alertas_sem_ordem s hoje limite
  = flat_map (fun ap => alerta_instancia hoje limite (fst ap) [] (snd ap))
             (todas_as_instancias s).
Proof.
  unfold alertas_sem_ordem, todas_as_instancias.
  generalize (AreaArmazem_listar_todas s) as l.
  assert (G : forall l acc,
             fold_left
               (fun acc a => fold_left (alerta_instancia hoje limite a)
                                       (listar_produtos s a) acc) l acc
             = (acc ++ flat_map
                         (fun ap => alerta_instancia hoje limite (fst ap) [] (snd ap))
                         (flat_map (fun a => map (fun p => (a, p)) (listar_produtos s a)) l))%list).
  { induction l as [|a l IH]; intros acc; simpl.
    - now rewrite app_nil_r.
    - rewrite IH, fold_alerta_instancia, flat_map_app, <- app_assoc. f_equal. f_equal.
      induction (listar_produtos s a) as [|p ps IHp]; simpl; [reflexivity|].
      now rewrite IHp. }
  intros l. apply (G l []).
Qed.

Lemma insere_perm (x : Alerta) (l : list Alerta) : Permutation (x :: l) (insere x l).
Proof.
  induction l as [|y l IH]; simpl; [reflexivity|].
  destruct (chave_lt (chave x) (chave y)); [reflexivity|].
  rewrite perm_swap. now apply perm_skip.
Qed.

Lemma ordena_perm (l : list Alerta) : Permutation l (ordena l).
Proof.
  unfold ordena.
  assert (G : forall l acc, Permutation (acc ++ l) (fold_left (fun acc x => insere x acc) l acc)).
  { clear l. induction l as [|x l IH]; intros acc; simpl.
    - now rewrite app_nil_r.
    - rewrite <- IH. rewrite <- Permutation_middle.
      change (Permutation ((x :: acc) ++ l) (insere x acc ++ l)).
      apply Permutation_app_tail. apply insere_perm. }
  apply (G l []).
Qed.

Lemma In_ordena (l : list Alerta) (e : Alerta) : In e (ordena l) <-> In e l.
Proof.
  split; intros H.
  - eapply Permutation_in; [symmetry; apply ordena_perm | exact H].
  - eapply Permutation_in; [apply ordena_perm | exact H].
Qed.

(** The entries of the unsorted list, one instance at a time. *)
Lemma In_alertas_sem_ordem (s : Store) (hoje limite : PyDate.date) (e : Alerta) :
  In e (alertas_sem_ordem s hoje limite) <->
  exists a p,
    In (a, p) (todas_as_instancias s) /\
    ((PyDate.lt (data_validade p) hoje = true /\
      e = mkAlerta (id_area a) (nome_area a) p "VENCIDO"
            (PyDate.sub_days (data_validade p) hoje)) \/
     (PyDate.lt (data_validade p) hoje = false /\
      PyDate.le (data_validade p) limite = true /\
      e = mkAlerta (id_area a) (nome_area a) p "PROXIMO_VENCIMENTO"
            (PyDate.sub_days (data_validade p) hoje))).
Proof.
  rewrite alertas_sem_ordem_flat_map, in_flat_map. split.
  - intros ([a p] & Hin & He). exists a, p. split; [exact Hin|].
    unfold alerta_instancia in He. simpl in He.
    destruct (PyDate.lt (data_validade p) hoje).
    + simpl in He. destruct He as [<- | []]. left. auto.
    + destruct (PyDate.le (data_validade p) limite); simpl in He.
      * destruct He as [<- | []]. right. auto.
      * contradiction.
  - intros (a & p & Hin & H). exists (a, p). split; [exact Hin|].
    unfold alerta_instancia. simpl.
    destruct H as [[Hlt ->] | (Hlt & Hle & ->)].
    + rewrite Hlt. simpl. now left.
    + rewrite Hlt, Hle. simpl. now left.
Qed.

Lemma In_todas_as_instancias (s : Store) (a : AreaArmazem) (p : ProdutoLacteo) :
  In (a, p) (todas_as_instancias s) <->
  In a (AreaArmazem_listar_todas s) /\ In p (listar_produtos s a).
Proof.
  unfold todas_as_instancias. rewrite in_flat_map. split.
  - intros (a' & Ha & Hp). apply in_map_iff in Hp.
    destruct Hp as (p' & [= <- <-] & Hp'). auto.
  - intros [Ha Hp]. exists a. split; [exact Ha|].
    apply in_map_iff. exists p. auto.
Qed.

(** The report page is produced whenever the end of the warning window is a
    date, and then its alert list holds, for every instance of every area,
    the entry that the instance's expiry date calls for. *)
Lemma alertas_classificacao (s : Store) (hoje limite : PyDate.date) :
  PyDate.add_days hoje dias_alerta_antecedencia = Some limite ->
  exists r,
    pagina_relatorios s hoje = Some r /\
    (forall a p,
       In a (AreaArmazem_listar_todas s) -> In p (listar_produtos s a) ->
       let entrada st :=
         mkAlerta (id_area a) (nome_area a) p st
                  (PyDate.sub_days (data_validade p) hoje) in
       (PyDate.lt (data_validade p) hoje = true ->
        In (entrada "VENCIDO") (produtos_alerta_validade r)) /\
       (PyDate.lt (data_validade p) hoje = false ->
        PyDate.le (data_validade p) limite = true ->
        In (entrada "PROXIMO_VENCIMENTO") (produtos_alerta_validade r)) /\
       (PyDate.lt (data_validade p) hoje = false ->
        PyDate.le (data_validade p) limite = false ->
        forall e, In e (produtos_alerta_validade r) -> produto e <> p)) /\
    (forall e,
       In e (produtos_alerta_validade r) ->
       (exists a, In a (AreaArmazem_listar_todas s) /\
                  In (produto e) (listar_produtos s a) /\
                  alerta_area_id e = id_area a) /\
       (status_validade e = "VENCIDO" <->
        PyDate.lt (data_validade (produto e)) hoje = true) /\
       (status_validade e = "PROXIMO_VENCIMENTO" <->
        PyDate.lt (data_validade (produto e)) hoje = false /\
        PyDate.le (data_validade (produto e)) limite = true) /\
       (status_validade e = "VENCIDO" \/ status_validade e = "PROXIMO_VENCIMENTO") /\
       dias_para_vencer e = PyDate.sub_days (data_validade (produto e)) hoje).
Proof.
  intros Hlim. unfold pagina_relatorios. rewrite Hlim.
  eexists. split; [reflexivity|]. simpl produtos_alerta_validade.
  assert (Hent : forall e, In e (ordena (alertas_sem_ordem s hoje limite)) ->
            exists a p,
              In (a, p) (todas_as_instancias s) /\
              ((PyDate.lt (data_validade p) hoje = true /\
                e = mkAlerta (id_area a) (nome_area a) p "VENCIDO"
                      (PyDate.sub_days (data_validade p) hoje)) \/
               (PyDate.lt (data_validade p) hoje = false /\
                PyDate.le (data_validade p) limite = true /\
                e = mkAlerta (id_area a) (nome_area a) p "PROXIMO_VENCIMENTO"
                      (PyDate.sub_days (data_validade p) hoje)))).
  { intros e He. rewrite In_ordena, In_alertas_sem_ordem in He. exact He. }
  split.
  - intros a p Ha Hp.
    assert (Hap : In (a, p) (todas_as_instancias s))
      by (apply In_todas_as_instancias; auto).
    split; [|split].
    + intros Hlt. rewrite In_ordena, In_alertas_sem_ordem. exists a, p. auto.
    + intros Hlt Hle. rewrite In_ordena, In_alertas_sem_ordem. exists a, p. auto 6.
    + intros Hlt Hle e He Hprod.
      destruct (Hent e He) as (a' & p' & _ & [[Hlt' ->] | (_ & Hle' & ->)]);
        simpl in Hprod; subst p'; congruence.
  - intros e He.
    destruct (Hent e He) as (a & p & Hin & H).
    apply In_todas_as_instancias in Hin. destruct Hin as [Ha Hp].
    destruct H as [[Hlt ->] | (Hlt & Hle & ->)]; simpl.
    + split; [exists a; auto|]. split; [tauto|]. split; [|auto].
      split; [discriminate | intros [? _]; congruence].
    + split; [exists a; auto|]. split; [|split; [tauto | auto]].
      split; [discriminate | congruence].
Qed.

(** C4. With the warning window of [dias_alerta_antecedencia] (7) days:
    for every stock instance of every area the alert list of the report
    has the entry EXPIRED ("VENCIDO") when the expiry date is strictly
    before the as-of date, the entry UPCOMING ("PROXIMO_VENCIMENTO") when
    it is not before the as-of date and is at most the as-of date plus the
    window, and no entry otherwise; and every entry of the list has the
    status that its instance's expiry date calls for, and no other. In
    particular, with the as-of date 2024-01-10, an instance that expires on
    2024-01-05 is EXPIRED, one that expires on 2024-01-15 is UPCOMING and
    one that expires on 2024-02-01 has no entry. *)
Theorem C4_alertas_de_validade :
  (forall s hoje limite,
     PyDate.add_days hoje dias_alerta_antecedencia = Some limite ->
     exists r,
       pagina_relatorios s hoje = Some r /\
       (forall a p,
          In a (AreaArmazem_listar_todas s) -> In p (listar_produtos s a) ->
          let entrada st :=
            mkAlerta (id_area a) (nome_area a) p st
                     (PyDate.sub_days (data_validade p) hoje) in
          (PyDate.lt (data_validade p) hoje = true ->
           In (entrada "VENCIDO") (produtos_alerta_validade r)) /\
          (PyDate.lt (data_validade p) hoje = false ->
           PyDate.le (data_validade p) limite = true ->
           In (entrada "PROXIMO_VENCIMENTO") (produtos_alerta_validade r)) /\
          (PyDate.lt (data_validade p) hoje = false ->
           PyDate.le (data_validade p) limite = false ->
           forall e, In e (produtos_alerta_validade r) -> produto e <> p)) /\
       (forall e,
          In e (produtos_alerta_validade r) ->
          (exists a, In a (AreaArmazem_listar_todas s) /\
                     In (produto e) (listar_produtos s a) /\
                     alerta_area_id e = id_area a) /\
          (status_validade e = "VENCIDO" <->
           PyDate.lt (data_validade (produto e)) hoje = true) /\
          (status_validade e = "PROXIMO_VENCIMENTO" <->
           PyDate.lt (data_validade (produto e)) hoje = false /\
           PyDate.le (data_validade (produto e)) limite = true) /\
          (status_validade e = "VENCIDO" \/
           status_validade e = "PROXIMO_VENCIMENTO") /\
          dias_para_vencer e = PyDate.sub_days (data_validade (produto e)) hoje)) /\
  (forall s a p,
     In a (AreaArmazem_listar_todas s) -> In p (listar_produtos s a) ->
     exists r,
       pagina_relatorios s (PyDate.mkdate 2024 1 10) = Some r /\
       dias_alerta r = 7 /\
       (data_validade p = PyDate.mkdate 2024 1 5 ->
        In (mkAlerta (id_area a) (nome_area a) p "VENCIDO" (-5))
           (produtos_alerta_validade r)) /\
       (data_validade p = PyDate.mkdate 2024 1 15 ->
        In (mkAlerta (id_area a) (nome_area a) p "PROXIMO_VENCIMENTO" 5)
           (produtos_alerta_validade r)) /\
       (data_validade p = PyDate.mkdate 2024 2 1 ->
        forall e, In e (produtos_alerta_validade r) -> produto e <> p)).
Proof.
  split; [exact alertas_classificacao|].
  intros s a p Ha Hp.
  destruct (alertas_classificacao s (PyDate.mkdate 2024 1 10) (PyDate.mkdate 2024 1 17)
              eq_refl) as (r & Hr & Hinst & _).
  exists r. split; [exact Hr|]. split.
  - unfold pagina_relatorios in Hr. simpl in Hr. injection Hr as <-. reflexivity.
  - destruct (Hinst a p Ha Hp) as (Hv & Hpx & Hom).
    split; [|split].
    + intros Hd. rewrite Hd in Hv. exact (Hv eq_refl).
    + intros Hd. rewrite Hd in Hpx. exact (Hpx eq_refl eq_refl).
    + intros Hd. rewrite Hd in Hom. exact (Hom eq_refl eq_refl).
Qed.

(** C4 at the example warehouse on 2024-01-10: the milk of the cold room
    expired on 2024-01-05, the milk of the dry store expires on 2024-01-15,
    the cheese on 2024-02-01. *)
Lemma C4_alertas_de_validade_witness :
  exists r,
    pagina_relatorios Exemplo.loja Exemplo.hoje = Some r /\
    In (mkAlerta "A1" "Camara Fria" Exemplo.leite_camara "VENCIDO" (-5))
       (produtos_alerta_validade r) /\
    In (mkAlerta "B2" "Deposito" Exemplo.leite_deposito "PROXIMO_VENCIMENTO" 5)
       (produtos_alerta_validade r) /\
    (forall e, In e (produtos_alerta_validade r) -> produto e <> Exemplo.queijo_camara).
Proof.
  destruct (proj1 C4_alertas_de_validade Exemplo.loja Exemplo.hoje
              (PyDate.mkdate 2024 1 17) eq_refl) as (r & Hr & Hinst & _).
  exists r. split; [exact Hr|]. split; [|split].
  - exact (proj1 (Hinst Exemplo.camara Exemplo.leite_camara
                    (or_introl eq_refl) (or_introl eq_refl)) eq_refl).
  - exact (proj1 (proj2 (Hinst Exemplo.deposito Exemplo.leite_deposito
                           (or_intror (or_introl eq_refl)) (or_introl eq_refl)))
             eq_refl eq_refl).
  - exact (proj2 (proj2 (Hinst Exemplo.camara Exemplo.queijo_camara
                           (or_introl eq_refl) (or_intror (or_introl eq_refl))))
             eq_refl eq_refl).
Defined.

Example alertas_da_loja :
  option_map (fun r => map (fun e => (id (produto e), status_validade e, dias_para_vencer e))
                           (produtos_alerta_validade r))
             (pagina_relatorios Exemplo.loja Exemplo.hoje)
  = Some [(1, "VENCIDO", -5); (2, "PROXIMO_VENCIMENTO", 5)].
Proof. vm_compute. reflexivity. Qed.

(** ** The order of the alert list *)

Lemma antes_trans (x y z : Alerta) : antes x y -> antes y z -> antes x z.
Proof.
  unfold antes, chave_lt. destruct (chave x) as [bx dx], (chave y) as [by_ dy],
    (chave z) as [bz dz]. simpl.
  destruct bx, by_, bz; simpl; try discriminate; try reflexivity;
    rewrite ?Z.ltb_ge; lia.
Qed.

Lemma antes_de_lt (x y : Alerta) :
  chave_lt (chave x) (chave y) = true -> antes x y.
Proof.
  unfold antes, chave_lt. destruct (chave x) as [bx dx], (chave y) as [by_ dy]. simpl.
  destruct bx, by_; simpl; try discriminate; try reflexivity;
    rewrite Z.ltb_lt, Z.ltb_ge; lia.
Qed.

Lemma insere_ordenada (x : Alerta) (l : list Alerta) :
  StronglySorted antes l -> StronglySorted antes (insere x l).
Proof.
  induction 1 as [|y l Hl IH Hy]; simpl.
  - constructor; constructor.
  - destruct (chave_lt (chave x) (chave y)) eqn:Hxy.
    + constructor; [constructor; assumption|].
      constructor; [now apply antes_de_lt|].
      rewrite Forall_forall in *. intros z Hz.
      eapply antes_trans; [apply antes_de_lt; exact Hxy | now apply Hy].
    + constructor; [exact IH|].
      rewrite Forall_forall in *. intros z Hz.
      eapply Permutation_in in Hz; [|symmetry; apply insere_perm].
      destruct Hz as [<- | Hz]; [exact Hxy | now apply Hy].
Qed.

Lemma ordena_ordenada (l : list Alerta) : StronglySorted antes (ordena l).
Proof.
  unfold ordena.
  assert (G : forall l acc, StronglySorted antes acc ->
                            StronglySorted antes (fold_left (fun acc x => insere x acc) l acc)).
  { clear l. induction l as [|x l IH]; intros acc Hacc; simpl; [exact Hacc|].
    apply IH. now apply insere_ordenada. }
  apply G. constructor.
Qed.

Lemma ordenada_pares (l1 l2 l3 : list Alerta) (e1 e2 : Alerta) :
  StronglySorted antes (l1 ++ e1 :: l2 ++ e2 :: l3) -> antes e1 e2.
Proof.
  induction l1 as [|x l1 IH]; simpl; intros H.
  - apply StronglySorted_inv in H. destruct H as [_ H].
    rewrite Forall_forall in H. apply H. apply in_or_app. right. now left.
  - apply StronglySorted_inv in H. destruct H as [H _]. now apply IH.
Qed.

(** The sort is stable: the entries of one key keep the order they had. So
    [ordena] returns the list that [list.sort] returns, the only sorted
    arrangement of the entries that keeps equal keys in place. *)
Lemma chave_acima (k : bool * Z) (x y z : Alerta) :
  tem_chave k x = true ->
  chave_lt (chave x) (chave y) = true ->
  z = y \/ antes y z ->
  tem_chave k z = false.
Proof.
  unfold tem_chave, antes, chave_lt. intros Hk Hxy Hz.
  assert (Hyz : (if Bool.eqb (fst (chave z)) (fst (chave y))
                 then snd (chave z) <? snd (chave y)
                 else negb (fst (chave z)) && fst (chave y)) = false).
  { destruct Hz as [-> | Hz]; [|exact Hz].
    rewrite Bool.eqb_reflx. apply Z.ltb_irrefl. }
  destruct (chave x) as [bx dx], (chave y) as [by_ dy], (chave z) as [bz dz],
    k as [bk dk].
  simpl in *. apply andb_prop in Hk. destruct Hk as [Hb Hd].
  apply Bool.eqb_prop in Hb. apply Z.eqb_eq in Hd. subst bk dk.
  destruct bx, by_, bz; simpl in *; try discriminate; try reflexivity;
    apply Z.eqb_neq; apply Z.ltb_lt in Hxy; apply Z.ltb_ge in Hyz; lia.
Qed.

Lemma insere_estavel (k : bool * Z) (x : Alerta) (l : list Alerta) :
  StronglySorted antes l ->
  List.filter (tem_chave k) (insere x l)
  = (List.filter (tem_chave k) l ++ (if tem_chave k x then [x] else []))%list.
Proof.
  induction 1 as [|y l Hl IH Hy]; simpl.
  - destruct (tem_chave k x); reflexivity.
  - destruct (chave_lt (chave x) (chave y)) eqn:Hxy.
    + destruct (tem_chave k x) eqn:Hkx.
      * assert (Hnone : List.filter (tem_chave k) (y :: l) = []).
        { rewrite Forall_forall in Hy.
          assert (G : forall z, In z (y :: l) -> tem_chave k z = false).
          { intros z [<- | Hz]; [apply (chave_acima k x y y Hkx Hxy); now left|].
            apply (chave_acima k x y z Hkx Hxy). right. now apply Hy. }
          clear -G. induction (y :: l) as [|z r IHr]; simpl; [reflexivity|].
          rewrite (G z) by now left. apply IHr. intros w Hw. apply G. now right. }
        simpl. rewrite Hkx. simpl in Hnone. rewrite Hnone. reflexivity.
      * simpl. rewrite Hkx. now rewrite app_nil_r.
    + simpl. rewrite IH. destruct (tem_chave k y); reflexivity.
Qed.

Lemma ordena_estavel (k : bool * Z) (l : list Alerta) :
  List.filter (tem_chave k) (ordena l) = List.filter (tem_chave k) l.
Proof.
  unfold ordena.
  assert (G : forall l acc,
             StronglySorted antes acc ->
             List.filter (tem_chave k) (fold_left (fun acc x => insere x acc) l acc)
             = (List.filter (tem_chave k) acc ++ List.filter (tem_chave k) l)%list).
  { clear l. induction l as [|x l IH]; intros acc Hacc; simpl.
    - now rewrite app_nil_r.
    - rewrite IH by now apply insere_ordenada.
      rewrite insere_estavel by exact Hacc. rewrite <- app_assoc.
      destruct (tem_chave k x); reflexivity. }
  apply (G l []). constructor.
Qed.

(** ** The calendar: later dates have larger ordinals *)

Module Calendario.
Import PyDate.

Lemma days_before_year_succ (y : Z) :
  days_before_year (y + 1) = days_before_year y + 365 + b2z (is_leap y).
Proof.
  unfold days_before_year, is_leap, b2z.
  replace (y + 1 - 1) with y by lia.
  assert (H4 : (y - 1) / 4 = y / 4 - (if y mod 4 =? 0 then 1 else 0))
    by (destruct (Z.eqb_spec (y mod 4) 0); Z.div_mod_to_equations; lia).
  assert (H100 : (y - 1) / 100 = y / 100 - (if y mod 100 =? 0 then 1 else 0))
    by (destruct (Z.eqb_spec (y mod 100) 0); Z.div_mod_to_equations; lia).
  assert (H400 : (y - 1) / 400 = y / 400 - (if y mod 400 =? 0 then 1 else 0))
    by (destruct (Z.eqb_spec (y mod 400) 0); Z.div_mod_to_equations; lia).
  assert (Ha : y mod 100 = 0 -> y mod 4 = 0)
    by (intros; Z.div_mod_to_equations; lia).
  assert (Hb : y mod 400 = 0 -> y mod 100 = 0)
    by (intros; Z.div_mod_to_equations; lia).
  rewrite H4, H100, H400.
  destruct (Z.eqb_spec (y mod 4) 0), (Z.eqb_spec (y mod 100) 0),
    (Z.eqb_spec (y mod 400) 0); simpl; lia.
Qed.

Lemma days_before_year_mono (y1 y2 : Z) :
  y1 <= y2 -> days_before_year y1 <= days_before_year y2.
Proof.
  unfold days_before_year. intros H. Z.div_mod_to_equations. lia.
Qed.

Lemma dentro_do_ano (dt : date) :
  valid dt = true ->
  1 <= days_before_month (year dt) (month dt) + day dt
    <= 365 + b2z (is_leap (year dt)).
Proof.
  unfold valid. destruct dt as [y m d]. simpl.
  rewrite !andb_true_iff, !Z.leb_le. intros [[[[[_ _] Hm1] Hm2] Hd1] Hd2].
  assert (Hm : m = 1 \/ m = 2 \/ m = 3 \/ m = 4 \/ m = 5 \/ m = 6 \/ m = 7 \/
               m = 8 \/ m = 9 \/ m = 10 \/ m = 11 \/ m = 12) by lia.
  unfold days_in_month, days_before_month, tab, b2z in *.
  repeat (destruct Hm as [-> | Hm]); [.. | subst m];
    destruct (is_leap y); simpl in *; lia.
Qed.

Lemma toordinal_mono (a b : date) :
  valid a = true -> valid b = true -> lt a b = true -> toordinal a < toordinal b.
Proof.
  intros Ha Hb Hlt.
  pose proof (dentro_do_ano a Ha) as Ia. pose proof (dentro_do_ano b Hb) as Ib.
  unfold toordinal, ymd2ord. unfold lt in Hlt.
  apply orb_prop in Hlt. destruct Hlt as [Hy | Hlt].
  - apply Z.ltb_lt in Hy.
    pose proof (days_before_year_succ (year a)) as Hs.
    pose proof (days_before_year_mono (year a + 1) (year b)) as Hm.
    lia.
  - apply andb_prop in Hlt. destruct Hlt as [Hy Hlt]. apply Z.eqb_eq in Hy.
    apply orb_prop in Hlt. destruct Hlt as [Hm | Hlt].
    + apply Z.ltb_lt in Hm. rewrite <- Hy in *.
      unfold valid in Ha, Hb.
      rewrite !andb_true_iff, !Z.leb_le in Ha, Hb.
      destruct Ha as [[[[[_ _] Ha1] Ha2] Ha3] Ha4].
      destruct Hb as [[[[[_ _] Hb1] Hb2] Hb3] Hb4].
      destruct a as [y ma da], b as [yb mb db]. simpl in *. subst yb.
      assert (Hma : ma = 1 \/ ma = 2 \/ ma = 3 \/ ma = 4 \/ ma = 5 \/ ma = 6 \/ ma = 7 \/
               ma = 8 \/ ma = 9 \/ ma = 10 \/ ma = 11 \/ ma = 12) by lia.
      assert (Hmb : mb = 1 \/ mb = 2 \/ mb = 3 \/ mb = 4 \/ mb = 5 \/ mb = 6 \/ mb = 7 \/
               mb = 8 \/ mb = 9 \/ mb = 10 \/ mb = 11 \/ mb = 12) by lia.
      unfold days_in_month, days_before_month, tab, b2z in *.
      repeat (destruct Hma as [-> | Hma]); [.. | subst ma];
        (repeat (destruct Hmb as [-> | Hmb]); [.. | subst mb]);
        try lia; destruct (is_leap y); simpl in *; lia.
    + apply andb_prop in Hlt. destruct Hlt as [Hm Hd].
      apply Z.eqb_eq in Hm. apply Z.ltb_lt in Hd. rewrite Hy, Hm. lia.
Qed.

End Calendario.

(** C5. The alert list of the report is sorted: every EXPIRED entry stands
    before every UPCOMING entry, and the entries of one status are in
    ascending order of [dias_para_vencer]; the list holds the same entries
    as the unsorted pass over the store, those of equal key in the order
    of that pass; and, the dates being calendar dates, [dias_para_vencer]
    is negative for the EXPIRED entries. *)
Theorem C5_alertas_ordenados (s : Store) (hoje limite : PyDate.date) :
  PyDate.add_days hoje dias_alerta_antecedencia = Some limite ->
  exists r,
    pagina_relatorios s hoje = Some r /\
    ordenada_por_urgencia (produtos_alerta_validade r) /\
    Permutation (alertas_sem_ordem s hoje limite) (produtos_alerta_validade r) /\
    (forall k, List.filter (tem_chave k) (produtos_alerta_validade r)
               = List.filter (tem_chave k) (alertas_sem_ordem s hoje limite)) /\
    (PyDate.valid hoje = true ->
     (forall p, In p (produtos s) -> PyDate.valid (data_validade p) = true) ->
     forall e, In e (produtos_alerta_validade r) ->
               status_validade e = "VENCIDO" -> dias_para_vencer e < 0).
Proof.
  intros Hlim.
  destruct (alertas_classificacao s hoje limite Hlim) as (r & Hr & _ & Hent).
  exists r. split; [exact Hr|].
  assert (Er : produtos_alerta_validade r = ordena (alertas_sem_ordem s hoje limite)).
  { unfold pagina_relatorios in Hr. rewrite Hlim in Hr. injection Hr as <-. reflexivity. }
  split; [|split; [|split]].
  - intros l1 e1 l2 e2 l3 Hl.
    assert (Hant : antes e1 e2).
    { apply (ordenada_pares l1 l2 l3). rewrite <- Hl, Er. apply ordena_ordenada. }
    assert (Hin2 : In e2 (produtos_alerta_validade r)).
    { rewrite Hl. apply in_or_app. right. right. apply in_or_app. right. now left. }
    assert (H1 : status_validade e2 = "VENCIDO" -> status_validade e1 = "VENCIDO").
    { intros H2. unfold antes, chave, chave_lt in Hant. simpl in Hant.
      rewrite H2 in Hant. simpl in Hant.
      destruct (str_eqb_spec (status_validade e1) "VENCIDO") as [E|E];
        [exact E | discriminate Hant]. }
    split; [exact H1|]. split.
    + intros HP.
      destruct (Hent e2 Hin2) as (_ & _ & _ & [HV | HP2] & _); [|exact HP2].
      rewrite (H1 HV) in HP. discriminate HP.
    + intros Heq. unfold antes, chave, chave_lt in Hant. simpl in Hant.
      rewrite Heq, Bool.eqb_reflx in Hant. apply Z.ltb_ge in Hant. exact Hant.
  - rewrite Er. apply ordena_perm.
  - intros k. rewrite Er. apply ordena_estavel.
  - intros Hhoje Hval e He Hst.
    destruct (Hent e He) as ((a & _ & Hp & _) & HV & _ & _ & Hd).
    apply listar_produtos_In in Hp. destruct Hp as [Hp _].
    rewrite Hd. unfold PyDate.sub_days.
    pose proof (Calendario.toordinal_mono (data_validade (produto e)) hoje
                  (Hval _ Hp) Hhoje (proj1 HV Hst)).
    lia.
Qed.

(** C5 at the example warehouse on 2024-01-10. *)
Lemma C5_alertas_ordenados_witness :
  exists r,
    pagina_relatorios Exemplo.loja Exemplo.hoje = Some r /\
    ordenada_por_urgencia (produtos_alerta_validade r) /\
    Permutation (alertas_sem_ordem Exemplo.loja Exemplo.hoje (PyDate.mkdate 2024 1 17))
                (produtos_alerta_validade r) /\
    (forall k, List.filter (tem_chave k) (produtos_alerta_validade r)
               = List.filter (tem_chave k)
                   (alertas_sem_ordem Exemplo.loja Exemplo.hoje (PyDate.mkdate 2024 1 17))) /\
    (PyDate.valid Exemplo.hoje = true ->
     (forall p, In p (produtos Exemplo.loja) -> PyDate.valid (data_validade p) = true) ->
     forall e, In e (produtos_alerta_validade r) ->
               status_validade e = "VENCIDO" -> dias_para_vencer e < 0).
Proof.
  apply (C5_alertas_ordenados Exemplo.loja Exemplo.hoje (PyDate.mkdate 2024 1 17)).
  reflexivity.
Defined.

(** A list that the stable sort has to reorder: the unsorted pass meets an
    UPCOMING batch first, then two EXPIRED ones, the later-expired first. *)
Example ordena_reordena :
  let e st d := mkAlerta "A1" "Camara Fria" Exemplo.leite_camara st d in
  ordena [e "PROXIMO_VENCIMENTO" 3; e "VENCIDO" (-1); e "VENCIDO" (-9);
          e "PROXIMO_VENCIMENTO" 0]
  = [e "VENCIDO" (-9); e "VENCIDO" (-1); e "PROXIMO_VENCIMENTO" 0;
     e "PROXIMO_VENCIMENTO" 3].
Proof. reflexivity. Qed.

(** ** The library functions on concrete inputs *)

Example py_int_ex1 : PyStr.py_int " 1_000 " = Some 1000.
Proof. reflexivity. Qed.
Example py_int_ex2 : PyStr.py_int "-7" = Some (-7).
Proof. reflexivity. Qed.
Example py_int_ex3 : PyStr.py_int "1__0" = None.
Proof. reflexivity. Qed.
Example strptime_ex1 : PyDate.strptime_Ymd "2024-01-15" = Some (PyDate.mkdate 2024 1 15).
Proof. reflexivity. Qed.
Example strptime_ex2 : PyDate.strptime_Ymd "2023-02-29" = None.
Proof. reflexivity. Qed.
Example add_days_ex : PyDate.add_days (PyDate.mkdate 2024 1 10) 7 = Some (PyDate.mkdate 2024 1 17).
Proof. reflexivity. Qed.
Example add_days_ex2 : PyDate.add_days (PyDate.mkdate 2023 12 28) 7 = Some (PyDate.mkdate 2024 1 4).
Proof. reflexivity. Qed.
Example maxordinal_ex : PyDate.toordinal (PyDate.mkdate 9999 12 31) = PyDate.MAXORDINAL.
Proof. reflexivity. Qed.
Example strftime_ex : PyDate.strftime_Ymd (PyDate.mkdate 2024 2 1) = "2024-02-01".
Proof. reflexivity. Qed.

(** The separator U+001C is white space for [str.strip] and not for [int];
    the no-break space U+00A0 and the ideographic space U+3000 are white
    space for both, and the Arabic-Indic digit three U+0663 is a digit. *)
Example strip_ex1 : PyStr.strip [28; 53] = "5".
Proof. reflexivity. Qed.
Example py_int_ex4 : PyStr.py_int [28; 53] = None.
Proof. reflexivity. Qed.
Example py_int_ex5 : PyStr.py_int [160; 1635; 95; 1635; 12288] = Some 33.
Proof. reflexivity. Qed.

(** A literal is the list of the code points of its text: U+00E7 and the
    digit seven; its upper-case form has U+00C7. The small sharp s U+00DF
    becomes ["SS"]. *)
Example literal_ex : "ç7" = [231; 55].
Proof. reflexivity. Qed.
Example upper_ex1 : PyStr.upper (PyStr.strip [231; 55; 160]) = [199; 55].
Proof. reflexivity. Qed.
Example upper_ex2 : PyStr.upper [223] = "SS".
Proof. reflexivity. Qed.

(** The year 5 is written with one digit and is not read back; with four
    digits it is. A day may be written with a blank before its digit. *)
Example strftime_ex2 : PyDate.strftime_Ymd (PyDate.mkdate 5 1 2) = "5-01-02".
Proof. reflexivity. Qed.
Example strptime_ex3 : PyDate.strptime_Ymd "5-01-02" = None.
Proof. reflexivity. Qed.
Example strptime_ex4 : PyDate.strptime_Ymd "0005-01-02" = Some (PyDate.mkdate 5 1 2).
Proof. reflexivity. Qed.
Example strptime_ex5 : PyDate.strptime_Ymd "2024-1- 5" = Some (PyDate.mkdate 2024 1 5).
Proof. reflexivity. Qed.
Example strptime_ex6 : PyDate.strptime_Ymd "2024-01-311" = None.
Proof. reflexivity. Qed.

(** * Further properties of the code *)

(** ** Creating users *)

Lemma find_app_some {A : Type} (t : A -> bool) (l1 l2 : list A) (x : A) :
  find t l1 = Some x -> find t (l1 ++ l2) = Some x.
Proof.
  induction l1 as [|y l1 IH]; simpl; [discriminate|].
  destruct (t y); [tauto | exact IH].
Qed.

Section CriarUsuarios.

Variable generate_password_hash : str -> str.
Variable check_password_hash : str -> str -> bool.

Lemma viola_unicidade_false (db : Models.DB) (name : str) :
  ModelsEscrita.viola_unicidade db name = false ->
  find (fun u => str_eqb (Models.username u) name) db = None.
Proof.
  unfold ModelsEscrita.viola_unicidade.
  induction db as [|u db IH]; simpl; [reflexivity|].
  destruct (str_eqb (Models.username u) name); simpl; [discriminate | exact IH].
Qed.

(** X1. A user that [create_user] has stored is the user that
    [check_user_password] returns for the same name and password, with the
    given role (or "user" by default), when the hash check accepts the hash
    generated from the password; and with a password whose check against
    that hash fails, [None] is returned. *)
Theorem create_user_depois_verifica
    (db : Models.DB) (name password : str) (role : option str) :
  snd (ModelsEscrita.create_user generate_password_hash db name password role) = true ->
  let db' := fst (ModelsEscrita.create_user generate_password_hash db name password role) in
  let u := Models.mkUser name (generate_password_hash password)
             (match role with Some r => r | None => "user" end) in
  (check_password_hash (generate_password_hash password) password = true ->
   snd (Models.check_user_password check_password_hash db' name password) = Some u) /\
  (forall outra,
     check_password_hash (generate_password_hash password) outra = false ->
     snd (Models.check_user_password check_password_hash db' name outra) = None).
Proof.
  unfold ModelsEscrita.create_user.
  destruct (ModelsEscrita.viola_unicidade db name) eqn:Hv; simpl; [discriminate|].
  intros _. pose proof (viola_unicidade_false db name Hv) as Hf.
  unfold Models.check_user_password, Models.get_user_by_username.
  rewrite find_app_none by exact Hf. simpl. rewrite str_eqb_refl.
  split.
  - intros H. cbn. rewrite H. reflexivity.
  - intros outra H. cbn. rewrite H. reflexivity.
Qed.

(** X4. [create_user] for one name leaves the credential check of every
    other name as it was, whether the user is stored or refused. *)
Theorem create_user_outros_nomes
    (db : Models.DB) (name password : str) (role : option str)
    (outro senha : str) :
  outro <> name ->
  snd (Models.check_user_password check_password_hash
         (fst (ModelsEscrita.create_user generate_password_hash db name password role))
         outro senha)
  = snd (Models.check_user_password check_password_hash db outro senha).
Proof.
  intros Hne. unfold ModelsEscrita.create_user.
  destruct (ModelsEscrita.viola_unicidade db name); simpl; [reflexivity|].
  unfold Models.check_user_password, Models.get_user_by_username.
  destruct (find (fun u => str_eqb (Models.username u) outro) db) as [v|] eqn:Hf.
  - erewrite find_app_some by exact Hf.
    destruct (check_password_hash (Models.password_hash v) senha); reflexivity.
  - rewrite find_app_none by exact Hf. simpl.
    replace (str_eqb name outro) with false
      by (symmetry; apply str_eqb_neq; congruence).
    reflexivity.
Qed.

End CriarUsuarios.

(** X1 on the example table: "carla" is stored and then verified. *)
Lemma create_user_depois_verifica_witness :
  snd (Models.check_user_password Exemplo.confere_hash
         (fst (ModelsEscrita.create_user Exemplo2.gera_hash Exemplo.usuarios
                 "carla" "abc" None))
         "carla" "abc")
  = Some (Models.mkUser "carla" "hash:abc" "user").
Proof.
  exact (proj1 (create_user_depois_verifica Exemplo2.gera_hash Exemplo.confere_hash
                  Exemplo.usuarios "carla" "abc" None eq_refl) eq_refl).
Defined.

(** X4 on the example table: storing "carla" leaves the check of "ana". *)
Lemma create_user_outros_nomes_witness :
  snd (Models.check_user_password Exemplo.confere_hash
         (fst (ModelsEscrita.create_user Exemplo2.gera_hash Exemplo.usuarios
                 "carla" "abc" None))
         "ana" "segredo")
  = snd (Models.check_user_password Exemplo.confere_hash Exemplo.usuarios
           "ana" "segredo").
Proof.
  apply (create_user_outros_nomes Exemplo2.gera_hash Exemplo.confere_hash).
  discriminate.
Defined.

(** ** The access check, login and logout *)

Lemma remover_produto_vendas (s : Store) (a : AreaArmazem) (i q : Z) :
  vendas (fst (remover_produto s a i q)) = vendas s.
Proof.
  unfold remover_produto.
  destruct (buscar_instancia_por_id s i) as [p|]; [|reflexivity].
  destruct (str_eqb (area p) (id_area a) && (0 <? q) && (q <=? quantidade p));
    reflexivity.
Qed.

(** The ledger after any sell request: what it was, or that and one record
    more, which carries the acting user, the area of the path, the stripped
    destination and a positive quantity. *)
Lemma vender_livro (s : Store) (usuario agora ida : str) (form : FormVenda) :
  let res := vender_produto_da_area s usuario agora ida form in
  vendas (fst res) = vendas s \/
  exists v,
    vendas (fst res) = (vendas s ++ [v])%list /\
    usuario_responsavel v = usuario /\
    area_origem_id v = ida /\
    destino v = strip (campo (form_destino_venda form)) /\
    data_hora v = agora /\
    0 < quantidade_vendida v.
Proof.
  unfold vender_produto_da_area.
  destruct (AreaArmazem_buscar_por_id s ida) as [a|]; [|left; reflexivity].
  destruct (negb _); [left; reflexivity|].
  destruct (py_int (campo (form_quantidade_venda form))) as [q|]; [|left; reflexivity].
  destruct (py_int (campo (form_id_instancia_venda form))) as [i|]; [|left; reflexivity].
  destruct (q <=? 0) eqn:Hq0; [left; reflexivity|].
  destruct (buscar_instancia_por_id s i) as [p|]; [|left; reflexivity].
  destruct (negb _); [left; reflexivity|].
  destruct (quantidade p <? q); [left; reflexivity|].
  pose proof (remover_produto_vendas s a (id p) q) as Hv.
  destruct (remover_produto s a (id p) q) as [s1 ok]. simpl in Hv.
  destruct ok; simpl.
  - right. eexists. split; [rewrite Hv; reflexivity|]. simpl.
    apply Z.leb_gt in Hq0. auto 6.
  - left. exact Hv.
Qed.

Section Acesso.

Variable Usuario : Type.
Variable usuario_username : Usuario -> str.
Variable usuario_funcao : Usuario -> str.
Variable usuario_nome : Usuario -> str.
Variable verificar_senha : option str -> option str -> option Usuario.
Variable tem_permissao : Usuario -> str -> bool.

(** What a session and a permission must be for the decorator to let a
    request through to the view. *)
Lemma login_necessario_passa {R : Type} (permissao : option str)
    (view : Sessao.Session -> R) (session : Sessao.Session)
    (request : Sessao.Pedido) (r : R) :
  snd (Sessao.login_necessario Usuario verificar_senha tem_permissao
         permissao view session request) = inr r ->
  Sessao.session_tem session "username" = true /\
  Sessao.session_tem session "password" = true /\
  r = view session /\
  exists u,
    verificar_senha (Sessao.session_get session "username")
                    (Sessao.session_get session "password") = Some u /\
    (truthy permissao = true -> tem_permissao u (campo permissao) = true).
Proof.
  unfold Sessao.login_necessario.
  destruct (Sessao.session_tem session "username"); simpl; [|discriminate].
  destruct (Sessao.session_tem session "password"); simpl; [|discriminate].
  destruct (verificar_senha _ _) as [u|]; simpl; [|discriminate].
  destruct (truthy permissao) eqn:Hp; simpl.
  - destruct (tem_permissao u (campo permissao)) eqn:Ht; simpl; [|discriminate].
    intros [= <-]. eauto 8.
  - intros [= <-]. repeat split; auto. exists u. split; [reflexivity | discriminate].
Qed.

(** X5. A stock route changes the store only for a session that holds a
    user name and a password which [verificar_senha] accepts, and whose
    user has the permission the route's decorator names:
    "gerenciar_produtos_em_areas" to add, edit or delete a batch,
    "registrar_venda" to sell, "gerenciar_areas" to delete an area. *)
Theorem rotas_mudam_so_com_permissao
    (s : Store) (session : Sessao.Session) (request : Sessao.Pedido) :
  let autorizado permissao :=
    exists u,
      verificar_senha (Sessao.session_get session "username")
                      (Sessao.session_get session "password") = Some u /\
      tem_permissao u permissao = true in
  (forall ida form,
     Sessao.loja_apos s
       (Sessao.rota_adicionar_produto_na_area Usuario verificar_senha tem_permissao
          s ida form session request) <> s ->
     autorizado "gerenciar_produtos_em_areas") /\
  (forall agora ida form,
     Sessao.loja_apos s
       (Sessao.rota_vender_produto_da_area Usuario verificar_senha tem_permissao
          s agora ida form session request) <> s ->
     autorizado "registrar_venda") /\
  (forall ida i form,
     Sessao.loja_apos s
       (Sessao.rota_editar_produto_em_area Usuario verificar_senha tem_permissao
          s ida i form session request) <> s ->
     autorizado "gerenciar_produtos_em_areas") /\
  (forall ida i,
     Sessao.loja_apos s
       (Sessao.rota_excluir_produto_de_area Usuario verificar_senha tem_permissao
          s ida i session request) <> s ->
     autorizado "gerenciar_produtos_em_areas") /\
  (forall ida,
     Sessao.loja_apos s
       (Sessao.rota_excluir_area Usuario verificar_senha tem_permissao
          s ida session request) <> s ->
     autorizado "gerenciar_areas").
Proof.
  intros autorizado.
  assert (G : forall permissao (view : Sessao.Session -> Store * Resposta),
             Sessao.loja_apos s
               (Sessao.login_necessario Usuario verificar_senha tem_permissao
                  (Some permissao) view session request) <> s ->
             permissao <> [] ->
             autorizado permissao).
  { intros permissao view Hne Hp. unfold Sessao.loja_apos in Hne.
    destruct (snd (Sessao.login_necessario Usuario verificar_senha tem_permissao
                     (Some permissao) view session request)) as [b|[s' x]] eqn:Hr;
      [congruence|].
    apply login_necessario_passa in Hr.
    destruct Hr as (_ & _ & _ & u & Hu & Hperm).
    exists u. split; [exact Hu|]. apply Hperm.
    destruct permissao; [congruence | reflexivity]. }
  repeat split; intros; eapply G; try eassumption; discriminate.
Qed.

(** X6. Every sale record that the sell route writes names as responsible
    the user name of the session, and that session has just passed the
    check: its user name and password were accepted by [verificar_senha] and
    the user has the permission "registrar_venda". The record is the only
    change of the ledger and names the area of the request path. *)
Theorem venda_atribuida_ao_usuario_da_sessao
    (s : Store) (agora ida : str) (form : FormVenda)
    (session : Sessao.Session) (request : Sessao.Pedido) :
  let s' :=
    Sessao.loja_apos s
      (Sessao.rota_vender_produto_da_area Usuario verificar_senha tem_permissao
         s agora ida form session request) in
  vendas s' <> vendas s ->
  exists u v,
    verificar_senha (Sessao.session_get session "username")
                    (Sessao.session_get session "password") = Some u /\
    tem_permissao u "registrar_venda" = true /\
    vendas s' = (vendas s ++ [v])%list /\
    usuario_responsavel v = campo (Sessao.session_get session "username") /\
    area_origem_id v = ida.
Proof.
  intros s' Hne. subst s'. unfold Sessao.loja_apos, Sessao.rota_vender_produto_da_area in *.
  destruct (snd (Sessao.login_necessario Usuario verificar_senha tem_permissao
                   (Some "registrar_venda") _ session request)) as [b|[s' x]] eqn:Hr;
    [congruence|].
  apply login_necessario_passa in Hr.
  destruct Hr as (_ & _ & Hview & u & Hu & Hperm).
  pose proof (vender_livro s (campo (Sessao.session_get session "username"))
                agora ida form) as Hl.
  simpl in Hl. rewrite <- Hview in Hl. simpl in Hl.
  destruct Hl as [Hl | (v & Hv & Hresp & Harea & _)]; [congruence|].
  exists u, v. auto 6.
Qed.

(** X7. After [logout] no route lets a request through: whatever
    permission the decorator names and whatever the view, the answer is the
    redirect to the login page with the request's URL as [next], the view
    does not run, and the stock routes leave the store as it was. *)
Theorem apos_logout_nada_passa
    (session : Sessao.Session) (request : Sessao.Pedido) :
  (forall (R : Type) permissao (view : Sessao.Session -> R),
     Sessao.login_necessario Usuario verificar_senha tem_permissao
       permissao view (fst (Sessao.logout session)) request
     = (∅, inl (Sessao.mkRespostaSessao (Some (Sessao.faca_login, warning))
                  (Sessao.redirect_login (Some (Sessao.url request)))))) /\
  (forall s agora ida form,
     Sessao.loja_apos s
       (Sessao.rota_vender_produto_da_area Usuario verificar_senha tem_permissao
          s agora ida form (fst (Sessao.logout session)) request) = s) /\
  (forall s ida form,
     Sessao.loja_apos s
       (Sessao.rota_adicionar_produto_na_area Usuario verificar_senha tem_permissao
          s ida form (fst (Sessao.logout session)) request) = s) /\
  (forall s ida i form,
     Sessao.loja_apos s
       (Sessao.rota_editar_produto_em_area Usuario verificar_senha tem_permissao
          s ida i form (fst (Sessao.logout session)) request) = s) /\
  (forall s ida i,
     Sessao.loja_apos s
       (Sessao.rota_excluir_produto_de_area Usuario verificar_senha tem_permissao
          s ida i (fst (Sessao.logout session)) request) = s) /\
  (forall s ida,
     Sessao.loja_apos s
       (Sessao.rota_excluir_area Usuario verificar_senha tem_permissao
          s ida (fst (Sessao.logout session)) request) = s).
Proof.
  assert (G : forall (R : Type) permissao (view : Sessao.Session -> R),
             Sessao.login_necessario Usuario verificar_senha tem_permissao
               permissao view (fst (Sessao.logout session)) request
             = (∅, inl (Sessao.mkRespostaSessao (Some (Sessao.faca_login, warning))
                          (Sessao.redirect_login (Some (Sessao.url request)))))).
  { intros R permissao view. unfold Sessao.logout, Sessao.login_necessario. simpl fst.
    unfold Sessao.session_tem. rewrite lookup_empty. reflexivity. }
  split; [exact G|].
  unfold Sessao.rota_vender_produto_da_area, Sessao.rota_adicionar_produto_na_area,
    Sessao.rota_editar_produto_em_area, Sessao.rota_excluir_produto_de_area,
    Sessao.rota_excluir_area, Sessao.loja_apos.
  repeat split; intros; rewrite G; reflexivity.
Qed.

(** X8. A POST to [login] with credentials that [verificar_senha] accepts
    puts in the session the user name of the user object and the submitted
    password. What the decorator then answers depends on verifying that
    pair again: when it is accepted, a route runs its view unless it names
    a permission the user lacks; when it is not accepted (the user object
    carries another name than the one typed), the very next request
    empties the session and is sent to the login page. A GET, or a POST
    whose credentials are not accepted, leaves the session as it was. *)
Theorem login_e_depois_as_rotas
    (session : Sessao.Session) (request : Sessao.Pedido) :
  let apos :=
    Sessao.login Usuario usuario_username usuario_funcao usuario_nome
                 verificar_senha session request in
  (forall u,
     Sessao.metodo request = POST ->
     verificar_senha (Sessao.form_username request) (Sessao.form_password request)
     = Some u ->
     Sessao.session_get (fst apos) "username" = Some (usuario_username u) /\
     Sessao.session_get (fst apos) "password" = Sessao.form_password request /\
     forall (R : Type) permissao (view : Sessao.Session -> R) pedido,
       Sessao.login_necessario Usuario verificar_senha tem_permissao
         permissao view (fst apos) pedido
       = match verificar_senha (Some (usuario_username u))
                               (Sessao.form_password request) with
         | None =>
             (∅, inl (Sessao.mkRespostaSessao (Some (Sessao.sessao_invalida, danger))
                        (Sessao.redirect_login None)))
         | Some u2 =>
             if truthy permissao && negb (tem_permissao u2 (campo permissao))
             then (fst apos,
                   inl (Sessao.mkRespostaSessao (Some (Sessao.sem_permissao, danger))
                          (Sessao.redirect_ou_inicio (Sessao.referrer pedido))))
             else (fst apos, inr (view (fst apos)))
         end) /\
  (Sessao.metodo request = GET \/
   verificar_senha (Sessao.form_username request) (Sessao.form_password request) = None ->
   fst apos = session).
Proof.
  intros apos. subst apos. unfold Sessao.login. split.
  - intros u Hm Hv. rewrite Hm, Hv. simpl fst.
    assert (Hu : forall (m : Sessao.Session) (a b c : option str),
              <["password" := a]> (<["user_nome" := b]> (<["user_funcao" := c]>
                (<["username" := Some (usuario_username u)]> m))) !! "username"
              = Some (Some (usuario_username u))).
    { intros m a b c. rewrite !lookup_insert_ne by discriminate.
      apply lookup_insert_eq. }
    assert (Hp : forall (m : Sessao.Session) (a : option str),
              <["password" := Sessao.form_password request]> m !! "password"
              = Some (Sessao.form_password request)).
    { intros m a. apply lookup_insert_eq. }
    unfold Sessao.session_get. rewrite Hu, (Hp _ None).
    split; [reflexivity|]. split; [reflexivity|].
    intros R permissao view pedido. unfold Sessao.login_necessario, Sessao.session_tem,
      Sessao.session_get.
    rewrite Hu, (Hp _ None). simpl.
    destruct (verificar_senha (Some (usuario_username u)) (Sessao.form_password request));
      reflexivity.
  - intros [Hm | Hv].
    + rewrite Hm. destruct (Sessao.session_tem session "username"); reflexivity.
    + destruct (Sessao.metodo request); [|rewrite Hv];
        destruct (Sessao.session_tem session "username"); reflexivity.
Qed.

End Acesso.

(** X5 on the example users: "ana" is a manager, her session sells two
    units, and she is the user the check has accepted. *)
Lemma rotas_mudam_so_com_permissao_witness :
  exists u,
    Exemplo2.verifica (Some "ana") (Some "segredo") = Some u /\
    Exemplo2.permite u "registrar_venda" = true.
Proof.
  pose proof (proj1 (proj2 (rotas_mudam_so_com_permissao Models.User Exemplo2.verifica
                         Exemplo2.permite Exemplo.loja
                         (<["password" := Some "segredo"]> (<["username" := Some "ana"]> ∅))
                         (Sessao.mkPedido POST None None None "/armazem/A1/vender_produto"
                            None)))
                "10/01/2024 09:30:00" "A1"
                (mkFormVenda (Some "1") (Some "2") (Some "Mercado Central"))) as H.
  destruct H as (u & Hu & Hp).
  - vm_compute. intros E. discriminate E.
  - exists u. split; [|exact Hp]. vm_compute in Hu. vm_compute. exact Hu.
Defined.

(** X6 on the same request: the record names "ana". *)
Lemma venda_atribuida_ao_usuario_da_sessao_witness :
  exists u v,
    Exemplo2.verifica (Some "ana") (Some "segredo") = Some u /\
    Exemplo2.permite u "registrar_venda" = true /\
    usuario_responsavel v = "ana" /\
    area_origem_id v = "A1".
Proof.
  pose proof (venda_atribuida_ao_usuario_da_sessao Models.User Exemplo2.verifica
           Exemplo2.permite Exemplo.loja "10/01/2024 09:30:00" "A1"
           (mkFormVenda (Some "1") (Some "2") (Some "Mercado Central"))
           (<["password" := Some "segredo"]> (<["username" := Some "ana"]> ∅))
           (Sessao.mkPedido POST None None None "/armazem/A1/vender_produto" None)) as H.
  destruct H as (u & v & Hu & Hp & _ & Hresp & Harea).
  - vm_compute. intros E. discriminate E.
  - exists u, v. split; [vm_compute in Hu; vm_compute; exact Hu|].
    split; [exact Hp|]. split; [|exact Harea].
    vm_compute in Hresp. exact Hresp.
Defined.

(** X8 on the example users: "ana" logs in and the report route, which
    asks for "gerente", runs its view. *)
Lemma login_e_depois_as_rotas_witness :
  let pedido :=
    Sessao.mkPedido POST (Some "ana") (Some "segredo") None "/login" None in
  let apos :=
    Sessao.login Models.User Models.username Models.role Models.username
                 Exemplo2.verifica ∅ pedido in
  Sessao.session_get (fst apos) "username" = Some "ana" /\
  snd (Sessao.login_necessario Models.User Exemplo2.verifica Exemplo2.permite
         (Some "gerente") (fun _ => 1) (fst apos)
         (Sessao.mkPedido GET None None None "/relatorios" None))
  = inr 1.
Proof.
  intros pedido apos.
  destruct (proj1 (login_e_depois_as_rotas Models.User Models.username Models.role
                     Models.username Exemplo2.verifica Exemplo2.permite ∅ pedido)
              (Models.mkUser "ana" "hash:segredo" "gerente") eq_refl eq_refl)
    as (Hu & _ & Hrota).
  split; [exact Hu|].
  fold apos in Hrota. rewrite Hrota. reflexivity.
Defined.

(** ** Dates written and read back *)

Module Datas.
Import PyDate.

Lemma decimal_digito (k : Z) : 0 <= k <= 9 -> decimal (digito k) = Some k.
Proof.
  intros Hk.
  assert (H : k = 0 \/ k = 1 \/ k = 2 \/ k = 3 \/ k = 4 \/ k = 5 \/ k = 6 \/
              k = 7 \/ k = 8 \/ k = 9) by lia.
  repeat (destruct H as [-> | H]); [.. | subst k]; reflexivity.
Qed.

Lemma days_in_month_31 (y m : Z) : 1 <= m <= 12 -> days_in_month y m <= 31.
Proof.
  intros Hm.
  assert (H : m = 1 \/ m = 2 \/ m = 3 \/ m = 4 \/ m = 5 \/ m = 6 \/ m = 7 \/
              m = 8 \/ m = 9 \/ m = 10 \/ m = 11 \/ m = 12) by lia.
  unfold days_in_month, tab.
  repeat (destruct H as [-> | H]); [.. | subst m];
    destruct (is_leap y); simpl; lia.
Qed.

Lemma valid_limites (d : date) :
  valid d = true ->
  1 <= year d <= 9999 /\ 1 <= month d <= 12 /\ 1 <= day d <= 31.
Proof.
  unfold valid, MINYEAR, MAXYEAR. rewrite !andb_true_iff, !Z.leb_le.
  intros [[[[[Hy1 Hy2] Hm1] Hm2] Hd1] Hd2].
  pose proof (days_in_month_31 (year d) (month d)). lia.
Qed.

Lemma parse_Y_fmtY (y : Z) (r : str) :
  1000 <= y <= 9999 -> parse_Y (fmtY y ++ 45 :: r) = Some (y, r).
Proof.
  intros Hy. unfold fmtY.
  replace (y <? 10) with false by (symmetry; apply Z.ltb_ge; lia).
  replace (y <? 100) with false by (symmetry; apply Z.ltb_ge; lia).
  replace (y <? 1000) with false by (symmetry; apply Z.ltb_ge; lia).
  cbn [app]. unfold parse_Y.
  rewrite !decimal_digito by (Z.div_mod_to_equations; lia).
  do 2 f_equal. Z.div_mod_to_equations. lia.
Qed.

Lemma parse_m_fmt2 (m : Z) (r : str) :
  1 <= m <= 12 -> parse_m (fmt2 m ++ 45 :: r) = Some (m, r).
Proof.
  intros Hm.
  assert (H : m = 1 \/ m = 2 \/ m = 3 \/ m = 4 \/ m = 5 \/ m = 6 \/ m = 7 \/
              m = 8 \/ m = 9 \/ m = 10 \/ m = 11 \/ m = 12) by lia.
  repeat (destruct H as [-> | H]); [.. | subst m]; reflexivity.
Qed.

Lemma parse_d_fmt2 (d : Z) : 1 <= d <= 31 -> parse_d (fmt2 d) = Some (d, []).
Proof.
  intros Hd.
  assert (H : d = 1 \/ d = 2 \/ d = 3 \/ d = 4 \/ d = 5 \/ d = 6 \/ d = 7 \/
              d = 8 \/ d = 9 \/ d = 10 \/ d = 11 \/ d = 12 \/ d = 13 \/
              d = 14 \/ d = 15 \/ d = 16 \/ d = 17 \/ d = 18 \/ d = 19 \/
              d = 20 \/ d = 21 \/ d = 22 \/ d = 23 \/ d = 24 \/ d = 25 \/
              d = 26 \/ d = 27 \/ d = 28 \/ d = 29 \/ d = 30 \/ d = 31)
    by lia.
  repeat (destruct H as [-> | H]); [.. | subst d]; reflexivity.
Qed.

(** A calendar date of the year 1000 or later that [strftime] has written
    is the date that [strptime] reads, with the format ['%Y-%m-%d'] of the
    application. *)
Lemma strptime_strftime (d : date) :
  valid d = true -> 1000 <= year d ->
  strptime_Ymd (strftime_Ymd d) = Some d.
Proof.
  intros Hv Hmil. destruct (valid_limites d Hv) as (Hy & Hm & Hd).
  destruct d as [y m dd]. cbn [year month day] in *.
  unfold strftime_Ymd, strptime_Ymd. cbn [year month day].
  change ("-" ++ fmt2 m ++ "-" ++ fmt2 dd) with (45 :: fmt2 m ++ 45 :: fmt2 dd).
  rewrite parse_Y_fmtY by lia. rewrite parse_m_fmt2 by lia.
  rewrite parse_d_fmt2 by lia. now rewrite Hv.
Qed.

(** Before the year 1000 [strftime] writes fewer than four digits for the
    year, and [strptime] does not read what it has written. *)
Lemma strptime_strftime_antes_de_1000 (d : date) :
  valid d = true -> year d < 1000 ->
  strptime_Ymd (strftime_Ymd d) = None.
Proof.
  intros Hv Hmil. destruct (valid_limites d Hv) as (Hy & Hm & Hd).
  destruct d as [y m dd]. cbn [year month day] in *.
  unfold strftime_Ymd, strptime_Ymd, fmtY. cbn [year month day].
  change ("-" ++ fmt2 m ++ "-" ++ fmt2 dd) with (45 :: fmt2 m ++ 45 :: fmt2 dd).
  assert (H : m = 1 \/ m = 2 \/ m = 3 \/ m = 4 \/ m = 5 \/ m = 6 \/ m = 7 \/
              m = 8 \/ m = 9 \/ m = 10 \/ m = 11 \/ m = 12) by lia.
  destruct (Z.ltb_spec y 10); [|destruct (Z.ltb_spec y 100);
    [|destruct (Z.ltb_spec y 1000); [|lia]]].
  - repeat (destruct H as [-> | H]); [.. | subst m];
      cbn [app fmt2]; unfold parse_Y;
      rewrite decimal_digito by lia; reflexivity.
  - repeat (destruct H as [-> | H]); [.. | subst m]; reflexivity.
  - repeat (destruct H as [-> | H]); [.. | subst m];
      cbn [app fmt2]; unfold parse_Y;
      rewrite !decimal_digito by (Z.div_mod_to_equations; lia); reflexivity.
Qed.

End Datas.

(** X9. The template filter [to_date_filter] returns a date as it is. Of
    the texts that [strftime('%Y-%m-%d')] writes for calendar dates, it
    reads back as the date exactly those of the years from 1000 on; for an
    earlier year the text has fewer than four digits of year and the filter
    returns the text itself. A string it turns into a date is one that
    [strptime] reads as that calendar date; and applying the filter twice is
    the same as applying it once. *)
Theorem to_date_filter_le_o_que_foi_escrito :
  (forall d, Vistas.to_date_filter (Vistas.valor_date d) = Vistas.valor_date d) /\
  (forall d, PyDate.valid d = true -> 1000 <= PyDate.year d ->
             Vistas.to_date_filter (Vistas.valor_str (PyDate.strftime_Ymd d))
             = Vistas.valor_date d) /\
  (forall d, PyDate.valid d = true -> PyDate.year d < 1000 ->
             Vistas.to_date_filter (Vistas.valor_str (PyDate.strftime_Ymd d))
             = Vistas.valor_str (PyDate.strftime_Ymd d)) /\
  (forall s d, Vistas.to_date_filter (Vistas.valor_str s) = Vistas.valor_date d ->
               PyDate.valid d = true /\ PyDate.strptime_Ymd s = Some d) /\
  (forall v, Vistas.to_date_filter (Vistas.to_date_filter v) = Vistas.to_date_filter v).
Proof.
  split; [|split; [|split; [|split]]].
  - reflexivity.
  - intros d Hd Hy. unfold Vistas.to_date_filter.
    now rewrite Datas.strptime_strftime.
  - intros d Hd Hy. unfold Vistas.to_date_filter.
    now rewrite Datas.strptime_strftime_antes_de_1000.
  - intros s d. unfold Vistas.to_date_filter.
    destruct (PyDate.strptime_Ymd s) as [r|] eqn:Hs; [|discriminate].
    intros [= <-]. split; [|reflexivity].
    unfold PyDate.strptime_Ymd in Hs.
    destruct (PyDate.parse_Y s) as [[y s1]|]; [|discriminate].
    destruct (PyDate.parse_m s1) as [[m s2]|]; [|discriminate].
    destruct (PyDate.parse_d s2) as [[d [|c s3]]|]; try discriminate.
    destruct (PyDate.valid (PyDate.mkdate y m d)) eqn:Hv; [|discriminate].
    now injection Hs as <-.
  - intros [d|s|]; simpl; [reflexivity | | reflexivity].
    destruct (PyDate.strptime_Ymd s) eqn:Hs; simpl; [reflexivity|].
    now rewrite Hs.
Qed.

(** X9 on 2024-02-01 and on 0005-01-02, which is written as ["5-01-02"]. *)
Lemma to_date_filter_le_o_que_foi_escrito_witness :
  Vistas.to_date_filter (Vistas.valor_str "2024-02-01")
  = Vistas.valor_date (PyDate.mkdate 2024 2 1) /\
  Vistas.to_date_filter (Vistas.valor_str "5-01-02") = Vistas.valor_str "5-01-02".
Proof.
  split.
  - exact (proj1 (proj2 to_date_filter_le_o_que_foi_escrito)
             (PyDate.mkdate 2024 2 1) eq_refl ltac:(simpl; lia)).
  - exact (proj1 (proj2 (proj2 to_date_filter_le_o_que_foi_escrito))
             (PyDate.mkdate 5 1 2) eq_refl ltac:(simpl; lia)).
Defined.

(** X10. The expiry date that a sale writes into its record as text is read
    back by [to_date_filter] as the expiry date of the instance that was
    sold when that date, a calendar date, is of the year 1000 or later; for
    an earlier year the filter returns the text of the record as it is. *)
Theorem data_da_venda_lida_de_volta
    (s : Store) (usuario agora ida : str) (form : FormVenda)
    (a : AreaArmazem) (p : ProdutoLacteo) (q i : Z) :
  AreaArmazem_buscar_por_id s ida = Some a ->
  truthy (form_destino_venda form) = true ->
  py_int (campo (form_quantidade_venda form)) = Some q ->
  py_int (campo (form_id_instancia_venda form)) = Some i ->
  buscar_instancia_por_id s i = Some p ->
  area p = id_area a ->
  0 < q <= quantidade p ->
  PyDate.valid (data_validade p) = true ->
  exists v,
    vendas (fst (vender_produto_da_area s usuario agora ida form))
    = (vendas s ++ [v])%list /\
    (1000 <= PyDate.year (data_validade p) ->
     Vistas.to_date_filter (Vistas.valor_str (data_validade_produto v))
     = Vistas.valor_date (data_validade p)) /\
    (PyDate.year (data_validade p) < 1000 ->
     Vistas.to_date_filter (Vistas.valor_str (data_validade_produto v))
     = Vistas.valor_str (data_validade_produto v)).
Proof.
  intros Ha Hd Hq Hi Hp Hpa Hrange Hv.
  rewrite (vender_sucesso s usuario agora ida form a p q i) by assumption.
  eexists. split; [reflexivity|]. cbn [data_validade_produto].
  unfold Vistas.to_date_filter. split; intros Hy.
  - now rewrite Datas.strptime_strftime.
  - now rewrite Datas.strptime_strftime_antes_de_1000.
Qed.

(** X10 on the example sale of two units of batch 1. *)
Lemma data_da_venda_lida_de_volta_witness :
  exists v,
    vendas (fst (vender_produto_da_area Exemplo.loja "ana" "10/01/2024 09:30:00" "A1"
                   (mkFormVenda (Some "1") (Some "2") (Some "Mercado Central"))))
    = (vendas Exemplo.loja ++ [v])%list /\
    Vistas.to_date_filter (Vistas.valor_str (data_validade_produto v))
    = Vistas.valor_date (PyDate.mkdate 2024 1 5).
Proof.
  destruct (data_da_venda_lida_de_volta Exemplo.loja "ana" "10/01/2024 09:30:00" "A1"
              (mkFormVenda (Some "1") (Some "2") (Some "Mercado Central"))
              Exemplo.camara Exemplo.leite_camara 2 1
              eq_refl eq_refl eq_refl eq_refl eq_refl eq_refl
              ltac:(simpl; lia) eq_refl)
    as (v & Hv & Hler & _).
  exists v. split; [exact Hv|]. apply Hler. simpl. lia.
Defined.

(** ** The normal form of ids and lot codes *)

Lemma upper_cons (c : Z) (s : str) : upper (c :: s) = upper_char c ++ upper s.
Proof. reflexivity. Qed.

Lemma upper_app (a b : str) : upper (a ++ b) = upper a ++ upper b.
Proof. apply flat_map_app. Qed.

Lemma upper_nao_vazio (s : str) : s <> [] -> upper s <> [].
Proof.
  destruct s as [|c s]; [congruence|]. intros _. rewrite upper_cons.
  destruct (upper_char_fatos c) as (Hne & _).
  destruct (upper_char c); [congruence | discriminate].
Qed.

Lemma lstrip_upper (s : str) : lstrip (upper s) = upper (lstrip s).
Proof.
  induction s as [|c s IH]; [reflexivity|].
  destruct (upper_char_fatos c) as (Hne & Hsp & Hns & _).
  rewrite upper_cons. cbn [lstrip]. destruct (is_space c) eqn:Hc.
  - rewrite (Hsp eq_refl). simpl. rewrite Hc. exact IH.
  - destruct (Hns eq_refl) as [Hh _]. rewrite upper_cons.
    destruct (upper_char c) as [|x v]; [congruence|].
    simpl in Hh. simpl. now rewrite Hh.
Qed.

Lemma rstrip_cons (c : Z) (x : str) :
  rstrip x <> [] -> rstrip (c :: x) = c :: rstrip x.
Proof. simpl. destruct (rstrip x); [congruence | reflexivity]. Qed.

Lemma rstrip_app (x y : str) :
  rstrip (x ++ y) = match rstrip y with
                    | [] => rstrip x
                    | r => x ++ r
                    end.
Proof.
  induction x as [|c x IH]; simpl.
  - now destruct (rstrip y).
  - rewrite IH. destruct (rstrip y) as [|a r]; [reflexivity|].
    now destruct x.
Qed.

Lemma rstrip_ultimo_nao_espaco (u : str) :
  u <> [] -> is_space (last u 32) = false -> rstrip u = u.
Proof.
  induction u as [|x u IH]; [congruence|]. intros _ Hl.
  destruct u as [|y r].
  - simpl in *. now rewrite Hl.
  - rewrite rstrip_cons; rewrite IH; try discriminate; auto.
Qed.

Lemma rstrip_upper (s : str) : rstrip (upper s) = upper (rstrip s).
Proof.
  induction s as [|c s IH]; [reflexivity|].
  destruct (upper_char_fatos c) as (Hne & Hsp & Hns & _).
  rewrite upper_cons, rstrip_app, IH. cbn [rstrip].
  destruct (rstrip s) as [|a r] eqn:Hr.
  - cbn [upper flat_map]. destruct (is_space c) eqn:Hc.
    + rewrite (Hsp eq_refl). simpl. now rewrite Hc.
    + destruct (Hns eq_refl) as [_ Hl].
      rewrite rstrip_ultimo_nao_espaco by assumption.
      simpl. now rewrite app_nil_r.
  - pose proof (upper_nao_vazio (a :: r) ltac:(discriminate)) as Hn.
    rewrite (upper_cons c). destruct (upper (a :: r)); [congruence | reflexivity].
Qed.

Lemma upper_upper (s : str) : upper (upper s) = upper s.
Proof.
  induction s as [|c s IH]; [reflexivity|].
  destruct (upper_char_fatos c) as (_ & _ & _ & Hup).
  now rewrite upper_cons, upper_app, Hup, IH.
Qed.

Lemma lstrip_lstrip (s : str) : lstrip (lstrip s) = lstrip s.
Proof.
  induction s as [|c s IH]; simpl; [reflexivity|].
  destruct (is_space c) eqn:Hc; [exact IH|]. simpl. now rewrite Hc.
Qed.

Lemma rstrip_rstrip (s : str) : rstrip (rstrip s) = rstrip s.
Proof.
  induction s as [|c s IH]; simpl; [reflexivity|].
  destruct (rstrip s) as [|c' r] eqn:Hr.
  - destruct (is_space c) eqn:Hc; simpl; [reflexivity | now rewrite Hc].
  - rewrite rstrip_cons; rewrite IH; [reflexivity | discriminate].
Qed.

Lemma lstrip_rstrip (s : str) : lstrip (rstrip s) = rstrip (lstrip s).
Proof.
  induction s as [|c s IH]; simpl; [reflexivity|].
  destruct (is_space c) eqn:Hc.
  - destruct (rstrip s) as [|c' r] eqn:Hr.
    + simpl in IH. now rewrite <- IH.
    + rewrite <- IH. simpl. now rewrite Hc.
  - simpl. destruct (rstrip s); simpl; now rewrite Hc.
Qed.

Lemma strip_strip (s : str) : strip (strip s) = strip s.
Proof.
  unfold strip. rewrite (lstrip_rstrip (lstrip s)), lstrip_lstrip.
  apply rstrip_rstrip.
Qed.

Lemma strip_upper (s : str) : strip (upper s) = upper (strip s).
Proof. unfold strip. now rewrite lstrip_upper, rstrip_upper. Qed.

(** X11. The form [.strip().upper()] in which the handlers store lot codes
    and ids is a normal form: it has no surrounding white space and no
    lower-case letter left (stripping it or putting it in upper case again
    changes nothing), and normalising twice is normalising once. So an
    edit or an add that submits the stored form of a lot code does what the
    request with the code as first typed does. *)
Theorem forma_normal_do_lote (l : str) :
  strip (normaliza_lote l) = normaliza_lote l /\
  upper (normaliza_lote l) = normaliza_lote l /\
  normaliza_lote (normaliza_lote l) = normaliza_lote l /\
  (normaliza_lote l <> [] ->
   (forall s m ida i q d,
      editar_produto_em_area s m ida i (mkFormEditar q d (Some (normaliza_lote l)))
      = editar_produto_em_area s m ida i (mkFormEditar q d (Some l))) /\
   (forall s ida c q d,
      adicionar_produto_na_area s ida (mkFormAdicionar c q d (Some (normaliza_lote l)))
      = adicionar_produto_na_area s ida (mkFormAdicionar c q d (Some l)))).
Proof.
  assert (H1 : strip (normaliza_lote l) = normaliza_lote l)
    by (unfold normaliza_lote; now rewrite strip_upper, strip_strip).
  assert (H2 : upper (normaliza_lote l) = normaliza_lote l)
    by (unfold normaliza_lote; apply upper_upper).
  assert (H3 : normaliza_lote (normaliza_lote l) = normaliza_lote l)
    by (unfold normaliza_lote at 1; now rewrite H1, H2).
  split; [exact H1|]. split; [exact H2|]. split; [exact H3|].
  intros Hne.
  assert (Hl : l <> []) by (intros ->; apply Hne; reflexivity).
  assert (Ht : truthy (Some (normaliza_lote l)) = truthy (Some l))
    by (now rewrite !truthy_nao_vazio).
  split; intros.
  - now apply editar_mesma_norma.
  - now apply adicionar_mesma_norma.
Qed.

(** X11 on the lot " q7 ". *)
Lemma forma_normal_do_lote_witness :
  editar_produto_em_area Exemplo.loja POST "A1" 1
    (mkFormEditar (Some "3") (Some "2024-01-20") (Some "Q7"))
  = editar_produto_em_area Exemplo.loja POST "A1" 1
      (mkFormEditar (Some "3") (Some "2024-01-20") (Some " q7 ")).
Proof.
  assert (Hne : normaliza_lote " q7 " <> "") by discriminate.
  exact (proj1 (proj2 (proj2 (proj2 (forma_normal_do_lote " q7 "))) Hne)
           Exemplo.loja POST "A1" 1 (Some "3") (Some "2024-01-20")).
Defined.

Lemma normaliza_so_espacos (l : str) :
  todos_espacos l = true -> normaliza_lote l = [].
Proof.
  intros H. unfold normaliza_lote, strip. now rewrite lstrip_espacos.
Qed.

(** X12. A lot code made only of white space passes the required-field
    check of the add handler: on otherwise valid input the handler answers
    with success, names the empty lot code in its message, and leaves in
    the area an instance of the product whose lot code is empty. *)
Theorem lote_so_de_espacos_aceito
    (s : Store) (ida : str) (form : FormAdicionar) (a : AreaArmazem)
    (pc : ProdutoCatalogo) (q : Z) (d : PyDate.date) (l : str) :
  AreaArmazem_buscar_por_id s ida = Some a ->
  truthy (form_id_produto_catalogo form) = true ->
  truthy (form_data_validade form) = true ->
  form_lote form = Some l ->
  l <> [] ->
  todos_espacos l = true ->
  py_int (campo (form_quantidade form)) = Some q ->
  0 < q ->
  ProdutoCatalogo_buscar_por_id s (campo (form_id_produto_catalogo form)) = Some pc ->
  PyDate.strptime_Ymd (campo (form_data_validade form)) = Some d ->
  snd (adicionar_produto_na_area s ida form)
  = responde (produto_adicionado (nome_catalogo pc) [] (nome_area a))
             success (redirect_detalhes_da_area ida) /\
  exists x, In x (listar_produtos (fst (adicionar_produto_na_area s ida form)) a) /\
            id_catalogo_produto x = campo (form_id_produto_catalogo form) /\
            lote x = [].
Proof.
  intros Ha Hc Hd Hl Hne Hesp Hq Hq0 Hpc Hdt.
  assert (Ht : truthy (form_lote form) = true)
    by (rewrite Hl; now apply truthy_nao_vazio).
  rewrite (adicionar_sucesso s ida form a pc q d) by assumption.
  rewrite Hl. cbn [campo]. rewrite (normaliza_so_espacos l Hesp).
  split; [reflexivity|]. simpl fst.
  exact (proj1 (adicionar_produto_lote s a
                  (mkProdutoLacteo 0 (campo (form_id_produto_catalogo form))
                     (nome_catalogo pc) q d [] ""))).
Qed.

(** X12 on the example warehouse: cheese with the lot "  ". *)
Lemma lote_so_de_espacos_aceito_witness :
  snd (adicionar_produto_na_area Exemplo.loja "A1"
         (mkFormAdicionar (Some "QUEIJO") (Some "4") (Some "2024-03-01") (Some "  ")))
  = responde (produto_adicionado "Queijo Minas" "" "Camara Fria")
             success (redirect_detalhes_da_area "A1").
Proof.
  apply (proj1 (lote_so_de_espacos_aceito Exemplo.loja "A1"
                  (mkFormAdicionar (Some "QUEIJO") (Some "4") (Some "2024-03-01")
                     (Some "  "))
                  Exemplo.camara Exemplo.queijo 4 (PyDate.mkdate 2024 3 1) "  "
                  eq_refl eq_refl eq_refl eq_refl ltac:(discriminate) eq_refl
                  eq_refl eq_refl eq_refl eq_refl)).
Defined.

(** ** New areas and new catalog products *)

Section NovosIds.

Variable AreaArmazem_criar :
  Store -> str -> str -> str -> Store * option AreaArmazem.
Variable ProdutoCatalogo_criar :
  Store -> str -> str -> Store * option ProdutoCatalogo.

(** The category of the flashed message, if any. *)
Let categoria (r : Vistas.RespostaAdmin) : option Categoria :=
  option_map snd (Vistas.flash_admin r).

(** X13. The id of a new area and of a new catalog product is stored
    stripped and in upper case, and the name stripped: two POSTs whose ids
    differ only in surrounding white space or in letter case, each letter of
    the one being the letter of the other or its upper-case form, or the
    other way round, and whose names differ only in surrounding white
    space, ask the same of [criar] and so leave the same store, land on the
    same page and flash the same category. A GET, or a POST with a field
    missing or empty, leaves the store as it was, whatever [criar] would
    do. *)
Theorem novos_ids_normalizados :
  (forall s i1 i2 n e1 e2 tipo,
     difere_so_em_caixa_ou_espacos i1 i2 ->
     i1 <> [] -> i2 <> [] -> n <> [] ->
     todos_espacos e1 = true -> todos_espacos e2 = true ->
     let r1 := Vistas.adicionar_area AreaArmazem_criar s POST
                 (Vistas.mkFormArea (Some i1) (Some n) tipo) in
     let r2 := Vistas.adicionar_area AreaArmazem_criar s POST
                 (Vistas.mkFormArea (Some i2) (Some (e1 ++ n ++ e2)) tipo) in
     fst r1 = fst r2 /\
     Vistas.pagina_admin (snd r1) = Vistas.pagina_admin (snd r2) /\
     categoria (snd r1) = categoria (snd r2)) /\
  (forall s i1 i2 n e1 e2,
     difere_so_em_caixa_ou_espacos i1 i2 ->
     i1 <> [] -> i2 <> [] -> n <> [] ->
     todos_espacos e1 = true -> todos_espacos e2 = true ->
     let r1 := Vistas.adicionar_produto_catalogo ProdutoCatalogo_criar s POST
                 (Vistas.mkFormCatalogo (Some i1) (Some n)) in
     let r2 := Vistas.adicionar_produto_catalogo ProdutoCatalogo_criar s POST
                 (Vistas.mkFormCatalogo (Some i2) (Some (e1 ++ n ++ e2))) in
     fst r1 = fst r2 /\
     Vistas.pagina_admin (snd r1) = Vistas.pagina_admin (snd r2) /\
     categoria (snd r1) = categoria (snd r2)) /\
  (forall s metodo form,
     metodo = GET \/ truthy (Vistas.form_id_area form) = false \/
     truthy (Vistas.form_nome_area form) = false \/
     truthy (Vistas.form_tipo_armazenamento form) = false ->
     fst (Vistas.adicionar_area AreaArmazem_criar s metodo form) = s /\
     Vistas.pagina_admin (snd (Vistas.adicionar_area AreaArmazem_criar s metodo form))
     = Vistas.render_admin_form_area) /\
  (forall s metodo form,
     metodo = GET \/ truthy (Vistas.form_id_produto form) = false \/
     truthy (Vistas.form_nome_produto form) = false ->
     fst (Vistas.adicionar_produto_catalogo ProdutoCatalogo_criar s metodo form) = s /\
     Vistas.pagina_admin
       (snd (Vistas.adicionar_produto_catalogo ProdutoCatalogo_criar s metodo form))
     = Vistas.render_admin_form_produto_catalogo).
Proof.
  assert (Hnome : forall n e1 e2,
             n <> [] -> todos_espacos e1 = true -> todos_espacos e2 = true ->
             truthy (Some (e1 ++ n ++ e2)) = true /\
             strip (e1 ++ n ++ e2) = strip n).
  { intros n e1 e2 Hn H1 H2. split; [|now apply strip_entre_espacos].
    apply truthy_nao_vazio. destruct e1; [destruct n; [congruence|]|]; discriminate. }
  split; [|split; [|split]].
  - intros s i1 i2 n e1 e2 tipo Hdif H1 H2 Hn He1 He2 r1 r2. subst r1 r2.
    destruct (Hnome n e1 e2 Hn He1 He2) as [Ht Hs].
    pose proof (normaliza_lote_igual i1 i2 Hdif) as Hi. unfold normaliza_lote in Hi.
    unfold Vistas.adicionar_area.
    cbn [Vistas.form_id_area Vistas.form_nome_area Vistas.form_tipo_armazenamento campo].
    rewrite Ht, Hs, Hi, !truthy_nao_vazio by assumption.
    destruct (truthy tipo); simpl; [|auto].
    destruct (AreaArmazem_criar s (upper (strip i2)) (strip n) (campo tipo))
      as [s1 [a|]]; auto.
  - intros s i1 i2 n e1 e2 Hdif H1 H2 Hn He1 He2 r1 r2. subst r1 r2.
    destruct (Hnome n e1 e2 Hn He1 He2) as [Ht Hs].
    pose proof (normaliza_lote_igual i1 i2 Hdif) as Hi. unfold normaliza_lote in Hi.
    unfold Vistas.adicionar_produto_catalogo.
    cbn [Vistas.form_id_produto Vistas.form_nome_produto campo].
    rewrite Ht, Hs, Hi, !truthy_nao_vazio by assumption. simpl.
    destruct (ProdutoCatalogo_criar s (upper (strip i2)) (strip n)) as [s1 [pc|]]; auto.
  - intros s metodo form H. unfold Vistas.adicionar_area.
    destruct metodo; [auto|].
    destruct H as [H | [H | [H | H]]]; [discriminate | rewrite H ..]; simpl; auto.
    + destruct (truthy (Vistas.form_id_area form)); simpl; auto.
    + destruct (truthy (Vistas.form_id_area form)),
        (truthy (Vistas.form_nome_area form)); simpl; auto.
  - intros s metodo form H. unfold Vistas.adicionar_produto_catalogo.
    destruct metodo; [auto|].
    destruct H as [H | [H | H]]; [discriminate | rewrite H ..]; simpl; auto.
    destruct (truthy (Vistas.form_id_produto form)); simpl; auto.
Qed.

End NovosIds.

(** X13 on the example warehouse: " d4 " and "D4" name the same new area. *)
Lemma novos_ids_normalizados_witness :
  fst (Vistas.adicionar_area Exemplo2.cria_area Exemplo.loja POST
         (Vistas.mkFormArea (Some " d4 ") (Some "Doca") (Some "seco")))
  = fst (Vistas.adicionar_area Exemplo2.cria_area Exemplo.loja POST
           (Vistas.mkFormArea (Some "D4") (Some " Doca ") (Some "seco"))).
Proof.
  assert (Hd : difere_so_em_caixa_ou_espacos " d4 " "D4").
  { exists " ", " ", "", "", "d4", "D4".
    repeat split; repeat (constructor; try reflexivity). }
  exact (proj1 (proj1 (novos_ids_normalizados Exemplo2.cria_area Exemplo2.cria_produto)
                  Exemplo.loja " d4 " "D4" "Doca" " " " " (Some "seco") Hd
                  ltac:(discriminate) ltac:(discriminate) ltac:(discriminate)
                  eq_refl eq_refl)).
Defined.

(** ** The page of an area *)

Section OrdenaPor.

Context {A K : Type} (menor : K -> K -> bool) (key : A -> K).

Hypothesis menor_assim : forall a b, menor a b = true -> menor b a = false.
Hypothesis menor_trans :
  forall a b c, menor b a = false -> menor c b = false -> menor c a = false.

(** [x] may stand before [y]: the key of [y] is not below the key of [x]. *)
Let pode_antes (x y : A) : Prop := menor (key y) (key x) = false.

Lemma insere_por_perm (x : A) (l : list A) :
  Permutation (x :: l) (Vistas.insere_por menor key x l).
Proof.
  induction l as [|y l IH]; simpl; [reflexivity|].
  destruct (menor (key x) (key y)); [reflexivity|].
  rewrite perm_swap. now apply perm_skip.
Qed.

Lemma sorted_por_perm (l : list A) : Permutation l (Vistas.sorted_por menor key l).
Proof.
  unfold Vistas.sorted_por.
  assert (G : forall l acc,
             Permutation (acc ++ l)
               (fold_left (fun acc x => Vistas.insere_por menor key x acc) l acc)).
  { clear l. induction l as [|x l IH]; intros acc; simpl.
    - now rewrite app_nil_r.
    - rewrite <- IH. rewrite <- Permutation_middle.
      change (Permutation ((x :: acc) ++ l) (Vistas.insere_por menor key x acc ++ l)).
      apply Permutation_app_tail. apply insere_por_perm. }
  apply (G l []).
Qed.

Lemma insere_por_ordenada (x : A) (l : list A) :
  StronglySorted pode_antes l ->
  StronglySorted pode_antes (Vistas.insere_por menor key x l).
Proof.
  induction 1 as [|y l Hl IH Hy]; simpl.
  - constructor; constructor.
  - destruct (menor (key x) (key y)) eqn:Hxy.
    + constructor; [constructor; assumption|].
      constructor; [now apply menor_assim|].
      rewrite Forall_forall in *. intros z Hz.
      unfold pode_antes in *.
      apply (menor_trans (key x) (key y) (key z));
        [now apply menor_assim | now apply Hy].
    + constructor; [exact IH|].
      rewrite Forall_forall in *. intros z Hz.
      eapply Permutation_in in Hz; [|symmetry; apply insere_por_perm].
      destruct Hz as [<- | Hz]; [exact Hxy | now apply Hy].
Qed.

Lemma sorted_por_ordenada (l : list A) :
  StronglySorted pode_antes (Vistas.sorted_por menor key l).
Proof.
  unfold Vistas.sorted_por.
  assert (G : forall l acc,
             StronglySorted pode_antes acc ->
             StronglySorted pode_antes
               (fold_left (fun acc x => Vistas.insere_por menor key x acc) l acc)).
  { clear l. induction l as [|x l IH]; intros acc Hacc; simpl; [exact Hacc|].
    apply IH. now apply insere_por_ordenada. }
  apply G. constructor.
Qed.

Lemma sorted_por_pares (l : list A) (l1 l2 l3 : list A) (x y : A) :
  Vistas.sorted_por menor key l = (l1 ++ x :: l2 ++ y :: l3)%list ->
  menor (key y) (key x) = false.
Proof.
  intros E. pose proof (sorted_por_ordenada l) as H. rewrite E in H.
  clear E. induction l1 as [|z l1 IH]; simpl in H.
  - apply StronglySorted_inv in H. destruct H as [_ H].
    rewrite Forall_forall in H. apply H. apply in_or_app. right. now left.
  - apply StronglySorted_inv in H. destruct H as [H _]. now apply IH.
Qed.

End OrdenaPor.

(** [a < b] on dates, written out on the three fields. *)
Lemma date_lt_spec (a b : PyDate.date) :
  PyDate.lt a b = true <->
  PyDate.year a < PyDate.year b \/
  (PyDate.year a = PyDate.year b /\
   (PyDate.month a < PyDate.month b \/
    (PyDate.month a = PyDate.month b /\ PyDate.day a < PyDate.day b))).
Proof.
  unfold PyDate.lt.
  rewrite !orb_true_iff, !andb_true_iff, !orb_true_iff, !andb_true_iff,
    !Z.ltb_lt, !Z.eqb_eq.
  tauto.
Qed.

Lemma date_lt_false (a b : PyDate.date) :
  PyDate.lt a b = false <->
  ~ (PyDate.year a < PyDate.year b \/
     (PyDate.year a = PyDate.year b /\
      (PyDate.month a < PyDate.month b \/
       (PyDate.month a = PyDate.month b /\ PyDate.day a < PyDate.day b)))).
Proof. rewrite <- date_lt_spec. symmetry. apply not_true_iff_false. Qed.

Lemma date_lt_assim (a b : PyDate.date) :
  PyDate.lt a b = true -> PyDate.lt b a = false.
Proof. rewrite date_lt_spec, date_lt_false. lia. Qed.

Lemma date_lt_trans (a b c : PyDate.date) :
  PyDate.lt b a = false -> PyDate.lt c b = false -> PyDate.lt c a = false.
Proof. rewrite !date_lt_false. lia. Qed.

Lemma date_nao_lt_le (a b : PyDate.date) :
  PyDate.lt b a = false -> PyDate.le a b = true.
Proof.
  rewrite date_lt_false. unfold PyDate.le, PyDate.eqb. intros H.
  destruct (PyDate.lt a b) eqn:Hab; [reflexivity|].
  apply date_lt_false in Hab. simpl.
  rewrite !andb_true_iff, !Z.eqb_eq. lia.
Qed.

Lemma dropdown_fora (l : list ProdutoCatalogo) (m : gmap str str) (i : str) :
  (forall pc, In pc l -> id_produto pc <> i) ->
  fold_left (fun d pc => <[id_produto pc := nome_catalogo pc]> d) l m !! i = m !! i.
Proof.
  revert m. induction l as [|pc l IH]; intros m H; simpl; [reflexivity|].
  rewrite IH by (intros; apply H; now right).
  apply lookup_insert_ne. apply H. now left.
Qed.

Lemma dropdown_dentro (l : list ProdutoCatalogo) (m : gmap str str)
    (pc : ProdutoCatalogo) :
  NoDup (map id_produto l) -> In pc l ->
  fold_left (fun d pc => <[id_produto pc := nome_catalogo pc]> d) l m !! id_produto pc
  = Some (nome_catalogo pc).
Proof.
  revert m. induction l as [|x l IH]; intros m Hnd Hin; simpl; [contradiction|].
  inversion Hnd as [|? ? Hx Hnd']; subst.
  destruct Hin as [-> | Hin].
  - rewrite dropdown_fora; [apply lookup_insert_eq|].
    intros y Hy E. apply Hx. rewrite <- E. now apply in_map.
  - now apply IH.
Qed.

(** X14. The page of an area lists the batches of the area, all of them
    and no other, earliest expiry first: of two batches on the page, the one
    listed first expires no later than the other. The dropdown of the page
    maps the id of every catalog product (ids being distinct) to its name
    and holds no other id. An unknown area id is answered with the
    not-found message and the redirect to the warehouse page. *)
Theorem detalhes_da_area_ordenada (s : Store) (ida : str) (hoje : PyDate.date) :
  (AreaArmazem_buscar_por_id s ida = None ->
   Vistas.detalhes_da_area s ida hoje
   = inl (responde (area_nao_encontrada ida) danger redirect_pagina_inicial_armazem)) /\
  (forall a,
     AreaArmazem_buscar_por_id s ida = Some a ->
     exists det,
       Vistas.detalhes_da_area s ida hoje = inr det /\
       Vistas.det_area det = a /\
       Permutation (listar_produtos s a) (Vistas.det_produtos det) /\
       (forall l1 x l2 y l3,
          Vistas.det_produtos det = (l1 ++ x :: l2 ++ y :: l3)%list ->
          PyDate.le (data_validade x) (data_validade y) = true) /\
       (NoDup (map id_produto (catalogo s)) ->
        forall pc, In pc (catalogo s) ->
                   Vistas.det_produtos_catalogo det !! id_produto pc
                   = Some (nome_catalogo pc)) /\
       (forall i, (forall pc, In pc (catalogo s) -> id_produto pc <> i) ->
                  Vistas.det_produtos_catalogo det !! i = None)).
Proof.
  unfold Vistas.detalhes_da_area. split.
  - intros ->. reflexivity.
  - intros a ->. eexists. split; [reflexivity|]. simpl.
    split; [reflexivity|]. split; [|split; [|split]].
    + apply sorted_por_perm.
    + intros l1 x l2 y l3 E. apply date_nao_lt_le.
      exact (sorted_por_pares PyDate.lt data_validade date_lt_assim date_lt_trans
               _ l1 l2 l3 x y E).
    + intros Hnd pc Hpc. now apply dropdown_dentro.
    + intros i Hi. unfold Vistas.ProdutoCatalogo_listar_todos.
      rewrite dropdown_fora by exact Hi. apply lookup_empty.
Qed.

(** X14 on the cold room of the example warehouse. *)
Lemma detalhes_da_area_ordenada_witness :
  exists det,
    Vistas.detalhes_da_area Exemplo.loja "A1" Exemplo.hoje = inr det /\
    Vistas.det_area det = Exemplo.camara /\
    Permutation (listar_produtos Exemplo.loja Exemplo.camara) (Vistas.det_produtos det).
Proof.
  destruct (proj2 (detalhes_da_area_ordenada Exemplo.loja "A1" Exemplo.hoje)
              Exemplo.camara eq_refl) as (det & H1 & H2 & H3 & _).
  exists det. auto.
Defined.

(** ** Requests that are refused *)

Lemma atualizar_instancia_falso (s : Store) (p : ProdutoLacteo) (q : Z) (d l : str) :
  snd (atualizar_instancia s p q d l) = false -> fst (atualizar_instancia s p q d l) = s.
Proof.
  unfold atualizar_instancia.
  destruct (PyDate.strptime_Ymd d); [|reflexivity].
  destruct (q <? 0); [reflexivity | discriminate].
Qed.

Lemma adicionar_recusado (s : Store) (ida : str) (form : FormAdicionar) :
  sucesso (snd (adicionar_produto_na_area s ida form)) = false ->
  fst (adicionar_produto_na_area s ida form) = s.
Proof.
  unfold adicionar_produto_na_area.
  destruct (AreaArmazem_buscar_por_id s ida) as [a|]; [|reflexivity].
  destruct (negb _); [reflexivity|].
  destruct (py_int _) as [q|]; [|reflexivity].
  destruct (q <=? 0); [reflexivity|].
  destruct (ProdutoCatalogo_buscar_por_id s _) as [pc|]; [|reflexivity].
  destruct (novo_ProdutoLacteo _ _ _ _ _) as [novo|]; [|reflexivity].
  discriminate.
Qed.

Lemma editar_recusado (s : Store) (m : Metodo) (ida : str) (i : Z)
    (form : FormEditar) :
  sucesso (snd (editar_produto_em_area s m ida i form)) = false ->
  fst (editar_produto_em_area s m ida i form) = s.
Proof.
  unfold editar_produto_em_area.
  destruct (AreaArmazem_buscar_por_id s ida) as [a|]; [|reflexivity].
  destruct (buscar_instancia_por_id s i) as [p|]; [|reflexivity].
  destruct (negb _); [reflexivity|].
  destruct m; [reflexivity|].
  destruct (negb _); [reflexivity|].
  destruct (py_int _) as [q|]; [|reflexivity].
  destruct (q <? 0); [reflexivity|].
  pose proof (atualizar_instancia_falso s p q (campo (form_nova_data_validade form))
                (normaliza_lote (campo (form_novo_lote form)))) as Hf.
  destruct (atualizar_instancia s p q _ _) as [s1 ok]. simpl in Hf.
  destruct ok; [discriminate | intros _; now apply Hf].
Qed.

Lemma excluir_produto_recusado (s : Store) (ida : str) (i : Z) :
  sucesso (snd (excluir_produto_de_area s ida i)) = false ->
  fst (excluir_produto_de_area s ida i) = s.
Proof.
  unfold excluir_produto_de_area.
  destruct (AreaArmazem_buscar_por_id s ida) as [a|]; [|reflexivity].
  destruct (buscar_instancia_por_id s i) as [p|]; [|reflexivity].
  destruct (negb _); [reflexivity | discriminate].
Qed.

Lemma excluir_area_recusado (s : Store) (ida : str) :
  sucesso (snd (excluir_area s ida)) = false -> fst (excluir_area s ida) = s.
Proof.
  unfold excluir_area, AreaArmazem_deletar.
  destruct (AreaArmazem_buscar_por_id s ida) as [a|]; [|reflexivity].
  destruct (listar_produtos s a); [discriminate | reflexivity].
Qed.

(** X15. No partial writes: whenever one of the five handlers that write to
    the store (add, sell, edit, delete a batch, delete an area) answers
    without flashing a success, the store is what it was before the
    request; and a GET of the edit form never changes the store. *)
Theorem pedido_recusado_nao_muda (s : Store) (ida : str) :
  (forall form,
     sucesso (snd (adicionar_produto_na_area s ida form)) = false ->
     fst (adicionar_produto_na_area s ida form) = s) /\
  (forall usuario agora form,
     sucesso (snd (vender_produto_da_area s usuario agora ida form)) = false ->
     fst (vender_produto_da_area s usuario agora ida form) = s) /\
  (forall m i form,
     sucesso (snd (editar_produto_em_area s m ida i form)) = false ->
     fst (editar_produto_em_area s m ida i form) = s) /\
  (forall i form, fst (editar_produto_em_area s GET ida i form) = s) /\
  (forall i,
     sucesso (snd (excluir_produto_de_area s ida i)) = false ->
     fst (excluir_produto_de_area s ida i) = s) /\
  (sucesso (snd (excluir_area s ida)) = false -> fst (excluir_area s ida) = s).
Proof.
  split; [|split; [|split; [|split; [|split]]]].
  - intros form. apply adicionar_recusado.
  - intros usuario agora form Hr.
    destruct (vender_casos s usuario agora ida form)
      as [[Hs _] | (a & q & i & p & _ & _ & _ & _ & _ & _ & _ & _ & Hok)];
      [exact Hs | congruence].
  - intros m i form. apply editar_recusado.
  - intros i form. apply editar_recusado.
    unfold editar_produto_em_area.
    destruct (AreaArmazem_buscar_por_id s ida) as [a|]; [|reflexivity].
    destruct (buscar_instancia_por_id s i) as [p|]; [|reflexivity].
    destruct (negb _); reflexivity.
  - intros i. apply excluir_produto_recusado.
  - apply excluir_area_recusado.
Qed.

(** X15 on the example warehouse: an edit with a date that does not parse. *)
Lemma pedido_recusado_nao_muda_witness :
  fst (editar_produto_em_area Exemplo.loja POST "A1" 1
         (mkFormEditar (Some "3") (Some "20/01/2024") (Some "L9")))
  = Exemplo.loja.
Proof.
  apply (proj1 (proj2 (proj2 (pedido_recusado_nao_muda Exemplo.loja "A1")))).
  reflexivity.
Defined.

(** ** The totals of the report, taken together *)

Lemma total_geral_insert_novo (m : gmap str Total) (k : str) (t : Total) :
  m !! k = None ->
  Medidas.total_geral (<[k := t]> m) = quantidade_total t + Medidas.total_geral m.
Proof.
  intros Hk. unfold Medidas.total_geral.
  rewrite map_fold_insert_L; [reflexivity | | exact Hk].
  intros. lia.
Qed.

Lemma total_geral_delete (m : gmap str Total) (k : str) (t : Total) :
  m !! k = Some t ->
  Medidas.total_geral m = quantidade_total t + Medidas.total_geral (delete k m).
Proof.
  intros Hk. unfold Medidas.total_geral.
  rewrite (map_fold_delete_L _ _ k t m); [reflexivity | | exact Hk].
  intros. lia.
Qed.

Lemma soma_instancia_insert (m : gmap str Total) (p : ProdutoLacteo) :
  soma_instancia m p
  = <[id_catalogo_produto p :=
        match m !! id_catalogo_produto p with
        | Some t => mkTotal (total_nome t) (quantidade_total t + quantidade p)
        | None => mkTotal (nome p) (0 + quantidade p)
        end]> m.
Proof.
  apply map_eq. intros j.
  destruct (decide (id_catalogo_produto p = j)) as [<- | Hne].
  - rewrite soma_instancia_mesma, lookup_insert_eq. reflexivity.
  - rewrite soma_instancia_outra by exact Hne. now rewrite lookup_insert_ne.
Qed.

Lemma total_geral_soma_instancia (m : gmap str Total) (p : ProdutoLacteo) :
  Medidas.total_geral (soma_instancia m p) = Medidas.total_geral m + quantidade p.
Proof.
  rewrite soma_instancia_insert.
  destruct (m !! id_catalogo_produto p) as [t|] eqn:Hk.
  - rewrite <- insert_delete_eq.
    rewrite total_geral_insert_novo by apply lookup_delete_eq.
    rewrite (total_geral_delete m _ t Hk). simpl. lia.
  - rewrite total_geral_insert_novo by exact Hk. simpl. lia.
Qed.

Lemma total_geral_fold (l : list ProdutoLacteo) (m : gmap str Total) :
  Medidas.total_geral (fold_left soma_instancia l m)
  = Medidas.total_geral m + soma (map quantidade l).
Proof.
  revert m. induction l as [|p l IH]; intros m; simpl; [lia|].
  rewrite IH, total_geral_soma_instancia. lia.
Qed.

(** X16. The totals of the report add up to the stock: the sum of
    [quantidade_total] over all the entries of [estoque_total] is the sum
    of the quantities of all the instances of all the areas. Nothing is
    counted twice and nothing is left out. *)
Theorem estoque_total_conserva (s : Store) :
  Medidas.total_geral (estoque_total s)
  = soma (map quantidade
            (flat_map (listar_produtos s) (AreaArmazem_listar_todas s))).
Proof.
  unfold estoque_total. rewrite fold_left_aninhado, total_geral_fold.
  unfold Medidas.total_geral. rewrite map_fold_empty. lia.
Qed.

Example estoque_total_conserva_loja :
  Medidas.total_geral (estoque_total Exemplo.loja) = 18.
Proof. vm_compute. reflexivity. Qed.

(** X17. The name shown with a total is the name carried by the first
    instance of the product that the loops meet, in the order of the areas
    and of the batches within an area: a later instance with another name
    for the same catalog product does not change it. *)
Theorem estoque_total_nome_do_primeiro
    (s : Store) (k : str) (p0 : ProdutoLacteo) (r : list ProdutoLacteo) :
  List.filter (fun p => str_eqb (id_catalogo_produto p) k)
              (flat_map (listar_produtos s) (AreaArmazem_listar_todas s))
  = p0 :: r ->
  exists t, estoque_total s !! k = Some t /\ total_nome t = nome p0.
Proof.
  intros Hf. unfold estoque_total.
  rewrite fold_left_aninhado, fold_soma_instancia, Hf, lookup_empty.
  eexists. split; reflexivity.
Qed.

(** X17 on a warehouse where the second batch of milk carries another
    name. *)
Lemma estoque_total_nome_do_primeiro_witness :
  exists t,
    estoque_total
      (mkStore [Exemplo.leite] [Exemplo.camara; Exemplo.deposito]
         [Exemplo.leite_camara;
          mkProdutoLacteo 2 "LEITE" "Leite Desnatado" 5 (PyDate.mkdate 2024 1 15)
            "L2" "B2"] []) !! "LEITE"
    = Some t /\
    total_nome t = "Leite Integral".
Proof.
  apply (estoque_total_nome_do_primeiro _ "LEITE" Exemplo.leite_camara
           [mkProdutoLacteo 2 "LEITE" "Leite Desnatado" 5 (PyDate.mkdate 2024 1 15)
              "L2" "B2"]).
  reflexivity.
Defined.

(** ** The calendar: ordinals and dates correspond *)

Module Ordinais.
Import PyDate Medidas.

Lemma ord2ymd_periodo (n q : Z) :
  ord2ymd (n + DI400Y * q)
  = mkdate (year (ord2ymd n) + 400 * q) (month (ord2ymd n)) (day (ord2ymd n)).
Proof.
  unfold ord2ymd. cbv zeta.
  replace (n + DI400Y * q - 1) with ((n - 1) + q * DI400Y) by lia.
  rewrite Z.div_add, Z.mod_add by (unfold DI400Y; lia).
  destruct (_ || _); cbn [year month day]; f_equal; lia.
Qed.

Lemma is_leap_periodo (y q : Z) : is_leap (y + 400 * q) = is_leap y.
Proof.
  unfold is_leap.
  replace (y + 400 * q) with (y + (100 * q) * 4) at 1 by lia.
  replace (y + 400 * q) with (y + (4 * q) * 100) at 1 by lia.
  replace (y + 400 * q) with (y + q * 400) by lia.
  now rewrite !Z.mod_add by lia.
Qed.

Lemma days_before_year_periodo (y q : Z) :
  days_before_year (y + 400 * q) = days_before_year y + DI400Y * q.
Proof. unfold days_before_year, DI400Y. Z.div_mod_to_equations. lia. Qed.

Lemma ymd2ord_periodo (y m d q : Z) :
  ymd2ord (y + 400 * q) m d = ymd2ord y m d + DI400Y * q.
Proof.
  unfold ymd2ord, days_before_month.
  rewrite days_before_year_periodo, is_leap_periodo. lia.
Qed.

Lemma valid_mes_dia_periodo (y m d q : Z) :
  valid_mes_dia (mkdate (y + 400 * q) m d) = valid_mes_dia (mkdate y m d).
Proof.
  unfold valid_mes_dia, days_in_month. cbn [year month day].
  now rewrite is_leap_periodo.
Qed.

Lemma confere_desde_spec (fuel : nat) (n k : Z) :
  confere_desde fuel n = true ->
  n <= k < n + Z.of_nat fuel ->
  confere_ordinal k = true.
Proof.
  revert n. induction fuel as [|f IH]; intros n H Hk; [lia|].
  cbn [confere_desde] in H. apply andb_prop in H. destruct H as [Hn Hf].
  destruct (Z.eq_dec k n) as [-> | Hne]; [exact Hn|].
  apply (IH (n + 1)); [exact Hf | lia].
Qed.

(** The four hundred years from 0001-01-01 on, one ordinal at a time. *)
Lemma confere_ciclo : confere_desde (Z.to_nat DI400Y) 1 = true.
Proof. vm_compute. reflexivity. Qed.

(** Every ordinal: the others are those of the first cycle, whole cycles
    away. *)
Lemma confere_todos (n : Z) : confere_ordinal n = true.
Proof.
  pose (q := (n - 1) / DI400Y). pose (r := (n - 1) mod DI400Y + 1).
  assert (Hr : 1 <= r < 1 + Z.of_nat (Z.to_nat DI400Y)).
  { unfold r, DI400Y. rewrite Z2Nat.id by lia.
    pose proof (Z.mod_pos_bound (n - 1) 146097). lia. }
  assert (Hn : n = r + DI400Y * q).
  { unfold r, q. pose proof (Z.div_mod (n - 1) DI400Y). unfold DI400Y in *. lia. }
  pose proof (confere_desde_spec _ 1 r confere_ciclo Hr) as Hc.
  unfold confere_ordinal in *. cbv zeta in *.
  rewrite Hn at 1 2 3 4 5. rewrite ord2ymd_periodo. cbn [year month day].
  rewrite valid_mes_dia_periodo, ymd2ord_periodo.
  apply andb_prop in Hc. destruct Hc as [Hv Ho]. apply Z.eqb_eq in Ho.
  destruct (ord2ymd r) as [y m d]. cbn [year month day] in *.
  rewrite Hv. simpl. apply Z.eqb_eq. lia.
Qed.

Lemma toordinal_fromordinal (n : Z) : toordinal (fromordinal n) = n.
Proof.
  pose proof (confere_todos n) as H. unfold confere_ordinal in H. cbv zeta in H.
  apply andb_prop in H. destruct H as [_ H]. now apply Z.eqb_eq in H.
Qed.

Lemma dentro_do_ano_md (dt : date) :
  valid_mes_dia dt = true ->
  1 <= days_before_month (year dt) (month dt) + day dt
    <= 365 + b2z (is_leap (year dt)).
Proof.
  unfold valid_mes_dia. destruct dt as [y m d]. simpl.
  rewrite !andb_true_iff, !Z.leb_le. intros [[[Hm1 Hm2] Hd1] Hd2].
  assert (Hm : m = 1 \/ m = 2 \/ m = 3 \/ m = 4 \/ m = 5 \/ m = 6 \/ m = 7 \/
               m = 8 \/ m = 9 \/ m = 10 \/ m = 11 \/ m = 12) by lia.
  unfold days_in_month, days_before_month, tab, b2z in *.
  repeat (destruct Hm as [-> | Hm]); [.. | subst m];
    destruct (is_leap y); simpl in *; lia.
Qed.

(** A month and day of the calendar whose ordinal is in the supported range
    has its year in the supported range. *)
Lemma valid_pelo_ordinal (d : date) :
  valid_mes_dia d = true ->
  1 <= toordinal d <= MAXORDINAL ->
  valid d = true.
Proof.
  intros Hmd Hn. pose proof (dentro_do_ano_md _ Hmd) as Hd.
  assert (H1 : days_before_year 1 = 0) by (vm_compute; reflexivity).
  assert (H2 : days_before_year 10000 = 3652059) by (vm_compute; reflexivity).
  assert (H3 : MAXORDINAL = 3652059) by (vm_compute; reflexivity).
  pose proof (Calendario.days_before_year_succ (year d)) as Hs.
  unfold toordinal, ymd2ord in Hn.
  assert (Hy : 1 <= year d <= 9999).
  { split.
    - destruct (Z.le_gt_cases 1 (year d)) as [Hle | Hgt]; [exact Hle | exfalso].
      pose proof (Calendario.days_before_year_mono (year d + 1) 1 ltac:(lia)) as Hm.
      lia.
    - destruct (Z.le_gt_cases (year d) 9999) as [Hle | Hgt]; [exact Hle | exfalso].
      pose proof (Calendario.days_before_year_mono 10000 (year d) ltac:(lia)) as Hm.
      lia. }
  unfold valid, MINYEAR, MAXYEAR. unfold valid_mes_dia in Hmd.
  rewrite !andb_true_iff in *. rewrite !Z.leb_le in *. tauto.
Qed.

(** The ordinals of the supported range give dates of the supported
    years. *)
Lemma fromordinal_valid (n : Z) :
  1 <= n <= MAXORDINAL -> valid (fromordinal n) = true.
Proof.
  intros Hn. pose proof (confere_todos n) as H.
  unfold confere_ordinal in H. cbv zeta in H.
  apply andb_prop in H. destruct H as [Hmd _].
  apply valid_pelo_ordinal; [exact Hmd|].
  now rewrite toordinal_fromordinal.
Qed.

(** On calendar dates, the comparisons of dates are the comparisons of
    their ordinals. *)
Lemma lt_ordinal (a b : date) :
  valid a = true -> valid b = true ->
  (lt a b = true <-> toordinal a < toordinal b).
Proof.
  intros Ha Hb. split; [now apply Calendario.toordinal_mono|].
  intros Hlt. destruct (lt a b) eqn:Hab; [reflexivity | exfalso].
  destruct (lt b a) eqn:Hba.
  - pose proof (Calendario.toordinal_mono b a Hb Ha Hba). lia.
  - apply date_lt_false in Hab. apply date_lt_false in Hba.
    destruct a as [ya ma da], b as [yb mb db]. cbn [year month day] in *.
    assert (ya = yb /\ ma = mb /\ da = db) as (-> & -> & ->) by lia. lia.
Qed.

Lemma le_ordinal (a b : date) :
  valid a = true -> valid b = true ->
  (le a b = true <-> toordinal a <= toordinal b).
Proof.
  intros Ha Hb. unfold le. rewrite orb_true_iff, (lt_ordinal a b Ha Hb). split.
  - intros [H | H]; [lia|]. unfold eqb in H.
    rewrite !andb_true_iff, !Z.eqb_eq in H.
    destruct a, b. cbn [year month day] in *.
    destruct H as [[-> ->] ->]. lia.
  - intros H. destruct (Z.eq_dec (toordinal a) (toordinal b)) as [E | N]; [|left; lia].
    right. destruct (lt a b) eqn:Hab.
    + apply (lt_ordinal a b Ha Hb) in Hab. lia.
    + destruct (lt b a) eqn:Hba.
      * apply (lt_ordinal b a Hb Ha) in Hba. lia.
      * apply date_lt_false in Hab. apply date_lt_false in Hba.
        unfold eqb. rewrite !andb_true_iff, !Z.eqb_eq. lia.
Qed.

(** [d + timedelta(days=k)], when it is a date, is a calendar date [k] days
    after [d]. *)
Lemma add_days_spec (d r : date) (k : Z) :
  add_days d k = Some r -> valid r = true /\ toordinal r = toordinal d + k.
Proof.
  unfold add_days.
  destruct ((0 <? toordinal d + k) && (toordinal d + k <=? MAXORDINAL)) eqn:H;
    [|discriminate].
  apply andb_prop in H. destruct H as [H1 H2].
  apply Z.ltb_lt in H1. apply Z.leb_le in H2.
  intros [= <-]. split; [apply fromordinal_valid; lia | apply toordinal_fromordinal].
Qed.

End Ordinais.

(** ** The alerts and the number of days they show *)

(** X18: the status of an alert and the number of days it shows agree. The
    dates being calendar dates, every entry of the alert list of
    [pagina_relatorios] shows the number of days from today to the expiry
    date, which is at most 7; the entry is VENCIDO exactly when that number
    is negative and PROXIMO_VENCIMENTO exactly when it is between 0 and 7;
    and an instance of an area is listed exactly when its expiry date is at
    most 7 days after today. *)
Theorem alertas_pelos_dias (s : Store) (hoje limite : PyDate.date) :
  PyDate.valid hoje = true ->
  (forall p, In p (produtos s) -> PyDate.valid (data_validade p) = true) ->
  PyDate.add_days hoje dias_alerta_antecedencia = Some limite ->
  exists r,
    pagina_relatorios s hoje = Some r /\
    (forall e,
       In e (produtos_alerta_validade r) ->
       dias_para_vencer e
       = PyDate.toordinal (data_validade (produto e)) - PyDate.toordinal hoje /\
       dias_para_vencer e <= 7 /\
       (status_validade e = "VENCIDO" <-> dias_para_vencer e < 0) /\
       (status_validade e = "PROXIMO_VENCIMENTO" <-> 0 <= dias_para_vencer e)) /\
    (forall a p,
       In a (AreaArmazem_listar_todas s) -> In p (listar_produtos s a) ->
       (PyDate.toordinal (data_validade p) - PyDate.toordinal hoje <= 7 <->
        exists e, In e (produtos_alerta_validade r) /\ produto e = p /\
                  alerta_area_id e = id_area a)).
Proof.
  intros Hhoje Hval Hlim.
  destruct (Ordinais.add_days_spec _ _ _ Hlim) as [Hvl Hol].
  unfold dias_alerta_antecedencia in Hol.
  destruct (alertas_classificacao s hoje limite Hlim) as (r & Hr & Hinst & Hent).
  exists r. split; [exact Hr|]. split.
  - intros e He.
    destruct (Hent e He) as ((a & _ & Hp & _) & HV & HP & _ & Hd).
    apply listar_produtos_In in Hp. destruct Hp as [Hp _].
    pose proof (Hval _ Hp) as Hvp.
    pose proof (Ordinais.lt_ordinal _ _ Hvp Hhoje) as Hlt.
    pose proof (Ordinais.le_ordinal _ _ Hvp Hvl) as Hle.
    unfold PyDate.sub_days in Hd. rewrite Hd.
    split; [reflexivity|].
    destruct (PyDate.lt (data_validade (produto e)) hoje) eqn:E1.
    + pose proof (proj1 Hlt eq_refl) as Ho.
      split; [lia|]. split.
      * split; [intros _; lia | intros _; apply HV; reflexivity].
      * split; [intros H; apply HP in H; destruct H as [H _]; discriminate H | lia].
    + assert (Ho : ~ PyDate.toordinal (data_validade (produto e)) < PyDate.toordinal hoje).
      { intros H. apply Hlt in H. discriminate H. }
      destruct (Hent e He) as (_ & _ & _ & [Hs | Hs] & _).
      * apply HV in Hs. discriminate Hs.
      * pose proof (proj1 HP Hs) as [_ Hl]. apply Hle in Hl.
        split; [lia|]. split.
        -- split; [intros H; apply HV in H; discriminate H | lia].
        -- split; [lia | intros _; exact Hs].
  - intros a p Ha Hp.
    destruct (Hinst a p Ha Hp) as (H1 & H2 & H3).
    pose proof (proj1 (listar_produtos_In _ _ _) Hp) as [Hp' _].
    pose proof (Hval _ Hp') as Hvp.
    pose proof (Ordinais.lt_ordinal _ _ Hvp Hhoje) as Hlt.
    pose proof (Ordinais.le_ordinal _ _ Hvp Hvl) as Hle.
    split.
    + intros Hd. destruct (PyDate.lt (data_validade p) hoje) eqn:E1.
      * eexists. split; [apply H1; reflexivity|]. split; reflexivity.
      * assert (El : PyDate.le (data_validade p) limite = true) by (apply Hle; lia).
        eexists. split; [apply H2; [reflexivity | exact El]|]. split; reflexivity.
    + intros (e & He & Hpe & _).
      destruct (PyDate.lt (data_validade p) hoje) eqn:E1.
      * pose proof (proj1 Hlt eq_refl). lia.
      * destruct (PyDate.le (data_validade p) limite) eqn:E2.
        -- pose proof (proj1 Hle eq_refl). lia.
        -- exfalso. exact (H3 eq_refl eq_refl e He Hpe).
Qed.

(** X18 at the example warehouse on 2024-01-10. *)
Lemma alertas_pelos_dias_witness :
  exists r,
    pagina_relatorios Exemplo.loja Exemplo.hoje = Some r /\
    (forall e,
       In e (produtos_alerta_validade r) ->
       dias_para_vencer e
       = PyDate.toordinal (data_validade (produto e)) - PyDate.toordinal Exemplo.hoje /\
       dias_para_vencer e <= 7 /\
       (status_validade e = "VENCIDO" <-> dias_para_vencer e < 0) /\
       (status_validade e = "PROXIMO_VENCIMENTO" <-> 0 <= dias_para_vencer e)) /\
    (forall a p,
       In a (AreaArmazem_listar_todas Exemplo.loja) ->
       In p (listar_produtos Exemplo.loja a) ->
       (PyDate.toordinal (data_validade p) - PyDate.toordinal Exemplo.hoje <= 7 <->
        exists e, In e (produtos_alerta_validade r) /\ produto e = p /\
                  alerta_area_id e = id_area a)).
Proof.
  apply (alertas_pelos_dias Exemplo.loja Exemplo.hoje (PyDate.mkdate 2024 1 17)).
  - reflexivity.
  - intros p Hp. simpl in Hp.
    repeat (destruct Hp as [<- | Hp]; [reflexivity|]). destruct Hp.
  - reflexivity.
Defined.

(** ** Runs of requests: what no run of the stock views does *)

Section Corridas.
Import Pedidos.

Lemma nao_negativo_map (s : Store) (f : ProdutoLacteo -> ProdutoLacteo) :
  estoque_nao_negativo s ->
  (forall p, In p (produtos s) -> 0 <= quantidade p -> 0 <= quantidade (f p)) ->
  estoque_nao_negativo (com_produtos s (map f (produtos s))).
Proof.
  unfold estoque_nao_negativo. cbn [com_produtos produtos].
  rewrite !Forall_forall. intros H Hf x Hx.
  apply in_map_iff in Hx. destruct Hx as (p & <- & Hp). auto.
Qed.

Lemma adicionar_produto_nao_negativo (s : Store) (a : AreaArmazem)
    (novo : ProdutoLacteo) :
  estoque_nao_negativo s -> 0 <= quantidade novo ->
  estoque_nao_negativo (adicionar_produto s a novo).
Proof.
  intros H Hq. unfold adicionar_produto.
  destruct (find _ (produtos s)) as [e|] eqn:He.
  - apply nao_negativo_map; [exact H|]. intros p Hp Hpq.
    apply find_some in He. destruct He as [He _].
    unfold estoque_nao_negativo in H. rewrite Forall_forall in H.
    pose proof (H e He). destruct (id p =? id e); simpl; lia.
  - unfold estoque_nao_negativo in *. cbn [com_produtos produtos].
    rewrite Forall_forall in *. intros x Hx. apply in_app_or in Hx.
    destruct Hx as [Hx | [<- | []]]; [auto | simpl; lia].
Qed.

Lemma remover_produto_nao_negativo (s : Store) (a : AreaArmazem) (i q : Z) :
  estoque_nao_negativo s ->
  estoque_nao_negativo (fst (remover_produto s a i q)).
Proof.
  intros H. unfold remover_produto.
  destruct (buscar_instancia_por_id s i) as [p|]; [|exact H].
  destruct (str_eqb (area p) (id_area a) && (0 <? q) && (q <=? quantidade p))
    eqn:E; [|exact H].
  cbn [fst]. apply nao_negativo_map; [exact H|]. intros p' _ Hp'.
  apply andb_prop in E. destruct E as [_ E]. apply Z.leb_le in E.
  destruct (id p' =? i); simpl; lia.
Qed.

Lemma atualizar_instancia_nao_negativo (s : Store) (p : ProdutoLacteo) (q : Z)
    (dv lot : str) :
  estoque_nao_negativo s ->
  estoque_nao_negativo (fst (atualizar_instancia s p q dv lot)).
Proof.
  intros H. unfold atualizar_instancia.
  destruct (PyDate.strptime_Ymd dv) as [d|]; [|exact H].
  destruct (q <? 0) eqn:E; [exact H|]. apply Z.ltb_ge in E.
  cbn [fst]. apply nao_negativo_map; [exact H|]. intros p' _ Hp'.
  destruct (id p' =? id p); simpl; lia.
Qed.

Lemma atende_nao_negativo (s : Store) (p : PedidoEstoque) :
  estoque_nao_negativo s -> estoque_nao_negativo (fst (atende s p)).
Proof.
  intros H. destruct p as [ida form | usuario agora ida form | m ida i form
                          | ida i | ida]; cbn [atende].
  - unfold adicionar_produto_na_area.
    destruct (AreaArmazem_buscar_por_id s ida) as [a|]; [|exact H].
    destruct (negb _); [exact H|].
    destruct (PyStr.py_int _) as [q|]; [|exact H].
    destruct (q <=? 0) eqn:Hq; [exact H|]. apply Z.leb_gt in Hq.
    destruct (ProdutoCatalogo_buscar_por_id s _) as [pc|]; [|exact H].
    destruct (novo_ProdutoLacteo _ _ _ _ _) as [novo|] eqn:Hn; [|exact H].
    cbn [fst]. apply adicionar_produto_nao_negativo; [exact H|].
    unfold novo_ProdutoLacteo in Hn.
    destruct (PyDate.strptime_Ymd _); [|discriminate Hn].
    injection Hn as <-. simpl. lia.
  - unfold vender_produto_da_area.
    destruct (AreaArmazem_buscar_por_id s ida) as [a|]; [|exact H].
    destruct (negb _); [exact H|].
    destruct (PyStr.py_int (campo (form_quantidade_venda form))) as [q|]; [|exact H].
    destruct (PyStr.py_int (campo (form_id_instancia_venda form))) as [i|]; [|exact H].
    destruct (q <=? 0); [exact H|].
    destruct (buscar_instancia_por_id s i) as [p|]; [|exact H].
    destruct (negb _); [exact H|].
    destruct (quantidade p <? q); [exact H|].
    pose proof (remover_produto_nao_negativo s a (id p) q H) as Hr.
    destruct (remover_produto s a (id p) q) as [s1 ok]. cbn [fst] in Hr.
    destruct ok; exact Hr.
  - unfold editar_produto_em_area.
    destruct (AreaArmazem_buscar_por_id s ida) as [a|]; [|exact H].
    destruct (buscar_instancia_por_id s i) as [p|]; [|exact H].
    destruct (negb _); [exact H|].
    destruct m; [exact H|].
    destruct (negb _); [exact H|].
    destruct (PyStr.py_int _) as [q|]; [|exact H].
    destruct (q <? 0); [exact H|].
    pose proof (atualizar_instancia_nao_negativo s p q
                  (campo (form_nova_data_validade form))
                  (normaliza_lote (campo (form_novo_lote form))) H) as Hr.
    destruct (atualizar_instancia s p q _ _) as [s1 ok]. cbn [fst] in Hr.
    destruct ok; exact Hr.
  - unfold excluir_produto_de_area.
    destruct (AreaArmazem_buscar_por_id s ida) as [a|]; [|exact H].
    destruct (buscar_instancia_por_id s i) as [p|]; [|exact H].
    destruct (negb _); [exact H|].
    cbn [deletar_instancia fst]. unfold estoque_nao_negativo in *.
    cbn [com_produtos produtos]. rewrite Forall_forall in *.
    intros x Hx. apply filter_In in Hx. destruct Hx as [Hx _]. auto.
  - unfold excluir_area, AreaArmazem_deletar.
    destruct (AreaArmazem_buscar_por_id s ida) as [a|]; [|exact H].
    destruct (listar_produtos s a); exact H.
Qed.

(** The three refusals by which the handlers keep quantities from going
    negative, each with the store as it was. *)
Lemma adicionar_quantidade_recusada (s : Store) (ida : str) (form : FormAdicionar)
    (a : AreaArmazem) (q : Z) :
  AreaArmazem_buscar_por_id s ida = Some a ->
  truthy (form_id_produto_catalogo form) = true ->
  truthy (form_data_validade form) = true ->
  truthy (form_lote form) = true ->
  py_int (campo (form_quantidade form)) = Some q ->
  q <= 0 ->
  adicionar_produto_na_area s ida form
  = (s, responde quantidade_deve_ser_positiva warning (redirect_detalhes_da_area ida)).
Proof.
  intros Ha Hc Hd Hl Hq Hq0. unfold adicionar_produto_na_area. rewrite Ha.
  rewrite Hc, (py_int_truthy _ _ Hq), Hd, Hl. simpl negb. cbv iota.
  rewrite Hq. now replace (q <=? 0) with true by (symmetry; apply Z.leb_le; lia).
Qed.

Lemma editar_quantidade_recusada (s : Store) (ida : str) (i : Z) (form : FormEditar)
    (a : AreaArmazem) (p : ProdutoLacteo) (q : Z) :
  AreaArmazem_buscar_por_id s ida = Some a ->
  buscar_instancia_por_id s i = Some p ->
  existsb (fun p' => id p' =? i) (listar_produtos s a) = true ->
  truthy (form_nova_data_validade form) = true ->
  truthy (form_novo_lote form) = true ->
  py_int (campo (form_nova_quantidade form)) = Some q ->
  q < 0 ->
  editar_produto_em_area s POST ida i form
  = (s, responde quantidade_nao_pode_ser_negativa warning
          render_admin_form_produto_area).
Proof.
  intros Ha Hp He Hd Hl Hq Hq0. unfold editar_produto_em_area.
  rewrite Ha, Hp, He. simpl negb. cbv iota.
  rewrite (py_int_truthy _ _ Hq), Hd, Hl. simpl negb. cbv iota.
  rewrite Hq. now replace (q <? 0) with true by (symmetry; apply Z.ltb_lt; lia).
Qed.

Lemma vender_quantidade_recusada (s : Store) (usuario agora ida : str)
    (form : FormVenda) (a : AreaArmazem) (p : ProdutoLacteo) (q i : Z) :
  AreaArmazem_buscar_por_id s ida = Some a ->
  truthy (form_destino_venda form) = true ->
  py_int (campo (form_quantidade_venda form)) = Some q ->
  py_int (campo (form_id_instancia_venda form)) = Some i ->
  0 < q ->
  buscar_instancia_por_id s i = Some p ->
  existsb (fun p' => id p' =? i) (listar_produtos s a) = true ->
  quantidade p < q ->
  vender_produto_da_area s usuario agora ida form
  = (s, responde (quantidade_insuficiente (nome p) (lote p) (quantidade p)) warning
          (redirect_detalhes_da_area ida)).
Proof.
  intros Ha Hd Hq Hi Hq0 Hp He Hlt. unfold vender_produto_da_area.
  rewrite Ha, (py_int_truthy _ _ Hi), (py_int_truthy _ _ Hq), Hd.
  simpl negb. cbv iota. rewrite Hq, Hi.
  replace (q <=? 0) with false by (symmetry; apply Z.leb_gt; lia).
  rewrite Hp, He. simpl negb. cbv iota.
  now replace (quantidade p <? q) with true by (symmetry; apply Z.ltb_lt; lia).
Qed.

(** X19: the stock never goes negative. From a store without negative
    quantities, no run of requests to the views that write to the store
    (add, sell, edit, delete a batch, delete an area), whatever the forms
    hold, leaves an instance with a negative quantity. The handlers
    themselves turn down what would break this, each with the store as it
    was and its own warning: an add of a quantity that is not positive, an
    edit to a negative quantity, and a sale of more than the instance
    holds. *)
Theorem estoque_nunca_negativo (s : Store) :
  (estoque_nao_negativo s ->
   forall ps, estoque_nao_negativo (atende_todos s ps)) /\
  (forall ida form a q,
     AreaArmazem_buscar_por_id s ida = Some a ->
     truthy (form_id_produto_catalogo form) = true ->
     truthy (form_data_validade form) = true ->
     truthy (form_lote form) = true ->
     py_int (campo (form_quantidade form)) = Some q ->
     q <= 0 ->
     adicionar_produto_na_area s ida form
     = (s, responde quantidade_deve_ser_positiva warning
             (redirect_detalhes_da_area ida))) /\
  (forall ida i form a p q,
     AreaArmazem_buscar_por_id s ida = Some a ->
     buscar_instancia_por_id s i = Some p ->
     existsb (fun p' => id p' =? i) (listar_produtos s a) = true ->
     truthy (form_nova_data_validade form) = true ->
     truthy (form_novo_lote form) = true ->
     py_int (campo (form_nova_quantidade form)) = Some q ->
     q < 0 ->
     editar_produto_em_area s POST ida i form
     = (s, responde quantidade_nao_pode_ser_negativa warning
             render_admin_form_produto_area)) /\
  (forall usuario agora ida form a p q i,
     AreaArmazem_buscar_por_id s ida = Some a ->
     truthy (form_destino_venda form) = true ->
     py_int (campo (form_quantidade_venda form)) = Some q ->
     py_int (campo (form_id_instancia_venda form)) = Some i ->
     0 < q ->
     buscar_instancia_por_id s i = Some p ->
     existsb (fun p' => id p' =? i) (listar_produtos s a) = true ->
     quantidade p < q ->
     vender_produto_da_area s usuario agora ida form
     = (s, responde (quantidade_insuficiente (nome p) (lote p) (quantidade p))
             warning (redirect_detalhes_da_area ida))).
Proof.
  split; [|split; [|split]].
  - intros H ps. unfold atende_todos. revert s H.
    induction ps as [|p ps IH]; intros s H; [exact H|].
    cbn [fold_left]. apply IH. now apply atende_nao_negativo.
  - intros. now apply (adicionar_quantidade_recusada s ida form a q).
  - intros. now apply (editar_quantidade_recusada s ida i form a p q).
  - intros. now apply (vender_quantidade_recusada s usuario agora ida form a p q i).
Qed.

Lemma atende_livro (s : Store) (p : PedidoEstoque) :
  exists novas,
    vendas (fst (atende s p)) = (vendas s ++ novas)%list /\
    Forall (fun v => 0 < quantidade_vendida v) novas /\
    (List.length novas <= if e_venda p then 1 else 0)%nat.
Proof.
  assert (Hnada : forall s', vendas s' = vendas s ->
            exists novas, vendas s' = (vendas s ++ novas)%list /\
              Forall (fun v => 0 < quantidade_vendida v) novas /\
              (List.length novas <= if e_venda p then 1 else 0)%nat).
  { intros s' E. exists []. rewrite E, app_nil_r.
    split; [reflexivity|]. split; [constructor | simpl; lia]. }
  destruct p as [ida form | usuario agora ida form | m ida i form
                | ida i | ida]; cbn [atende].
  - apply Hnada. unfold adicionar_produto_na_area.
    destruct (AreaArmazem_buscar_por_id s ida) as [a|]; [|reflexivity].
    destruct (negb _); [reflexivity|].
    destruct (PyStr.py_int _) as [q|]; [|reflexivity].
    destruct (q <=? 0); [reflexivity|].
    destruct (ProdutoCatalogo_buscar_por_id s _) as [pc|]; [|reflexivity].
    destruct (novo_ProdutoLacteo _ _ _ _ _) as [novo|]; [|reflexivity].
    cbn [fst]. unfold adicionar_produto.
    destruct (find _ (produtos s)); reflexivity.
  - destruct (vender_livro s usuario agora ida form) as [E | (v & E & _ & _ & _ & _ & Hq)].
    + now apply Hnada.
    + exists [v]. split; [exact E|]. split; [now repeat constructor | simpl; lia].
  - apply Hnada. unfold editar_produto_em_area.
    destruct (AreaArmazem_buscar_por_id s ida) as [a|]; [|reflexivity].
    destruct (buscar_instancia_por_id s i) as [p|]; [|reflexivity].
    destruct (negb _); [reflexivity|].
    destruct m; [reflexivity|].
    destruct (negb _); [reflexivity|].
    destruct (PyStr.py_int _) as [q|]; [|reflexivity].
    destruct (q <? 0); [reflexivity|].
    unfold atualizar_instancia.
    destruct (PyDate.strptime_Ymd _); [|reflexivity].
    destruct (q <? 0); reflexivity.
  - apply Hnada. unfold excluir_produto_de_area.
    destruct (AreaArmazem_buscar_por_id s ida) as [a|]; [|reflexivity].
    destruct (buscar_instancia_por_id s i) as [p|]; [|reflexivity].
    destruct (negb _); reflexivity.
  - apply Hnada. unfold excluir_area, AreaArmazem_deletar.
    destruct (AreaArmazem_buscar_por_id s ida) as [a|]; [|reflexivity].
    destruct (listar_produtos s a); reflexivity.
Qed.

(** X20: the sales ledger only grows. After any run of requests to the views
    that write to the store, the ledger is the ledger before followed by
    new records: no record is removed, altered or reordered; every new
    record has a positive quantity; and there are at most as many new
    records as there were sell requests. *)
Theorem livro_de_vendas_so_cresce (s : Store) (ps : list PedidoEstoque) :
  exists novas,
    vendas (atende_todos s ps) = (vendas s ++ novas)%list /\
    Forall (fun v => 0 < quantidade_vendida v) novas /\
    (List.length novas <= List.length (List.filter e_venda ps))%nat.
Proof.
  unfold atende_todos. revert s.
  induction ps as [|p ps IH]; intros s.
  - exists []. rewrite app_nil_r. repeat split; [constructor | simpl; lia].
  - cbn [fold_left]. destruct (atende_livro s p) as (n1 & E1 & F1 & L1).
    destruct (IH (fst (atende s p))) as (n2 & E2 & F2 & L2).
    exists (n1 ++ n2)%list. split; [|split].
    + rewrite E2, E1. now rewrite <- app_assoc.
    + apply Forall_app. now split.
    + rewrite length_app. cbn [List.filter].
      destruct (e_venda p); simpl in *; lia.
Qed.

End Corridas.

(** ** Sales move units from the stock to the ledger *)

Section Conservacao.
Import Pedidos.

Lemma mesmo_id_mesma_linha (l : list ProdutoLacteo) (x y : ProdutoLacteo) :
  NoDup (map id l) -> In x l -> In y l -> id x = id y -> x = y.
Proof.
  induction l as [|z l IH]; simpl; intros Hn Hx Hy E; [destruct Hx|].
  inversion Hn as [|? ? Hz Hl]; subst.
  destruct Hx as [-> | Hx], Hy as [-> | Hy].
  - reflexivity.
  - exfalso. apply Hz. rewrite E. now apply in_map.
  - exfalso. apply Hz. rewrite <- E. now apply in_map.
  - now apply IH.
Qed.

Lemma soma_apos_troca (l : list ProdutoLacteo) (i x : Z) (p : ProdutoLacteo) :
  NoDup (map id l) ->
  find (fun p' => id p' =? i) l = Some p ->
  fold_right Z.add 0
    (map quantidade
       (map (fun p' => if id p' =? i then com_quantidade p' x else p') l))
  = fold_right Z.add 0 (map quantidade l) - quantidade p + x.
Proof.
  induction l as [|z l IH]; simpl; intros Hn Hf; [discriminate Hf|].
  inversion Hn as [|? ? Hz Hl]; subst.
  destruct (id z =? i) eqn:E.
  - injection Hf as ->. apply Z.eqb_eq in E.
    rewrite map_id_fora.
    + simpl. lia.
    + intros y Hy. apply Z.eqb_neq. intros Ey. apply Hz.
      rewrite E, <- Ey. now apply in_map.
  - rewrite (IH Hl Hf). lia.
Qed.

Lemma ids_apos_troca (l : list ProdutoLacteo) (i x : Z) :
  map id (map (fun p' => if id p' =? i then com_quantidade p' x else p') l)
  = map id l.
Proof.
  rewrite map_map. apply map_ext. intros p. now destruct (id p =? i).
Qed.

Lemma unidades_vendidas_mais_uma (vs : list Venda) (v : Venda) :
  unidades_vendidas (vs ++ [v]) = unidades_vendidas vs + quantidade_vendida v.
Proof.
  unfold unidades_vendidas. induction vs as [|w vs IH]; simpl; [lia|].
  simpl in IH. rewrite IH. lia.
Qed.

Lemma vender_conserva (s : Store) (usuario agora ida : str) (form : FormVenda) :
  NoDup (map id (produtos s)) ->
  let s' := fst (vender_produto_da_area s usuario agora ida form) in
  map id (produtos s') = map id (produtos s) /\
  unidades_em_estoque s' + unidades_vendidas (vendas s')
  = unidades_em_estoque s + unidades_vendidas (vendas s).
Proof.
  intros Hn.
  destruct (vender_casos s usuario agora ida form)
    as [[E _] | (a & q & i & p & Ha & Hd & Hq & Hi & Hq0 & Hp & He & Hle & _)].
  - cbv zeta. rewrite E. auto.
  - destruct (buscar_instancia_id _ _ _ Hp) as [Hid Hin].
    apply existsb_exists in He. destruct He as (x & Hx & Hxi).
    apply Z.eqb_eq in Hxi. apply listar_produtos_In in Hx. destruct Hx as [Hx Hxa].
    assert (x = p) as -> by (apply (mesmo_id_mesma_linha (produtos s)); auto; lia).
    cbv zeta.
    rewrite (vender_sucesso s usuario agora ida form a p q i) by (auto; lia).
    unfold unidades_em_estoque.
    cbn [fst Venda_registrar com_produtos produtos vendas].
    split; [apply ids_apos_troca|].
    rewrite (soma_apos_troca (produtos s) i _ p Hn Hp).
    rewrite unidades_vendidas_mais_uma. cbn [quantidade_vendida]. lia.
Qed.

(** X21: sales move units from the stock to the ledger and lose none. When
    the instances of the store have distinct ids, after any run of sell
    requests, accepted or refused, the units in stock plus the units of the
    sale records are what they were before the run. *)
Theorem vendas_conservam_unidades (s : Store) (ps : list PedidoEstoque) :
  NoDup (map id (produtos s)) ->
  Forall (fun p => e_venda p = true) ps ->
  unidades_em_estoque (atende_todos s ps)
  + unidades_vendidas (vendas (atende_todos s ps))
  = unidades_em_estoque s + unidades_vendidas (vendas s).
Proof.
  unfold atende_todos. revert s.
  induction ps as [|p ps IH]; intros s Hn Hps; [reflexivity|].
  inversion Hps as [|? ? Hp Hps']; subst.
  cbn [fold_left].
  destruct p as [| usuario agora ida form | | |]; try discriminate Hp.
  cbn [atende].
  destruct (vender_conserva s usuario agora ida form Hn) as [Hids Hsoma].
  rewrite IH; [exact Hsoma | now rewrite Hids | exact Hps'].
Qed.

(** X21 at the example warehouse: a sale of two units, a sale that asks for
    more than the batch holds, and a sale of a whole batch. *)
Lemma vendas_conservam_unidades_witness :
  let ps := [pedido_vender "ana" "10/01/2024 09:30:00" "A1"
               (mkFormVenda (Some "1") (Some "2") (Some "Mercado Central"));
             pedido_vender "ana" "10/01/2024 09:31:00" "A1"
               (mkFormVenda (Some "1") (Some "4") (Some "Mercado Central"));
             pedido_vender "beto" "10/01/2024 09:32:00" "B2"
               (mkFormVenda (Some "2") (Some "5") (Some "Padaria"))] in
  unidades_em_estoque (atende_todos Exemplo.loja ps) = 11 /\
  unidades_vendidas (vendas (atende_todos Exemplo.loja ps)) = 7 /\
  unidades_em_estoque (atende_todos Exemplo.loja ps)
  + unidades_vendidas (vendas (atende_todos Exemplo.loja ps))
  = unidades_em_estoque Exemplo.loja + unidades_vendidas (vendas Exemplo.loja).
Proof.
  cbv zeta. split; [vm_compute; reflexivity|]. split; [vm_compute; reflexivity|].
  apply vendas_conservam_unidades.
  - simpl. repeat constructor; simpl; intuition lia.
  - repeat constructor.
Defined.

(** X19 at the example warehouse: a sale, an add, an edit to zero and a
    refused edit to a negative quantity; and an add of no units, which is
    turned down. *)
Lemma estoque_nunca_negativo_witness :
  estoque_nao_negativo
    (atende_todos Exemplo.loja
       [pedido_vender "ana" "10/01/2024 09:30:00" "A1"
          (mkFormVenda (Some "1") (Some "5") (Some "Mercado Central"));
        pedido_adicionar "B2"
          (mkFormAdicionar (Some "QUEIJO") (Some "3") (Some "2024-03-01")
                           (Some " q7 "));
        pedido_editar POST "A1" 3
          (mkFormEditar (Some "0") (Some "2024-02-01") (Some "Q1"));
        pedido_editar POST "B2" 2
          (mkFormEditar (Some "-4") (Some "2024-01-15") (Some "L2"))]) /\
  adicionar_produto_na_area Exemplo.loja "B2"
    (mkFormAdicionar (Some "QUEIJO") (Some "0") (Some "2024-03-01") (Some "Q7"))
  = (Exemplo.loja,
     responde quantidade_deve_ser_positiva warning (redirect_detalhes_da_area "B2")).
Proof.
  assert (H : estoque_nao_negativo Exemplo.loja).
  { unfold estoque_nao_negativo. simpl. repeat constructor; simpl; lia. }
  destruct (estoque_nunca_negativo Exemplo.loja) as (Hinv & Hadd & _).
  split; [now apply Hinv|].
  apply (Hadd "B2" _ Exemplo.deposito 0); try reflexivity; discriminate.
Defined.

End Conservacao.
